(** * Buddy matching: compatibility scoring and candidate ranking

    A shallow embedding of [backend/services/buddying.py] (scoring,
    ranking and the creation of a request), of the request handlers of
    [backend/api/buddies.py] and of the cached sports list of
    [backend/api/sports.py].

    Python [float]s are IEEE 754 binary64 numbers.  A float is modelled as
    the rational it denotes, and an arithmetic operation as the exact
    operation followed by rounding to the nearest number with a 53-bit
    significand, ties to even: the IEEE 754 definition of a correctly
    rounded operation, with the exponent left unbounded.  The floats of the
    scorer are zero or lie between 2^-64 and 100 (set sizes are below 2^63),
    far from overflow and from the subnormal range.  Module [Binary64]
    compares the operations with [SpecFloat], the binary64 specification of
    the standard library, on the values the scorer produces.

    Dictionaries are records with optional fields, [None] standing for a
    missing key or a [None] value.  Identifiers are integers, a location
    is a [str] of Unicode code points, and the Supabase client is the
    content of its tables together with the set of queries whose execution
    raises. *)

From Stdlib Require Import ZArith QArith Qround Qpower Lia Lqa.
From Stdlib Require Import SpecFloat Ascii String.
From stdpp Require Import gmap strings list sorting.

(** ** Binary64 arithmetic *)

Module Float.

Local Open Scope Q_scope.

(** Nearest integer, ties to the even one. *)
Definition rne (x : Q) : Z :=
  let f := Qfloor x in
  match Qcompare (x - inject_Z f) (1 # 2) with
  | Lt => f
  | Gt => (f + 1)%Z
  | Eq => if Z.even f then f else (f + 1)%Z
  end.

Definition pow2 (e : Z) : Q := 2 ^ e.

(** [ilog2 x] is the integer [l] with [2^l <= x < 2^(l+1)], for [0 < x]. *)
Definition ilog2 (x : Q) : Z :=
  let c := (Z.log2 (Qnum x) - Z.log2 (Zpos (Qden x)))%Z in
  if Qle_bool (pow2 c) x then c else (c - 1)%Z.

Definition prec : Z := 53.

Definition rnd_pos (x : Q) : Q :=
  let e := (ilog2 x - (prec - 1))%Z in
  Qred (inject_Z (rne (x / pow2 e)) * pow2 e).

(** Rounding of an exact result to the nearest binary64 number. *)
Definition rnd (x : Q) : Q :=
  match Qcompare x 0 with
  | Eq => 0
  | Gt => rnd_pos x
  | Lt => Qred (- rnd_pos (- x))
  end.

Definition fadd (x y : Q) : Q := rnd (x + y).
Definition fmul (x y : Q) : Q := rnd (x * y).

(** [a / b] on Python integers: the correctly rounded quotient. *)
Definition int_truediv (a b : Z) : Q := rnd (inject_Z a / inject_Z b).

(** A decimal literal [n / 10^k], read as the nearest binary64 number. *)
Definition lit (n : Z) (d : positive) : Q := rnd (n # d).

(** [round(x, 2)]: the decimal expansion of [x] is rounded half-to-even at
    the second decimal and the result is read back as a float. *)
Definition round2 (x : Q) : Q := rnd (inject_Z (rne (x * 100)) / 100).

(** The decimal literals of the scorer. *)
Definition c0_35 : Q := Eval vm_compute in lit 35 100.
Definition c0_175 : Q := Eval vm_compute in lit 175 1000.
Definition c0_15 : Q := Eval vm_compute in lit 15 100.
Definition c0_25 : Q := Eval vm_compute in lit 25 100.
Definition c0_125 : Q := Eval vm_compute in lit 125 1000.
Definition c0_20 : Q := Eval vm_compute in lit 20 100.
Definition c0_18 : Q := Eval vm_compute in lit 18 100.
Definition c0_12 : Q := Eval vm_compute in lit 12 100.
Definition c0_08 : Q := Eval vm_compute in lit 8 100.
Definition c0_05 : Q := Eval vm_compute in lit 5 100.
Definition c0_10 : Q := Eval vm_compute in lit 10 100.
Definition c0_075 : Q := Eval vm_compute in lit 75 1000.
Definition c0_025 : Q := Eval vm_compute in lit 25 1000.
Definition c0_02 : Q := Eval vm_compute in lit 2 100.

End Float.

(** ** The [str] methods used on location strings

    A [str] is the list of its code points.  The other strings of the
    model (names, statuses, timestamps) are only compared, ordered or
    tested for emptiness; they are kept as their UTF-8 encodings, on which
    equality, emptiness and the order of code points are the same. *)

Module PyStr.

Local Open Scope N_scope.

Definition str : Type := list N.

(** The code points for which [str.isspace] holds; [str.strip] and
    [str.split] without arguments remove exactly these. *)
Definition whitespace : list N :=
  [0x9; 0xA; 0xB; 0xC; 0xD; 0x1C; 0x1D; 0x1E; 0x1F; 0x20; 0x85; 0xA0; 0x1680; 0x2000; 0x2001;
   0x2002; 0x2003; 0x2004; 0x2005; 0x2006; 0x2007; 0x2008; 0x2009; 0x200A; 0x2028; 0x2029;
   0x202F; 0x205F; 0x3000].

(** The simple lowercase mappings of Unicode 14.0, the version of
    CPython 3.11: [(first, last, step, target)] maps [first + i * step],
    up to [last], to [target + i * step].  The runs are listed by
    increasing [first].  U+0130 and U+03A3 are treated apart. *)
Definition lower_runs : list (N * N * N * N) :=
  [(0x41, 0x5A, 1, 0x61); (0xC0, 0xD6, 1, 0xE0); (0xD8, 0xDE, 1, 0xF8);
   (0x100, 0x12E, 2, 0x101); (0x132, 0x136, 2, 0x133); (0x139, 0x147, 2, 0x13A);
   (0x14A, 0x176, 2, 0x14B); (0x178, 0x178, 1, 0xFF); (0x179, 0x17D, 2, 0x17A);
   (0x181, 0x181, 1, 0x253); (0x182, 0x184, 2, 0x183); (0x186, 0x186, 1, 0x254);
   (0x187, 0x187, 1, 0x188); (0x189, 0x18A, 1, 0x256); (0x18B, 0x18B, 1, 0x18C);
   (0x18E, 0x18E, 1, 0x1DD); (0x18F, 0x18F, 1, 0x259); (0x190, 0x190, 1, 0x25B);
   (0x191, 0x191, 1, 0x192); (0x193, 0x193, 1, 0x260); (0x194, 0x194, 1, 0x263);
   (0x196, 0x196, 1, 0x269); (0x197, 0x197, 1, 0x268); (0x198, 0x198, 1, 0x199);
   (0x19C, 0x19C, 1, 0x26F); (0x19D, 0x19D, 1, 0x272); (0x19F, 0x19F, 1, 0x275);
   (0x1A0, 0x1A4, 2, 0x1A1); (0x1A6, 0x1A6, 1, 0x280); (0x1A7, 0x1A7, 1, 0x1A8);
   (0x1A9, 0x1A9, 1, 0x283); (0x1AC, 0x1AC, 1, 0x1AD); (0x1AE, 0x1AE, 1, 0x288);
   (0x1AF, 0x1AF, 1, 0x1B0); (0x1B1, 0x1B2, 1, 0x28A); (0x1B3, 0x1B5, 2, 0x1B4);
   (0x1B7, 0x1B7, 1, 0x292); (0x1B8, 0x1B8, 1, 0x1B9); (0x1BC, 0x1BC, 1, 0x1BD);
   (0x1C4, 0x1C4, 1, 0x1C6); (0x1C5, 0x1C5, 1, 0x1C6); (0x1C7, 0x1C7, 1, 0x1C9);
   (0x1C8, 0x1C8, 1, 0x1C9); (0x1CA, 0x1CA, 1, 0x1CC); (0x1CB, 0x1DB, 2, 0x1CC);
   (0x1DE, 0x1EE, 2, 0x1DF); (0x1F1, 0x1F1, 1, 0x1F3); (0x1F2, 0x1F4, 2, 0x1F3);
   (0x1F6, 0x1F6, 1, 0x195); (0x1F7, 0x1F7, 1, 0x1BF); (0x1F8, 0x21E, 2, 0x1F9);
   (0x220, 0x220, 1, 0x19E); (0x222, 0x232, 2, 0x223); (0x23A, 0x23A, 1, 0x2C65);
   (0x23B, 0x23B, 1, 0x23C); (0x23D, 0x23D, 1, 0x19A); (0x23E, 0x23E, 1, 0x2C66);
   (0x241, 0x241, 1, 0x242); (0x243, 0x243, 1, 0x180); (0x244, 0x244, 1, 0x289);
   (0x245, 0x245, 1, 0x28C); (0x246, 0x24E, 2, 0x247); (0x370, 0x372, 2, 0x371);
   (0x376, 0x376, 1, 0x377); (0x37F, 0x37F, 1, 0x3F3); (0x386, 0x386, 1, 0x3AC);
   (0x388, 0x38A, 1, 0x3AD); (0x38C, 0x38C, 1, 0x3CC); (0x38E, 0x38F, 1, 0x3CD);
   (0x391, 0x3A1, 1, 0x3B1); (0x3A4, 0x3AB, 1, 0x3C4); (0x3CF, 0x3CF, 1, 0x3D7);
   (0x3D8, 0x3EE, 2, 0x3D9); (0x3F4, 0x3F4, 1, 0x3B8); (0x3F7, 0x3F7, 1, 0x3F8);
   (0x3F9, 0x3F9, 1, 0x3F2); (0x3FA, 0x3FA, 1, 0x3FB); (0x3FD, 0x3FF, 1, 0x37B);
   (0x400, 0x40F, 1, 0x450); (0x410, 0x42F, 1, 0x430); (0x460, 0x480, 2, 0x461);
   (0x48A, 0x4BE, 2, 0x48B); (0x4C0, 0x4C0, 1, 0x4CF); (0x4C1, 0x4CD, 2, 0x4C2);
   (0x4D0, 0x52E, 2, 0x4D1); (0x531, 0x556, 1, 0x561); (0x10A0, 0x10C5, 1, 0x2D00);
   (0x10C7, 0x10C7, 1, 0x2D27); (0x10CD, 0x10CD, 1, 0x2D2D); (0x13A0, 0x13EF, 1, 0xAB70);
   (0x13F0, 0x13F5, 1, 0x13F8); (0x1C90, 0x1CBA, 1, 0x10D0); (0x1CBD, 0x1CBF, 1, 0x10FD);
   (0x1E00, 0x1E94, 2, 0x1E01); (0x1E9E, 0x1E9E, 1, 0xDF); (0x1EA0, 0x1EFE, 2, 0x1EA1);
   (0x1F08, 0x1F0F, 1, 0x1F00); (0x1F18, 0x1F1D, 1, 0x1F10); (0x1F28, 0x1F2F, 1, 0x1F20);
   (0x1F38, 0x1F3F, 1, 0x1F30); (0x1F48, 0x1F4D, 1, 0x1F40); (0x1F59, 0x1F5F, 2, 0x1F51);
   (0x1F68, 0x1F6F, 1, 0x1F60); (0x1F88, 0x1F8F, 1, 0x1F80); (0x1F98, 0x1F9F, 1, 0x1F90);
   (0x1FA8, 0x1FAF, 1, 0x1FA0); (0x1FB8, 0x1FB9, 1, 0x1FB0); (0x1FBA, 0x1FBB, 1, 0x1F70);
   (0x1FBC, 0x1FBC, 1, 0x1FB3); (0x1FC8, 0x1FCB, 1, 0x1F72); (0x1FCC, 0x1FCC, 1, 0x1FC3);
   (0x1FD8, 0x1FD9, 1, 0x1FD0); (0x1FDA, 0x1FDB, 1, 0x1F76); (0x1FE8, 0x1FE9, 1, 0x1FE0);
   (0x1FEA, 0x1FEB, 1, 0x1F7A); (0x1FEC, 0x1FEC, 1, 0x1FE5); (0x1FF8, 0x1FF9, 1, 0x1F78);
   (0x1FFA, 0x1FFB, 1, 0x1F7C); (0x1FFC, 0x1FFC, 1, 0x1FF3); (0x2126, 0x2126, 1, 0x3C9);
   (0x212A, 0x212A, 1, 0x6B); (0x212B, 0x212B, 1, 0xE5); (0x2132, 0x2132, 1, 0x214E);
   (0x2160, 0x216F, 1, 0x2170); (0x2183, 0x2183, 1, 0x2184); (0x24B6, 0x24CF, 1, 0x24D0);
   (0x2C00, 0x2C2F, 1, 0x2C30); (0x2C60, 0x2C60, 1, 0x2C61); (0x2C62, 0x2C62, 1, 0x26B);
   (0x2C63, 0x2C63, 1, 0x1D7D); (0x2C64, 0x2C64, 1, 0x27D); (0x2C67, 0x2C6B, 2, 0x2C68);
   (0x2C6D, 0x2C6D, 1, 0x251); (0x2C6E, 0x2C6E, 1, 0x271); (0x2C6F, 0x2C6F, 1, 0x250);
   (0x2C70, 0x2C70, 1, 0x252); (0x2C72, 0x2C72, 1, 0x2C73); (0x2C75, 0x2C75, 1, 0x2C76);
   (0x2C7E, 0x2C7F, 1, 0x23F); (0x2C80, 0x2CE2, 2, 0x2C81); (0x2CEB, 0x2CED, 2, 0x2CEC);
   (0x2CF2, 0x2CF2, 1, 0x2CF3); (0xA640, 0xA66C, 2, 0xA641); (0xA680, 0xA69A, 2, 0xA681);
   (0xA722, 0xA72E, 2, 0xA723); (0xA732, 0xA76E, 2, 0xA733); (0xA779, 0xA77B, 2, 0xA77A);
   (0xA77D, 0xA77D, 1, 0x1D79); (0xA77E, 0xA786, 2, 0xA77F); (0xA78B, 0xA78B, 1, 0xA78C);
   (0xA78D, 0xA78D, 1, 0x265); (0xA790, 0xA792, 2, 0xA791); (0xA796, 0xA7A8, 2, 0xA797);
   (0xA7AA, 0xA7AA, 1, 0x266); (0xA7AB, 0xA7AB, 1, 0x25C); (0xA7AC, 0xA7AC, 1, 0x261);
   (0xA7AD, 0xA7AD, 1, 0x26C); (0xA7AE, 0xA7AE, 1, 0x26A); (0xA7B0, 0xA7B0, 1, 0x29E);
   (0xA7B1, 0xA7B1, 1, 0x287); (0xA7B2, 0xA7B2, 1, 0x29D); (0xA7B3, 0xA7B3, 1, 0xAB53);
   (0xA7B4, 0xA7C2, 2, 0xA7B5); (0xA7C4, 0xA7C4, 1, 0xA794); (0xA7C5, 0xA7C5, 1, 0x282);
   (0xA7C6, 0xA7C6, 1, 0x1D8E); (0xA7C7, 0xA7C9, 2, 0xA7C8); (0xA7D0, 0xA7D0, 1, 0xA7D1);
   (0xA7D6, 0xA7D8, 2, 0xA7D7); (0xA7F5, 0xA7F5, 1, 0xA7F6); (0xFF21, 0xFF3A, 1, 0xFF41);
   (0x10400, 0x10427, 1, 0x10428); (0x104B0, 0x104D3, 1, 0x104D8);
   (0x10570, 0x1057A, 1, 0x10597); (0x1057C, 0x1058A, 1, 0x105A3);
   (0x1058C, 0x10592, 1, 0x105B3); (0x10594, 0x10595, 1, 0x105BB);
   (0x10C80, 0x10CB2, 1, 0x10CC0); (0x118A0, 0x118BF, 1, 0x118C0);
   (0x16E40, 0x16E5F, 1, 0x16E60); (0x1E900, 0x1E921, 1, 0x1E922)].

(** The code points with the property Cased, as inclusive ranges in
    increasing order. *)
Definition cased_ranges : list (N * N) :=
  [(0x41, 0x5A); (0x61, 0x7A); (0xAA, 0xAA); (0xB5, 0xB5); (0xBA, 0xBA); (0xC0, 0xD6);
   (0xD8, 0xF6); (0xF8, 0x1BA); (0x1BC, 0x1BF); (0x1C4, 0x293); (0x295, 0x2B8); (0x2C0, 0x2C1);
   (0x2E0, 0x2E4); (0x345, 0x345); (0x370, 0x373); (0x376, 0x377); (0x37A, 0x37D);
   (0x37F, 0x37F); (0x386, 0x386); (0x388, 0x38A); (0x38C, 0x38C); (0x38E, 0x3A1);
   (0x3A3, 0x3F5); (0x3F7, 0x481); (0x48A, 0x52F); (0x531, 0x556); (0x560, 0x588);
   (0x10A0, 0x10C5); (0x10C7, 0x10C7); (0x10CD, 0x10CD); (0x10D0, 0x10FA); (0x10FD, 0x10FF);
   (0x13A0, 0x13F5); (0x13F8, 0x13FD); (0x1C80, 0x1C88); (0x1C90, 0x1CBA); (0x1CBD, 0x1CBF);
   (0x1D00, 0x1DBF); (0x1E00, 0x1F15); (0x1F18, 0x1F1D); (0x1F20, 0x1F45); (0x1F48, 0x1F4D);
   (0x1F50, 0x1F57); (0x1F59, 0x1F59); (0x1F5B, 0x1F5B); (0x1F5D, 0x1F5D); (0x1F5F, 0x1F7D);
   (0x1F80, 0x1FB4); (0x1FB6, 0x1FBC); (0x1FBE, 0x1FBE); (0x1FC2, 0x1FC4); (0x1FC6, 0x1FCC);
   (0x1FD0, 0x1FD3); (0x1FD6, 0x1FDB); (0x1FE0, 0x1FEC); (0x1FF2, 0x1FF4); (0x1FF6, 0x1FFC);
   (0x2071, 0x2071); (0x207F, 0x207F); (0x2090, 0x209C); (0x2102, 0x2102); (0x2107, 0x2107);
   (0x210A, 0x2113); (0x2115, 0x2115); (0x2119, 0x211D); (0x2124, 0x2124); (0x2126, 0x2126);
   (0x2128, 0x2128); (0x212A, 0x212D); (0x212F, 0x2134); (0x2139, 0x2139); (0x213C, 0x213F);
   (0x2145, 0x2149); (0x214E, 0x214E); (0x2160, 0x217F); (0x2183, 0x2184); (0x24B6, 0x24E9);
   (0x2C00, 0x2CE4); (0x2CEB, 0x2CEE); (0x2CF2, 0x2CF3); (0x2D00, 0x2D25); (0x2D27, 0x2D27);
   (0x2D2D, 0x2D2D); (0xA640, 0xA66D); (0xA680, 0xA69D); (0xA722, 0xA787); (0xA78B, 0xA78E);
   (0xA790, 0xA7CA); (0xA7D0, 0xA7D1); (0xA7D3, 0xA7D3); (0xA7D5, 0xA7D9); (0xA7F5, 0xA7F6);
   (0xA7F8, 0xA7FA); (0xAB30, 0xAB5A); (0xAB5C, 0xAB68); (0xAB70, 0xABBF); (0xFB00, 0xFB06);
   (0xFB13, 0xFB17); (0xFF21, 0xFF3A); (0xFF41, 0xFF5A); (0x10400, 0x1044F);
   (0x104B0, 0x104D3); (0x104D8, 0x104FB); (0x10570, 0x1057A); (0x1057C, 0x1058A);
   (0x1058C, 0x10592); (0x10594, 0x10595); (0x10597, 0x105A1); (0x105A3, 0x105B1);
   (0x105B3, 0x105B9); (0x105BB, 0x105BC); (0x10780, 0x10780); (0x10783, 0x10785);
   (0x10787, 0x107B0); (0x107B2, 0x107BA); (0x10C80, 0x10CB2); (0x10CC0, 0x10CF2);
   (0x118A0, 0x118DF); (0x16E40, 0x16E7F); (0x1D400, 0x1D454); (0x1D456, 0x1D49C);
   (0x1D49E, 0x1D49F); (0x1D4A2, 0x1D4A2); (0x1D4A5, 0x1D4A6); (0x1D4A9, 0x1D4AC);
   (0x1D4AE, 0x1D4B9); (0x1D4BB, 0x1D4BB); (0x1D4BD, 0x1D4C3); (0x1D4C5, 0x1D505);
   (0x1D507, 0x1D50A); (0x1D50D, 0x1D514); (0x1D516, 0x1D51C); (0x1D51E, 0x1D539);
   (0x1D53B, 0x1D53E); (0x1D540, 0x1D544); (0x1D546, 0x1D546); (0x1D54A, 0x1D550);
   (0x1D552, 0x1D6A5); (0x1D6A8, 0x1D6C0); (0x1D6C2, 0x1D6DA); (0x1D6DC, 0x1D6FA);
   (0x1D6FC, 0x1D714); (0x1D716, 0x1D734); (0x1D736, 0x1D74E); (0x1D750, 0x1D76E);
   (0x1D770, 0x1D788); (0x1D78A, 0x1D7A8); (0x1D7AA, 0x1D7C2); (0x1D7C4, 0x1D7CB);
   (0x1DF00, 0x1DF09); (0x1DF0B, 0x1DF1E); (0x1E900, 0x1E943); (0x1F130, 0x1F149);
   (0x1F150, 0x1F169); (0x1F170, 0x1F189)].

(** The code points with the property Case_Ignorable, as inclusive
    ranges in increasing order. *)
Definition case_ignorable_ranges : list (N * N) :=
  [(0x27, 0x27); (0x2E, 0x2E); (0x3A, 0x3A); (0x5E, 0x5E); (0x60, 0x60); (0xA8, 0xA8);
   (0xAD, 0xAD); (0xAF, 0xAF); (0xB4, 0xB4); (0xB7, 0xB8); (0x2B0, 0x36F); (0x374, 0x375);
   (0x37A, 0x37A); (0x384, 0x385); (0x387, 0x387); (0x483, 0x489); (0x559, 0x559);
   (0x55F, 0x55F); (0x591, 0x5BD); (0x5BF, 0x5BF); (0x5C1, 0x5C2); (0x5C4, 0x5C5);
   (0x5C7, 0x5C7); (0x5F4, 0x5F4); (0x600, 0x605); (0x610, 0x61A); (0x61C, 0x61C);
   (0x640, 0x640); (0x64B, 0x65F); (0x670, 0x670); (0x6D6, 0x6DD); (0x6DF, 0x6E8);
   (0x6EA, 0x6ED); (0x70F, 0x70F); (0x711, 0x711); (0x730, 0x74A); (0x7A6, 0x7B0);
   (0x7EB, 0x7F5); (0x7FA, 0x7FA); (0x7FD, 0x7FD); (0x816, 0x82D); (0x859, 0x85B);
   (0x888, 0x888); (0x890, 0x891); (0x898, 0x89F); (0x8C9, 0x902); (0x93A, 0x93A);
   (0x93C, 0x93C); (0x941, 0x948); (0x94D, 0x94D); (0x951, 0x957); (0x962, 0x963);
   (0x971, 0x971); (0x981, 0x981); (0x9BC, 0x9BC); (0x9C1, 0x9C4); (0x9CD, 0x9CD);
   (0x9E2, 0x9E3); (0x9FE, 0x9FE); (0xA01, 0xA02); (0xA3C, 0xA3C); (0xA41, 0xA42);
   (0xA47, 0xA48); (0xA4B, 0xA4D); (0xA51, 0xA51); (0xA70, 0xA71); (0xA75, 0xA75);
   (0xA81, 0xA82); (0xABC, 0xABC); (0xAC1, 0xAC5); (0xAC7, 0xAC8); (0xACD, 0xACD);
   (0xAE2, 0xAE3); (0xAFA, 0xAFF); (0xB01, 0xB01); (0xB3C, 0xB3C); (0xB3F, 0xB3F);
   (0xB41, 0xB44); (0xB4D, 0xB4D); (0xB55, 0xB56); (0xB62, 0xB63); (0xB82, 0xB82);
   (0xBC0, 0xBC0); (0xBCD, 0xBCD); (0xC00, 0xC00); (0xC04, 0xC04); (0xC3C, 0xC3C);
   (0xC3E, 0xC40); (0xC46, 0xC48); (0xC4A, 0xC4D); (0xC55, 0xC56); (0xC62, 0xC63);
   (0xC81, 0xC81); (0xCBC, 0xCBC); (0xCBF, 0xCBF); (0xCC6, 0xCC6); (0xCCC, 0xCCD);
   (0xCE2, 0xCE3); (0xD00, 0xD01); (0xD3B, 0xD3C); (0xD41, 0xD44); (0xD4D, 0xD4D);
   (0xD62, 0xD63); (0xD81, 0xD81); (0xDCA, 0xDCA); (0xDD2, 0xDD4); (0xDD6, 0xDD6);
   (0xE31, 0xE31); (0xE34, 0xE3A); (0xE46, 0xE4E); (0xEB1, 0xEB1); (0xEB4, 0xEBC);
   (0xEC6, 0xEC6); (0xEC8, 0xECD); (0xF18, 0xF19); (0xF35, 0xF35); (0xF37, 0xF37);
   (0xF39, 0xF39); (0xF71, 0xF7E); (0xF80, 0xF84); (0xF86, 0xF87); (0xF8D, 0xF97);
   (0xF99, 0xFBC); (0xFC6, 0xFC6); (0x102D, 0x1030); (0x1032, 0x1037); (0x1039, 0x103A);
   (0x103D, 0x103E); (0x1058, 0x1059); (0x105E, 0x1060); (0x1071, 0x1074); (0x1082, 0x1082);
   (0x1085, 0x1086); (0x108D, 0x108D); (0x109D, 0x109D); (0x10FC, 0x10FC); (0x135D, 0x135F);
   (0x1712, 0x1714); (0x1732, 0x1733); (0x1752, 0x1753); (0x1772, 0x1773); (0x17B4, 0x17B5);
   (0x17B7, 0x17BD); (0x17C6, 0x17C6); (0x17C9, 0x17D3); (0x17D7, 0x17D7); (0x17DD, 0x17DD);
   (0x180B, 0x180F); (0x1843, 0x1843); (0x1885, 0x1886); (0x18A9, 0x18A9); (0x1920, 0x1922);
   (0x1927, 0x1928); (0x1932, 0x1932); (0x1939, 0x193B); (0x1A17, 0x1A18); (0x1A1B, 0x1A1B);
   (0x1A56, 0x1A56); (0x1A58, 0x1A5E); (0x1A60, 0x1A60); (0x1A62, 0x1A62); (0x1A65, 0x1A6C);
   (0x1A73, 0x1A7C); (0x1A7F, 0x1A7F); (0x1AA7, 0x1AA7); (0x1AB0, 0x1ACE); (0x1B00, 0x1B03);
   (0x1B34, 0x1B34); (0x1B36, 0x1B3A); (0x1B3C, 0x1B3C); (0x1B42, 0x1B42); (0x1B6B, 0x1B73);
   (0x1B80, 0x1B81); (0x1BA2, 0x1BA5); (0x1BA8, 0x1BA9); (0x1BAB, 0x1BAD); (0x1BE6, 0x1BE6);
   (0x1BE8, 0x1BE9); (0x1BED, 0x1BED); (0x1BEF, 0x1BF1); (0x1C2C, 0x1C33); (0x1C36, 0x1C37);
   (0x1C78, 0x1C7D); (0x1CD0, 0x1CD2); (0x1CD4, 0x1CE0); (0x1CE2, 0x1CE8); (0x1CED, 0x1CED);
   (0x1CF4, 0x1CF4); (0x1CF8, 0x1CF9); (0x1D2C, 0x1D6A); (0x1D78, 0x1D78); (0x1D9B, 0x1DFF);
   (0x1FBD, 0x1FBD); (0x1FBF, 0x1FC1); (0x1FCD, 0x1FCF); (0x1FDD, 0x1FDF); (0x1FED, 0x1FEF);
   (0x1FFD, 0x1FFE); (0x200B, 0x200F); (0x2018, 0x2019); (0x2024, 0x2024); (0x2027, 0x2027);
   (0x202A, 0x202E); (0x2060, 0x2064); (0x2066, 0x206F); (0x2071, 0x2071); (0x207F, 0x207F);
   (0x2090, 0x209C); (0x20D0, 0x20F0); (0x2C7C, 0x2C7D); (0x2CEF, 0x2CF1); (0x2D6F, 0x2D6F);
   (0x2D7F, 0x2D7F); (0x2DE0, 0x2DFF); (0x2E2F, 0x2E2F); (0x3005, 0x3005); (0x302A, 0x302D);
   (0x3031, 0x3035); (0x303B, 0x303B); (0x3099, 0x309E); (0x30FC, 0x30FE); (0xA015, 0xA015);
   (0xA4F8, 0xA4FD); (0xA60C, 0xA60C); (0xA66F, 0xA672); (0xA674, 0xA67D); (0xA67F, 0xA67F);
   (0xA69C, 0xA69F); (0xA6F0, 0xA6F1); (0xA700, 0xA721); (0xA770, 0xA770); (0xA788, 0xA78A);
   (0xA7F2, 0xA7F4); (0xA7F8, 0xA7F9); (0xA802, 0xA802); (0xA806, 0xA806); (0xA80B, 0xA80B);
   (0xA825, 0xA826); (0xA82C, 0xA82C); (0xA8C4, 0xA8C5); (0xA8E0, 0xA8F1); (0xA8FF, 0xA8FF);
   (0xA926, 0xA92D); (0xA947, 0xA951); (0xA980, 0xA982); (0xA9B3, 0xA9B3); (0xA9B6, 0xA9B9);
   (0xA9BC, 0xA9BD); (0xA9CF, 0xA9CF); (0xA9E5, 0xA9E6); (0xAA29, 0xAA2E); (0xAA31, 0xAA32);
   (0xAA35, 0xAA36); (0xAA43, 0xAA43); (0xAA4C, 0xAA4C); (0xAA70, 0xAA70); (0xAA7C, 0xAA7C);
   (0xAAB0, 0xAAB0); (0xAAB2, 0xAAB4); (0xAAB7, 0xAAB8); (0xAABE, 0xAABF); (0xAAC1, 0xAAC1);
   (0xAADD, 0xAADD); (0xAAEC, 0xAAED); (0xAAF3, 0xAAF4); (0xAAF6, 0xAAF6); (0xAB5B, 0xAB5F);
   (0xAB69, 0xAB6B); (0xABE5, 0xABE5); (0xABE8, 0xABE8); (0xABED, 0xABED); (0xFB1E, 0xFB1E);
   (0xFBB2, 0xFBC2); (0xFE00, 0xFE0F); (0xFE13, 0xFE13); (0xFE20, 0xFE2F); (0xFE52, 0xFE52);
   (0xFE55, 0xFE55); (0xFEFF, 0xFEFF); (0xFF07, 0xFF07); (0xFF0E, 0xFF0E); (0xFF1A, 0xFF1A);
   (0xFF3E, 0xFF3E); (0xFF40, 0xFF40); (0xFF70, 0xFF70); (0xFF9E, 0xFF9F); (0xFFE3, 0xFFE3);
   (0xFFF9, 0xFFFB); (0x101FD, 0x101FD); (0x102E0, 0x102E0); (0x10376, 0x1037A);
   (0x10780, 0x10785); (0x10787, 0x107B0); (0x107B2, 0x107BA); (0x10A01, 0x10A03);
   (0x10A05, 0x10A06); (0x10A0C, 0x10A0F); (0x10A38, 0x10A3A); (0x10A3F, 0x10A3F);
   (0x10AE5, 0x10AE6); (0x10D24, 0x10D27); (0x10EAB, 0x10EAC); (0x10F46, 0x10F50);
   (0x10F82, 0x10F85); (0x11001, 0x11001); (0x11038, 0x11046); (0x11070, 0x11070);
   (0x11073, 0x11074); (0x1107F, 0x11081); (0x110B3, 0x110B6); (0x110B9, 0x110BA);
   (0x110BD, 0x110BD); (0x110C2, 0x110C2); (0x110CD, 0x110CD); (0x11100, 0x11102);
   (0x11127, 0x1112B); (0x1112D, 0x11134); (0x11173, 0x11173); (0x11180, 0x11181);
   (0x111B6, 0x111BE); (0x111C9, 0x111CC); (0x111CF, 0x111CF); (0x1122F, 0x11231);
   (0x11234, 0x11234); (0x11236, 0x11237); (0x1123E, 0x1123E); (0x112DF, 0x112DF);
   (0x112E3, 0x112EA); (0x11300, 0x11301); (0x1133B, 0x1133C); (0x11340, 0x11340);
   (0x11366, 0x1136C); (0x11370, 0x11374); (0x11438, 0x1143F); (0x11442, 0x11444);
   (0x11446, 0x11446); (0x1145E, 0x1145E); (0x114B3, 0x114B8); (0x114BA, 0x114BA);
   (0x114BF, 0x114C0); (0x114C2, 0x114C3); (0x115B2, 0x115B5); (0x115BC, 0x115BD);
   (0x115BF, 0x115C0); (0x115DC, 0x115DD); (0x11633, 0x1163A); (0x1163D, 0x1163D);
   (0x1163F, 0x11640); (0x116AB, 0x116AB); (0x116AD, 0x116AD); (0x116B0, 0x116B5);
   (0x116B7, 0x116B7); (0x1171D, 0x1171F); (0x11722, 0x11725); (0x11727, 0x1172B);
   (0x1182F, 0x11837); (0x11839, 0x1183A); (0x1193B, 0x1193C); (0x1193E, 0x1193E);
   (0x11943, 0x11943); (0x119D4, 0x119D7); (0x119DA, 0x119DB); (0x119E0, 0x119E0);
   (0x11A01, 0x11A0A); (0x11A33, 0x11A38); (0x11A3B, 0x11A3E); (0x11A47, 0x11A47);
   (0x11A51, 0x11A56); (0x11A59, 0x11A5B); (0x11A8A, 0x11A96); (0x11A98, 0x11A99);
   (0x11C30, 0x11C36); (0x11C38, 0x11C3D); (0x11C3F, 0x11C3F); (0x11C92, 0x11CA7);
   (0x11CAA, 0x11CB0); (0x11CB2, 0x11CB3); (0x11CB5, 0x11CB6); (0x11D31, 0x11D36);
   (0x11D3A, 0x11D3A); (0x11D3C, 0x11D3D); (0x11D3F, 0x11D45); (0x11D47, 0x11D47);
   (0x11D90, 0x11D91); (0x11D95, 0x11D95); (0x11D97, 0x11D97); (0x11EF3, 0x11EF4);
   (0x13430, 0x13438); (0x16AF0, 0x16AF4); (0x16B30, 0x16B36); (0x16B40, 0x16B43);
   (0x16F4F, 0x16F4F); (0x16F8F, 0x16F9F); (0x16FE0, 0x16FE1); (0x16FE3, 0x16FE4);
   (0x1AFF0, 0x1AFF3); (0x1AFF5, 0x1AFFB); (0x1AFFD, 0x1AFFE); (0x1BC9D, 0x1BC9E);
   (0x1BCA0, 0x1BCA3); (0x1CF00, 0x1CF2D); (0x1CF30, 0x1CF46); (0x1D167, 0x1D169);
   (0x1D173, 0x1D182); (0x1D185, 0x1D18B); (0x1D1AA, 0x1D1AD); (0x1D242, 0x1D244);
   (0x1DA00, 0x1DA36); (0x1DA3B, 0x1DA6C); (0x1DA75, 0x1DA75); (0x1DA84, 0x1DA84);
   (0x1DA9B, 0x1DA9F); (0x1DAA1, 0x1DAAF); (0x1E000, 0x1E006); (0x1E008, 0x1E018);
   (0x1E01B, 0x1E021); (0x1E023, 0x1E024); (0x1E026, 0x1E02A); (0x1E130, 0x1E13D);
   (0x1E2AE, 0x1E2AE); (0x1E2EC, 0x1E2EF); (0x1E8D0, 0x1E8D6); (0x1E944, 0x1E94B);
   (0x1F3FB, 0x1F3FF); (0xE0001, 0xE0001); (0xE0020, 0xE007F); (0xE0100, 0xE01EF)].

Definition is_space (c : N) : bool := existsb (N.eqb c) whitespace.

Fixpoint in_ranges (c : N) (ranges : list (N * N)) : bool :=
  match ranges with
  | [] => false
  | (first, last) :: rest =>
      if c <? first then false
      else if c <=? last then true
      else in_ranges c rest
  end.

Definition cased (c : N) : bool := in_ranges c cased_ranges.
Definition case_ignorable (c : N) : bool := in_ranges c case_ignorable_ranges.

Fixpoint simple_lower (c : N) (runs : list (N * N * N * N)) : N :=
  match runs with
  | [] => c
  | (first, last, step, target) :: rest =>
      if c <? first then c
      else if (c <=? last) && ((c - first) mod step =? 0) then target + (c - first)
      else simple_lower c rest
  end.

(** The full lowercase mapping of one code point other than U+03A3: only
    U+0130 maps to more than one code point. *)
Definition lower_full (c : N) : str :=
  if c =? 0x130 then [0x69; 0x307] else [simple_lower c lower_runs].

Fixpoint skip_case_ignorable (s : str) : str :=
  match s with
  | [] => []
  | c :: s' => if case_ignorable c then skip_case_ignorable s' else s
  end.

(** The first code point that is not case-ignorable exists and is cased. *)
Definition cased_next (s : str) : bool :=
  match skip_case_ignorable s with
  | c :: _ => cased c
  | [] => false
  end.

(** U+03A3 is in final position: a cased letter precedes it and none
    follows it, case-ignorable code points aside.  [before] holds the
    preceding code points, the nearest first. *)
Definition final_sigma (before after : str) : bool :=
  cased_next before && negb (cased_next after).

Fixpoint lower_from (before s : str) : str :=
  match s with
  | [] => []
  | c :: s' =>
      (if c =? 0x3A3 then [if final_sigma before s' then 0x3C2 else 0x3C3]
       else lower_full c)
      ++ lower_from (c :: before) s'
  end.

(** [s.lower()] *)
Definition lower (s : str) : str := lower_from [] s.

Fixpoint lstrip (s : str) : str :=
  match s with
  | [] => []
  | c :: s' => if is_space c then lstrip s' else s
  end.

Definition rstrip (s : str) : str := reverse (lstrip (reverse s)).

(** [s.strip()] *)
Definition strip (s : str) : str := rstrip (lstrip s).

(** [s.replace(c, '')] for a one-character [c] *)
Definition remove_char (c : N) (s : str) : str := filter (fun d => d <> c) s.

Fixpoint is_prefix (needle hay : str) : bool :=
  match needle, hay with
  | [], _ => true
  | c :: needle', d :: hay' => (c =? d) && is_prefix needle' hay'
  | _ :: _, [] => false
  end.

(** [needle in hay] *)
Fixpoint contains (needle hay : str) : bool :=
  is_prefix needle hay ||
  match hay with
  | [] => false
  | _ :: hay' => contains needle hay'
  end.

Fixpoint split_go (cur : option str) (s : str) : list str :=
  match s with
  | [] => option_list (reverse <$> cur)
  | c :: s' =>
      if is_space c
      then option_list (reverse <$> cur) ++ split_go None s'
      else split_go (Some (c :: default [] cur)) s'
  end.

(** [s.split()]: the maximal runs of code points that are not whitespace *)
Definition split (s : str) : list str := split_go None s.

(** [a == b] *)
Definition eqb (a b : str) : bool := bool_decide (a = b).

(** Truth value of a [str]: non-empty. *)
Definition nonempty (s : str) : bool :=
  match s with [] => false | _ :: _ => true end.

(** Truth value of a string kept as its encoding: non-empty. *)
Definition truthy (s : string) : bool :=
  match s with EmptyString => false | String _ _ => true end.

(** The [str] a UTF-8 encoding denotes (U+FFFD for a malformed byte). *)
Fixpoint decode (bytes : list N) : str :=
  match bytes with
  | [] => []
  | b0 :: rest =>
      if b0 <? 0x80 then b0 :: decode rest
      else
        match rest with
        | b1 :: rest1 =>
            if (0xC0 <=? b0) && (b0 <? 0xE0)
            then ((b0 - 0xC0) * 64 + (b1 - 0x80)) :: decode rest1
            else
              match rest1 with
              | b2 :: rest2 =>
                  if (0xE0 <=? b0) && (b0 <? 0xF0)
                  then ((b0 - 0xE0) * 4096 + (b1 - 0x80) * 64 + (b2 - 0x80)) :: decode rest2
                  else
                    match rest2 with
                    | b3 :: rest3 =>
                        if 0xF0 <=? b0
                        then ((b0 - 0xF0) * 262144 + (b1 - 0x80) * 4096
                              + (b2 - 0x80) * 64 + (b3 - 0x80)) :: decode rest3
                        else 0xFFFD :: decode rest
                    | [] => 0xFFFD :: decode rest
                    end
              | [] => 0xFFFD :: decode rest
              end
        | [] => [0xFFFD]
        end
  end.

(** The [str] written as a string literal. *)
Definition text (s : string) : str :=
  decode ((fun c => N_of_ascii c) <$> list_ascii_of_string s).

End PyStr.

(** ** Data model *)

(** A sport or goal as the repository joins it: a dictionary whose ["id"]
    may be absent. *)
Record Affiliation := mkAff {
  aff_id : option Z;
  aff_name : string
}.

(** The value found under ["sports"] or ["goals"]: a list of dictionaries
    or a list of plain identifiers. *)
Inductive Items :=
  | Dicts (l : list Affiliation)
  | Prims (l : list Z).

(** A user dictionary: a row of the [users] table, extended by the API and
    by the ranker with ["sports"], ["goals"] and ["_event_count"].  [None]
    is a missing key or a [None] value. *)
Record UserProfile := mkUser {
  u_id : option Z;
  u_full_name : string;
  u_age : option Z;
  u_location : option PyStr.str;
  u_is_active : bool;
  u_is_discoverable : bool;
  u_sports : option Items;
  u_goals : option Items;
  u_event_count : option Z
}.

Definition set_sports (l : list Affiliation) (u : UserProfile) : UserProfile :=
  mkUser (u_id u) (u_full_name u) (u_age u) (u_location u) (u_is_active u)
         (u_is_discoverable u) (Some (Dicts l)) (u_goals u) (u_event_count u).

Definition set_goals (l : list Affiliation) (u : UserProfile) : UserProfile :=
  mkUser (u_id u) (u_full_name u) (u_age u) (u_location u) (u_is_active u)
         (u_is_discoverable u) (u_sports u) (Some (Dicts l)) (u_event_count u).

Definition set_event_count (n : Z) (u : UserProfile) : UserProfile :=
  mkUser (u_id u) (u_full_name u) (u_age u) (u_location u) (u_is_active u)
         (u_is_discoverable u) (u_sports u) (u_goals u) (Some n).

(** A row of the [buddies] table. *)
Record BuddyRow := mkBuddy {
  b_id : Z;
  b_user1_id : Z;
  b_user2_id : Z;
  b_match_score : Q;
  b_status : string;
  b_created_at : string
}.

(** A row of [user_sports] or [user_goals] with the joined affiliation. *)
Record AffRow := mkAffRow {
  ar_user_id : option Z;
  ar_item : option Affiliation
}.

(** A row of [event_rsvps]. *)
Record RsvpRow := mkRsvp {
  rv_user_id : option Z;
  rv_status : string
}.

(** The reads and the write the code issues; [execute()] of any of them
    may raise. *)
Inductive Query :=
  | QBuddiesOfUser1
  | QBuddiesOfUser2
  | QUsers
  | QUserSports
  | QUserGoals
  | QEventRsvps
  | QRsvpCount
  | QUserSingle
  | QBuddyPair
  | QInsertBuddy.

(** The Supabase client: the tables behind it and, for each query, whether
    executing it raises. *)
Record Client := mkClient {
  buddies : list BuddyRow;
  users : list UserProfile;
  user_sports : list AffRow;
  user_goals : list AffRow;
  event_rsvps : list RsvpRow;
  fails : Query -> bool
}.

(** Truth value of an optional integer: present and non-zero. *)
Definition truthy_int (o : option Z) : option Z :=
  match o with
  | Some n => if Z.eqb n 0 then None else Some n
  | None => None
  end.

Definition truthy_set `{Countable K} (s : gset K) : bool := negb (bool_decide (s = ∅)).

(** ** Scoring *)

Definition _extract_ids (items : Items) : gset Z :=
  match items with
  | Dicts [] => ∅
  | Dicts (first :: rest) => list_to_set (omap aff_id (first :: rest))
  | Prims l => list_to_set l
  end.

(** [_extract_ids(raw if isinstance(raw, list) else [])] with
    [raw = user.get(key) or []] *)
Definition ids_of (raw : option Items) : gset Z :=
  _extract_ids (default (Dicts []) raw).

Inductive SportsBranch :=
  | SportsJaccard      (* both sets non-empty *)
  | SportsNeutral      (* both sets empty *)
  | SportsPartial      (* third branch, overlap: score += 0.15 *)
  | SportsPartialMiss  (* third branch, no overlap *)
  | SportsNoCredit.    (* no branch taken *)

Definition sports_branch (user1_sports user2_sports : gset Z) : SportsBranch :=
  if truthy_set user1_sports && truthy_set user2_sports then SportsJaccard
  else if negb (truthy_set user1_sports) && negb (truthy_set user2_sports) then SportsNeutral
  else if Nat.ltb 0 (size user1_sports) && Nat.ltb 0 (size user2_sports) then
    if truthy_set (user1_sports ∩ user2_sports) then SportsPartial else SportsPartialMiss
  else SportsNoCredit.

(** [len(common) / len(total) if total else 0] *)
Definition jaccard (s1 s2 : gset Z) : Q :=
  let common := s1 ∩ s2 in
  let total := s1 ∪ s2 in
  if truthy_set total
  then Float.int_truediv (Z.of_nat (size common)) (Z.of_nat (size total))
  else 0%Q.

Definition add_sports (score : Q) (user1_sports user2_sports : gset Z) : Q :=
  match sports_branch user1_sports user2_sports with
  | SportsJaccard =>
      Float.fadd score (Float.fmul (jaccard user1_sports user2_sports) Float.c0_35)
  | SportsNeutral => Float.fadd score Float.c0_175
  | SportsPartial => Float.fadd score Float.c0_15
  | SportsPartialMiss => score
  | SportsNoCredit => score
  end.

Definition add_goals (score : Q) (user1_goals user2_goals : gset Z) : Q :=
  if truthy_set user1_goals && truthy_set user2_goals then
    Float.fadd score (Float.fmul (jaccard user1_goals user2_goals) Float.c0_25)
  else if negb (truthy_set user1_goals) && negb (truthy_set user2_goals) then
    Float.fadd score Float.c0_125
  else score.

(** [user.get("location", "").lower().strip() if user.get("location") else ""] *)
Definition location_of (u : UserProfile) : PyStr.str :=
  match u_location u with
  | Some l => if PyStr.nonempty l then PyStr.strip (PyStr.lower l) else []
  | None => []
  end.

(** [loc.replace(',', '').replace(' ', '')] *)
Definition squeeze (loc : PyStr.str) : PyStr.str :=
  PyStr.remove_char 0x20%N (PyStr.remove_char 0x2C%N loc).

(** The words of both locations that have more than two characters. *)
Definition common_words (loc1 loc2 : PyStr.str) : gset PyStr.str :=
  let loc1_words : gset PyStr.str := list_to_set (PyStr.split loc1) in
  let loc2_words : gset PyStr.str := list_to_set (PyStr.split loc2) in
  filter (fun w => 2 < length w)%nat (loc1_words ∩ loc2_words).

Definition add_location (score : Q) (loc1 loc2 : PyStr.str) : Q :=
  if PyStr.nonempty loc1 && PyStr.nonempty loc2 then
    if PyStr.eqb loc1 loc2 then Float.fadd score Float.c0_20
    else if PyStr.eqb (squeeze loc1) (squeeze loc2) then Float.fadd score Float.c0_18
    else if PyStr.contains loc1 loc2 || PyStr.contains loc2 loc1 then Float.fadd score Float.c0_12
    else if truthy_set (common_words loc1 loc2) then Float.fadd score Float.c0_08
    else score
  else Float.fadd score Float.c0_05.

Definition add_age (score : Q) (age1 age2 : option Z) : Q :=
  match truthy_int age1, truthy_int age2 with
  | Some a1, Some a2 =>
      let age_diff := Z.abs (a1 - a2) in
      if (age_diff <=? 3)%Z then Float.fadd score Float.c0_10
      else if (age_diff <=? 5)%Z then Float.fadd score Float.c0_075
      else if (age_diff <=? 10)%Z then Float.fadd score Float.c0_05
      else if (age_diff <=? 15)%Z then Float.fadd score Float.c0_025
      else score
  | _, _ => score
  end.

(** The increment chosen from the two approved-event counts. *)
Definition activity_increment (user1_events user2_events : Z) : Q :=
  if (5 <=? user1_events)%Z && (5 <=? user2_events)%Z then Float.c0_10
  else if (3 <=? user1_events)%Z && (3 <=? user2_events)%Z then Float.c0_075
  else if (user1_events <=? 2)%Z && (user2_events <=? 2)%Z then Float.c0_05
  else if (10 <? Z.abs (user1_events - user2_events))%Z then Float.c0_02
  else Float.c0_05.

(** [event_counts.get(user.get("id"), 0)] *)
Definition count_of (event_counts : gmap Z Z) (id : option Z) : Z :=
  match id with
  | Some i => default 0%Z (event_counts !! i)
  | None => 0%Z
  end.

(** [supabase.table("event_rsvps").select("id", count="exact")
      .eq("user_id", id).eq("status", "approved").execute().count];
    [None] when the call raises. *)
Definition approved_rsvp_count (supabase : Client) (id : option Z) : option (option Z) :=
  if fails supabase QRsvpCount then None
  else Some (Some (Z.of_nat (length
         (filter (fun r => id ≠ None ∧ rv_user_id r = id ∧ rv_status r = "approved"%string)
                 (event_rsvps supabase))))).

Definition add_activity (score : Q) (user1 user2 : UserProfile)
    (supabase : option Client) (event_counts : option (gmap Z Z)) : Q :=
  match event_counts with
  | Some counts =>
      Float.fadd score
        (activity_increment (count_of counts (u_id user1)) (count_of counts (u_id user2)))
  | None =>
      match supabase with
      | Some client =>
          match approved_rsvp_count client (u_id user1) with
          | Some c1 =>
              match approved_rsvp_count client (u_id user2) with
              | Some c2 =>
                  Float.fadd score (activity_increment (default 0%Z c1) (default 0%Z c2))
              | None => Float.fadd score Float.c0_05
              end
          | None => Float.fadd score Float.c0_05
          end
      | None => score
      end
  end.

(** The running score when the activity block is reached. *)
Definition profile_score (user1 user2 : UserProfile) : Q :=
  let score := 0%Q in
  let score := add_sports score (ids_of (u_sports user1)) (ids_of (u_sports user2)) in
  let score := add_goals score (ids_of (u_goals user1)) (ids_of (u_goals user2)) in
  let score := add_location score (location_of user1) (location_of user2) in
  add_age score (u_age user1) (u_age user2).

Definition raw_score (user1 user2 : UserProfile)
    (supabase : option Client) (event_counts : option (gmap Z Z)) : Q :=
  add_activity (profile_score user1 user2) user1 user2 supabase event_counts.

Definition calculate_buddy_score (user1 user2 : UserProfile)
    (supabase : option Client) (event_counts : option (gmap Z Z)) : Q :=
  Float.round2 (Float.fmul (raw_score user1 user2 supabase event_counts) 100).

(** ** Repository reads

    Each read returns [None] when [execute()] raises and the selected rows
    otherwise.  Filters follow SQL: a comparison with a missing value
    selects nothing. *)

(** [table("buddies").select("user2_id").eq("user1_id", user_id)] *)
Definition buddies_of_user1 (supabase : Client) (user_id : Z) : option (list Z) :=
  if fails supabase QBuddiesOfUser1 then None
  else Some (b_user2_id <$> filter (fun b => b_user1_id b = user_id) (buddies supabase)).

(** [table("buddies").select("user1_id").eq("user2_id", user_id)] *)
Definition buddies_of_user2 (supabase : Client) (user_id : Z) : option (list Z) :=
  if fails supabase QBuddiesOfUser2 then None
  else Some (b_user1_id <$> filter (fun b => b_user2_id b = user_id) (buddies supabase)).

Definition id_differs (user_id : Z) (u : UserProfile) : bool :=
  match u_id u with
  | Some i => negb (Z.eqb i user_id)
  | None => false
  end.

(** [table("users").select("*").eq("is_active", True)
      .eq("is_discoverable", True).neq("id", user_id).limit(fetch_limit)] *)
Definition discoverable_users (supabase : Client) (user_id fetch_limit : Z)
    : option (list UserProfile) :=
  if fails supabase QUsers then None
  else Some (take (Z.to_nat fetch_limit)
               (filter (fun u => u_is_active u && u_is_discoverable u && id_differs user_id u)
                       (users supabase))).

Definition user_in (ids : list Z) (o : option Z) : bool :=
  match o with
  | Some i => bool_decide (i ∈ ids)
  | None => false
  end.

(** [table(t).select("user_id, ..., items(*)").in_("user_id", ids)] *)
Definition affiliations_of (q : Query) (rows : list AffRow) (supabase : Client)
    (ids : list Z) : option (list AffRow) :=
  if fails supabase q then None
  else Some (filter (fun r => user_in ids (ar_user_id r)) rows).

(** [table("event_rsvps").select("user_id").eq("status", "approved")
      .in_("user_id", ids)] *)
Definition approved_rsvps (supabase : Client) (ids : list Z) : option (list RsvpRow) :=
  if fails supabase QEventRsvps then None
  else Some (filter (fun r => String.eqb (rv_status r) "approved" && user_in ids (rv_user_id r))
                    (event_rsvps supabase)).

(** ** Ranking *)

Record ScoredCandidate := mkScored {
  sc_user : UserProfile;
  sc_score : Q
}.

(** The first [try] block: ids already in a relationship with the subject.
    A failing read leaves the set as it was. *)
Definition existing_buddy_user_ids (supabase : Client) (user_id : Z) : gset Z :=
  match buddies_of_user1 supabase user_id with
  | None => ∅
  | Some data1 =>
      let ids : gset Z := ∅ ∪ list_to_set data1 in
      match buddies_of_user2 supabase user_id with
      | None => ids
      | Some data2 => ids ∪ list_to_set data2
      end
  end.

Definition not_in_set (s : gset Z) (o : option Z) : bool :=
  match o with
  | Some i => negb (bool_decide (i ∈ s))
  | None => true
  end.

(** [(limit + 20) if limit else 300] *)
Definition fetch_limit_of (limit : option Z) : Z :=
  match truthy_int limit with
  | Some l => (l + 20)%Z
  | None => 300%Z
  end.

(** The second [try] block. *)
Definition potential_users_of (supabase : Client) (user_id : Z) (limit : option Z)
    : list UserProfile :=
  let existing := existing_buddy_user_ids supabase user_id in
  match discoverable_users supabase user_id (fetch_limit_of limit) with
  | Some data =>
      if truthy_set existing
      then filter (fun u => not_in_set existing (u_id u)) data
      else data
  | None => []
  end.

(** [by_user.setdefault(uid, []).append(x)] over the rows, in order *)
Definition group_by_user (rows : list AffRow) : gmap Z (list Affiliation) :=
  fold_left
    (fun acc item =>
       match ar_user_id item, ar_item item with
       | Some uid, Some x => <[uid := default [] (acc !! uid) ++ [x]]> acc
       | _, _ => acc
       end)
    rows ∅.

Definition affiliations_by_user (fetched : option (list AffRow)) : gmap Z (list Affiliation) :=
  match fetched with
  | Some rows => group_by_user rows
  | None => ∅
  end.

(** [by_user.get(u.get("id"), [])] *)
Definition lookup_affiliations (by_user : gmap Z (list Affiliation)) (id : option Z)
    : list Affiliation :=
  match id with
  | Some i => default [] (by_user !! i)
  | None => []
  end.

(** [event_counts[uid] = event_counts.get(uid, 0) + 1] over the rows;
    a failing read leaves the dictionary empty. *)
Definition count_events (fetched : option (list RsvpRow)) : gmap Z Z :=
  match fetched with
  | Some rows =>
      fold_left
        (fun acc row =>
           match rv_user_id row with
           | Some uid => <[uid := (default 0 (acc !! uid) + 1)%Z]> acc
           | None => acc
           end)
        rows ∅
  | None => ∅
  end.

(** [list.sort(key=score, reverse=True)]: stable, larger scores first. *)
Fixpoint insert_by_score (x : ScoredCandidate) (l : list ScoredCandidate)
    : list ScoredCandidate :=
  match l with
  | [] => [x]
  | y :: l' =>
      if Qle_bool (sc_score y) (sc_score x) then x :: y :: l'
      else y :: insert_by_score x l'
  end.

Definition sort_by_score (l : list ScoredCandidate) : list ScoredCandidate :=
  foldr insert_by_score [] l.

(** [l[:k]] *)
Definition slice_to {A} (l : list A) (k : Z) : list A :=
  if (k <? 0)%Z then take (Z.to_nat (Z.of_nat (length l) + k)) l
  else take (Z.to_nat k) l.

(** The candidates with their batch-fetched sports and goals attached. *)
Definition enrich (supabase : Client) (potential_users : list UserProfile)
    : list UserProfile :=
  let potential_ids := omap u_id potential_users in
  let sports_by_user :=
    affiliations_by_user (affiliations_of QUserSports (user_sports supabase) supabase potential_ids) in
  let goals_by_user :=
    affiliations_by_user (affiliations_of QUserGoals (user_goals supabase) supabase potential_ids) in
  (fun u => set_goals (lookup_affiliations goals_by_user (u_id u))
              (set_sports (lookup_affiliations sports_by_user (u_id u)) u))
  <$> potential_users.

Definition score_candidates (user : UserProfile) (supabase : Client)
    (event_counts : gmap Z Z) (candidates : list UserProfile) : list ScoredCandidate :=
  (fun potential_user =>
     let score := calculate_buddy_score user potential_user (Some supabase) (Some event_counts) in
     mkScored (set_event_count (count_of event_counts (u_id potential_user)) potential_user) score)
  <$> candidates.

Definition find_potential_buddies (user : UserProfile) (supabase : Client)
    (limit : option Z) (min_score : Q) : list ScoredCandidate :=
  match truthy_int (u_id user) with
  | None => []
  | Some user_id =>
      let potential_users := potential_users_of supabase user_id limit in
      let potential_ids := omap u_id potential_users in
      match potential_ids with
      | [] => []
      | _ :: _ =>
          let candidates := enrich supabase potential_users in
          let event_counts := count_events (approved_rsvps supabase potential_ids) in
          let buddies := sort_by_score (score_candidates user supabase event_counts candidates) in
          match truthy_int limit with
          | Some l => slice_to buddies l
          | None => buddies
          end
      end
  end.

(** ** The request handler [create_buddy] of [api/buddies.py] *)

(** The [detail] of an [HTTPException]: a fixed text, or [f"{text}: {str(e)}"]
    for the exception [e] that the handler caught. *)
Inductive Detail :=
  | Fixed (text : string)
  | Caught (text : string).

Coercion Fixed : string >-> Detail.

Inductive HTTPException :=
  | HTTPError (status_code : Z) (detail : Detail).

(** [table("users").select("*").eq("id", id).single()]: raises unless
    exactly one row matches. *)
Definition user_single (supabase : Client) (id : Z) : option UserProfile :=
  if fails supabase QUserSingle then None
  else match filter (fun u => u_id u = Some id) (users supabase) with
       | [u] => Some u
       | _ => None
       end.

(** [table("buddies").select("*").eq("user1_id", a).eq("user2_id", b)] *)
Definition buddy_pair (supabase : Client) (a b : Z) : option (list BuddyRow) :=
  if fails supabase QBuddyPair then None
  else Some (filter (fun r => b_user1_id r = a ∧ b_user2_id r = b) (buddies supabase)).

(** The duplicate check: [true] when it raises "Buddy already exists";
    a failing read skips the check. *)
Definition buddy_exists (supabase : Client) (a b : Z) : bool :=
  match buddy_pair supabase a b with
  | Some existing1 =>
      match buddy_pair supabase b a with
      | Some existing2 =>
          negb (bool_decide (existing1 = [])) || negb (bool_decide (existing2 = []))
      | None => false
      end
  | None => false
  end.

Definition fresh_buddy_id (rows : list BuddyRow) : Z :=
  (1 + foldr Z.max 0 (b_id <$> rows))%Z.

(** [table("buddies").insert({...})]: the stored row, with the id and the
    creation time the store assigns. *)
Definition insert_buddy (supabase : Client) (user1_id user2_id : Z) (match_score : Q)
    (now : string) : option (list BuddyRow) :=
  if fails supabase QInsertBuddy then None
  else Some [mkBuddy (fresh_buddy_id (buddies supabase)) user1_id user2_id match_score
                     "pending" now].

(** Whether [BuddyResponse(...)] can be built from a row: the conversion of
    [created_at] by [datetime.fromisoformat] and the validation by the
    schema of [schemas/buddy.py] can raise.  Both lie outside the code
    embedded here, so the handlers take the outcome as a parameter. *)
Definition Response : Type := BuddyRow -> bool.

(** The answer of [create_buddy].  The inserted row stays in the store
    also when building the response raises and the answer is 500. *)
Definition create_buddy (response : Response) (user2_id : Z) (current_user : UserProfile)
    (connection : option Client) (now : string) : HTTPException + BuddyRow :=
  match connection with
  | None => inl (HTTPError 500 (Caught "Supabase connection error"))
  | Some supabase =>
      match truthy_int (u_id current_user) with
      | None => inl (HTTPError 400 "User ID not found")
      | Some user_id =>
          if Z.eqb user2_id user_id then inl (HTTPError 400 "Cannot buddy with yourself")
          else
            match user_single supabase user2_id with
            | None => inl (HTTPError 404 "User not found")
            | Some user2 =>
                if buddy_exists supabase user_id user2_id
                then inl (HTTPError 400 "Buddy already exists")
                else
                  let score := calculate_buddy_score current_user user2 (Some supabase) None in
                  match insert_buddy supabase user_id user2_id score now with
                  | Some (new_buddy :: _) =>
                      if response new_buddy then inr new_buddy
                      else inl (HTTPError 500 (Caught "Failed to create buddy request"))
                  | Some [] => inl (HTTPError 500 "Failed to create buddy request")
                  | None => inl (HTTPError 500 (Caught "Failed to create buddy request"))
                  end
            end
      end
  end.

(** ** Bounds on the running score

    The largest value the running score can have after each factor. *)
Definition bound1 : Q := Eval vm_compute in Float.fadd 0 Float.c0_35.
Definition bound2 : Q := Eval vm_compute in Float.fadd bound1 Float.c0_25.
Definition bound3 : Q := Eval vm_compute in Float.fadd bound2 Float.c0_20.
Definition bound4 : Q := Eval vm_compute in Float.fadd bound3 Float.c0_10.
Definition bound5 : Q := Eval vm_compute in Float.fadd bound4 Float.c0_10.

(** ** Relationships *)

(** A stored relationship between [user_id] and [other], in either
    direction. *)
Definition in_relationship (supabase : Client) (user_id other : Z) : Prop :=
  exists b, b ∈ buddies supabase /\
    ((b_user1_id b = user_id /\ b_user2_id b = other) \/
     (b_user2_id b = user_id /\ b_user1_id b = other)).


(** The rows the candidate query selects, before [limit] is applied. *)
Definition matching_users (supabase : Client) (user_id : Z) : list UserProfile :=
  filter (fun u => u_is_active u && u_is_discoverable u && id_differs user_id u)
         (users supabase).

(** Larger scores first. *)
Definition by_score_desc (a b : ScoredCandidate) : Prop := (sc_score b <= sc_score a)%Q.

(** The candidate rows of a subject; none for a subject without an id. *)
Definition candidate_rows (supabase : Client) (user : UserProfile) : list UserProfile :=
  match truthy_int (u_id user) with
  | Some user_id => matching_users supabase user_id
  | None => []
  end.

(** ** Sample data *)

Module Sample.

Local Open Scope string_scope.
Local Open Scope Z_scope.

Definition running : Affiliation := mkAff (Some 1) "Running".
Definition yoga : Affiliation := mkAff (Some 2) "Yoga".
Definition get_fit : Affiliation := mkAff (Some 10) "Get fit".
Definition meet_people : Affiliation := mkAff (Some 11) "Meet people".

(** A row of [users]. *)
Definition row (id : Z) (name : string) (age : option Z) (location : option string)
    : UserProfile :=
  mkUser (Some id) name age (PyStr.text <$> location) true true None None None.

Definition with_affiliations (sports goals : list Affiliation) (u : UserProfile)
    : UserProfile :=
  set_goals goals (set_sports sports u).

(** Sports and goals both present and pairwise disjoint; nothing else. *)
Definition runner : UserProfile :=
  with_affiliations [running] [get_fit] (row 1 "Rae" None None).
Definition yogi : UserProfile :=
  with_affiliations [yoga] [meet_people] (row 2 "Yu" None None).

(** No sports, no goals, nothing else. *)
Definition blank1 : UserProfile := row 1 "Ann" None None.
Definition blank2 : UserProfile := row 2 "Ben" None None.

Definition alice : UserProfile :=
  with_affiliations [running] [get_fit] (row 1 "Alice" (Some 30) (Some "Boston")).
Definition bob : UserProfile := row 2 "Bob" (Some 31) (Some "Boston").
Definition carol : UserProfile := row 3 "Carol" (Some 45) (Some "Salem").
Definition dave : UserProfile := row 4 "Dave" (Some 29) None.
Definition nobody : UserProfile := mkUser None "Nobody" None None true true None None None.


(** Five sports each, three of the seven in common; nothing else. *)
Definition pentathlete : UserProfile :=
  mkUser (Some 5) "Pat" None None true true (Some (Prims [1; 2; 3; 4; 5])) None None.
Definition allrounder : UserProfile :=
  mkUser (Some 6) "Robin" None None true true (Some (Prims [3; 4; 5; 6; 7])) None None.

(** Responses that can always be built, and responses that cannot be built
    from a row whose [created_at] is the text "now". *)
Definition every_row : Response := fun _ => true.
Definition dated_rows : Response := fun r => negb (String.eqb (b_created_at r) "now").

Definition no_failure : Query -> bool := fun _ => false.
Definition candidate_read_fails : Query -> bool :=
  fun q => match q with QUsers => true | _ => false end.

(** Alice and Bob are buddies already; Carol and Dave are not. *)
Definition club (failing : Query -> bool) : Client :=
  mkClient
    [mkBuddy 1 1 2 (80 # 1) "accepted" "2024-01-01T00:00:00Z"]
    [row 1 "Alice" (Some 30) (Some "Boston"); bob; carol; dave]
    [mkAffRow (Some 1) (Some running); mkAffRow (Some 3) (Some running);
     mkAffRow (Some 4) (Some yoga)]
    [mkAffRow (Some 1) (Some get_fit); mkAffRow (Some 4) (Some get_fit)]
    [mkRsvp (Some 3) "approved"; mkRsvp (Some 3) "approved"; mkRsvp (Some 3) "approved";
     mkRsvp (Some 4) "pending"]
    failing.

(** Twenty-one users without a location, then one in the subject's town. *)
Definition crowd : Client :=
  mkClient []
    (((fun i => row (Z.of_nat i) "Member" None None) <$> seq 2 21)
       ++ [row 23 "Neighbour" None (Some "Boston")])
    [] [] [] no_failure.

End Sample.

(** The candidates a ranking pass scores: the kept users with their sports
    and goals attached; none for a subject without an id. *)
Definition eligible_candidates (supabase : Client) (user : UserProfile)
    (limit : option Z) : list UserProfile :=
  match truthy_int (u_id user) with
  | Some user_id => enrich supabase (potential_users_of supabase user_id limit)
  | None => []
  end.

(** ** Agreement with the IEEE 754 specification

    [SpecFloat] of the standard library specifies binary64 operations on
    sign, significand and exponent.  The operations of [Float] are compared
    with it on the values the scorer can produce. *)

Module Binary64.

Definition b64_add : spec_float -> spec_float -> spec_float := SFadd 53 1024.
Definition b64_mul : spec_float -> spec_float -> spec_float := SFmul 53 1024.
Definition b64_div : spec_float -> spec_float -> spec_float := SFdiv 53 1024.

Definition b64_of_Z (z : Z) : spec_float := binary_normalize 53 1024 z 0 false.

Definition b64_lit (n : Z) (d : positive) : spec_float :=
  b64_div (b64_of_Z n) (b64_of_Z (Zpos d)).

(** The rational a finite binary64 number denotes. *)
Definition to_Q (f : spec_float) : Q :=
  match f with
  | S754_finite s m e =>
      ((if s then -1 else 1) * inject_Z (Zpos m) * Float.pow2 e)%Q
  | _ => 0%Q
  end.

Definition is_finite (f : spec_float) : bool :=
  match f with
  | S754_finite _ _ _ | S754_zero _ => true
  | _ => false
  end.

(** [f] is finite and denotes [q]. *)
Definition denotes (f : spec_float) (q : Q) : bool :=
  is_finite f && Qeq_bool (to_Q f) q.

Definition literals : list (Z * positive) :=
  [(35%Z, 100%positive); (175%Z, 1000%positive); (15%Z, 100%positive);
   (25%Z, 100%positive); (125%Z, 1000%positive); (20%Z, 100%positive);
   (18%Z, 100%positive); (12%Z, 100%positive); (8%Z, 100%positive);
   (5%Z, 100%positive); (10%Z, 100%positive); (75%Z, 1000%positive);
   (25%Z, 1000%positive); (2%Z, 100%positive)].

Definition literals_agree : bool :=
  forallb (fun '(n, d) => denotes (b64_lit n d) (Float.lit n d)) literals.

(** The pairs [(k, n)] with [0 <= k <= n] and [1 <= n <= bound]. *)
Definition fractions (bound : nat) : list (Z * Z) :=
  n ← seq 1 bound; k ← seq 0 (S n); [(Z.of_nat k, Z.of_nat n)].

(** A running score in both representations. *)
Definition both : Type := spec_float * Q.

Definition add_both (s c : both) : both :=
  (b64_add (fst s) (fst c), Float.fadd (snd s) (snd c)).

Definition lit_both (n : Z) (d : positive) : both := (b64_lit n d, Float.lit n d).

Definition jaccard_both (weight : both) (kn : Z * Z) : both :=
  (b64_mul (b64_div (b64_of_Z (fst kn)) (b64_of_Z (snd kn))) (fst weight),
   Float.fmul (Float.int_truediv (fst kn) (snd kn)) (snd weight)).

(** The increments a factor can add; [None] when it adds nothing. *)
Definition overlap_steps (weight neutral : both) (bound : nat) : list (option both) :=
  None :: Some neutral :: (Some ∘ jaccard_both weight <$> fractions bound).

Definition sports_steps (bound : nat) : list (option both) :=
  Some (lit_both 15 100) :: overlap_steps (lit_both 35 100) (lit_both 175 1000) bound.

Definition goals_steps (bound : nat) : list (option both) :=
  overlap_steps (lit_both 25 100) (lit_both 125 1000) bound.

Definition location_steps : list (option both) :=
  [None; Some (lit_both 20 100); Some (lit_both 18 100); Some (lit_both 12 100);
   Some (lit_both 8 100); Some (lit_both 5 100)].

Definition age_steps : list (option both) :=
  [None; Some (lit_both 10 100); Some (lit_both 75 1000); Some (lit_both 5 100);
   Some (lit_both 25 1000)].

Definition activity_steps : list (option both) :=
  [None; Some (lit_both 10 100); Some (lit_both 75 1000); Some (lit_both 5 100);
   Some (lit_both 2 100)].

Definition step (s : both) (c : option both) : both :=
  match c with
  | Some c => add_both s c
  | None => s
  end.

Definition percent (s : both) : both :=
  (b64_mul (fst s) (b64_of_Z 100), Float.fmul (snd s) 100).

Definition agree (s : both) : bool := denotes (fst s) (snd s).

(** Every way through the five factors, with Jaccard fractions of
    denominator up to [bound], gives the same percentage in both
    representations. *)
Definition scores_agree (bound : nat) : bool :=
  forallb (fun a => let s1 := step (S754_zero false, 0%Q) a in
    forallb (fun b => let s2 := step s1 b in
      forallb (fun c => let s3 := step s2 c in
        forallb (fun d => let s4 := step s3 d in
          forallb (fun e => agree (percent (step s4 e))) activity_steps)
        age_steps)
      location_steps)
    (goals_steps bound))
  (sports_steps bound).

Definition jaccard_terms_agree (bound : nat) : bool :=
  forallb (fun kn => agree (jaccard_both (lit_both 35 100) kn) &&
                     agree (jaccard_both (lit_both 25 100) kn))
          (fractions bound).

End Binary64.

(** ** Ranking: what a pass fetches and attaches *)

(** The batch-fetched dictionaries of a ranking pass. *)
Definition pass_ids (supabase : Client) (user_id : Z) (limit : option Z) : list Z :=
  omap u_id (potential_users_of supabase user_id limit).

Definition enrich_one (supabase : Client) (ids : list Z) (u : UserProfile) : UserProfile :=
  set_goals
    (lookup_affiliations
       (affiliations_by_user (affiliations_of QUserGoals (user_goals supabase) supabase ids))
       (u_id u))
    (set_sports
       (lookup_affiliations
          (affiliations_by_user (affiliations_of QUserSports (user_sports supabase) supabase ids))
          (u_id u))
       u).

(** The joined items of the rows of one user, in row order. *)
Definition items_for (uid : Z) (rows : list AffRow) : list Affiliation :=
  omap ar_item (filter (fun r => ar_user_id r = Some uid) rows).

Definition rsvps_for (uid : Z) (rows : list RsvpRow) : list RsvpRow :=
  filter (fun r => rv_user_id r = Some uid) rows.

(** The approved RSVPs of one user in the table. *)
Definition approved_for (supabase : Client) (uid : Z) : list RsvpRow :=
  filter (fun r => rv_user_id r = Some uid /\ rv_status r = "approved"%string)
         (event_rsvps supabase).

Definition set_location (l : option PyStr.str) (u : UserProfile) : UserProfile :=
  mkUser (u_id u) (u_full_name u) (u_age u) l (u_is_active u)
         (u_is_discoverable u) (u_sports u) (u_goals u) (u_event_count u).

(** Only characters [str.strip] removes. *)
Definition blank (s : PyStr.str) : bool := forallb PyStr.is_space s.

(** The scored candidates of a pass in the order they were fetched. *)
Definition scored_in_fetch_order (user : UserProfile) (supabase : Client)
    (limit : option Z) : list ScoredCandidate :=
  match truthy_int (u_id user) with
  | Some user_id =>
      let pool := potential_users_of supabase user_id limit in
      score_candidates user supabase
        (count_events (approved_rsvps supabase (omap u_id pool)))
        (enrich supabase pool)
  | None => []
  end.

Definition has_score (s : Q) (e : ScoredCandidate) : bool := Qeq_bool (sc_score e) s.

(** ** The sports list of [api/sports.py] and its cache *)

(** A row of [sports]: the three columns the API returns and the others. *)
Record SportRow := mkSportRow {
  sp_id : option Z;
  sp_name : option string;
  sp_icon : option string;
  sp_other : list (string * string)
}.

(** An entry of the response: [{"id": ..., "name": ..., "icon": ...}]. *)
Record SportItem := mkSportItem {
  si_id : option Z;
  si_name : option string;
  si_icon : option string
}.

Definition sport_item (s : SportRow) : SportItem :=
  mkSportItem (sp_id s) (sp_name s) (sp_icon s).

(** The module globals [_sports_cache] and [_sports_cache_at]. *)
Record SportsCache := mkSportsCache {
  _sports_cache : option (list SportItem);
  _sports_cache_at : Q
}.

Definition initial_cache : SportsCache := mkSportsCache None 0.

Definition _CACHE_TTL_SEC : Q := 300.

(** [x - y] on floats. *)
Definition float_sub (x y : Q) : Q := Float.rnd (x - y).

(** [(now - _sports_cache_at) < _CACHE_TTL_SEC] *)
Definition within_ttl (st : SportsCache) (now : Q) : bool :=
  negb (Qle_bool _CACHE_TTL_SEC (float_sub now (_sports_cache_at st))).

(** [list_sports()] in state [st], at time [now = time.time()]; [fetched]
    is what [get_supabase()] and the query
    [table("sports").select("*").order("name")] give if they are reached:
    [None] when either raises, the rows otherwise. *)
Definition list_sports (st : SportsCache) (now : Q) (fetched : option (list SportRow))
    : (HTTPException + list SportItem) * SportsCache :=
  let refresh :=
    match fetched with
    | Some (first :: rest) =>
        let fresh := sport_item <$> (first :: rest) in
        (inr fresh, mkSportsCache (Some fresh) now)
    | Some [] => (inr [], st)
    | None =>
        match _sports_cache st with
        | Some stale => (inr stale, st)
        | None => (inl (HTTPError 500 (Caught "Failed to fetch sports")), st)
        end
    end in
  match _sports_cache st with
  | Some cached => if within_ttl st now then (inr cached, st) else refresh
  | None => refresh
  end.

(** A sequence of calls, each with its time and what a fetch would give. *)
Definition serve (st : SportsCache) (calls : list (Q * option (list SportRow)))
    : SportsCache :=
  fold_left (fun st call => snd (list_sports st (fst call) (snd call))) calls st.

(** The cache, when filled, holds a non-empty list. *)
Definition cache_filled_properly (st : SportsCache) : bool :=
  match _sports_cache st with
  | Some [] => false
  | _ => true
  end.

(** ** The service function [create_buddy_request] *)

Inductive ServiceError :=
  | ValueError (message : string)
  | StoreError.   (* an exception of the insert, which nothing catches *)

(** [table(t).select("..., items(*)").eq("user_id", id)], and the loop
    that keeps the joined items that are present. *)
Definition own_affiliations (q : Query) (rows : list AffRow) (supabase : Client) (id : Z)
    : option (list Affiliation) :=
  if fails supabase q then None
  else Some (omap ar_item (filter (fun r => ar_user_id r = Some id) rows)).

(** The [try] block that assembles both profiles and scores them; [None]
    when any of its reads raises. *)
Definition assembled_score (supabase : Client) (user1_id user2_id : Z) : option Q :=
  user1_data ← user_single supabase user1_id;
  user2_data ← user_single supabase user2_id;
  sports1 ← own_affiliations QUserSports (user_sports supabase) supabase user1_id;
  sports2 ← own_affiliations QUserSports (user_sports supabase) supabase user2_id;
  goals1 ← own_affiliations QUserGoals (user_goals supabase) supabase user1_id;
  goals2 ← own_affiliations QUserGoals (user_goals supabase) supabase user2_id;
  Some (calculate_buddy_score
          (set_goals goals1 (set_sports sports1 user1_data))
          (set_goals goals2 (set_sports sports2 user2_data))
          (Some supabase) None).

Definition create_buddy_request (user1_id user2_id : Z) (supabase : Client) (now : string)
    : ServiceError + BuddyRow :=
  if buddy_exists supabase user1_id user2_id then inl (ValueError "Buddy already exists")
  else
    let score := default (50 # 1)%Q (assembled_score supabase user1_id user2_id) in
    match insert_buddy supabase user1_id user2_id score now with
    | None => inl StoreError
    | Some [] => inl (ValueError "Failed to create buddy request")
    | Some (first :: _) => inr first
    end.

(** ** The handlers of [api/buddies.py] that read and change relationships

    Columns the handlers only pass through ([avatar_url], [bio], the icon
    of a sport or goal attached to a user) are not tracked.  The
    [created_at] of a relationship is kept as the string the store holds;
    its conversion by [datetime.fromisoformat] is part of building a
    response, which can raise ([Response], [DetailResponse]). *)

(** Reads and writes of the handlers; those the ranker also issues are
    under [Query]. *)
Inductive HandlerQuery :=
  | HConnect        (* get_supabase() *)
  | HBuddyById      (* buddies, eq id, single *)
  | HUpdateBuddy
  | HDeleteBuddy
  | HListAsUser1    (* buddies, select *, eq user1_id *)
  | HListAsUser2    (* buddies, select *, eq user2_id *)
  | HListUsers      (* users, in id *)
  | HOwnSports      (* user_sports, eq user_id *)
  | HOwnGoals       (* user_goals, eq user_id *)
  | HRecentRsvps    (* event_rsvps with events, in user_id *)
  | HEventSports    (* sports, in id *)
  | HUserPhotos.    (* user_photos, in user_id *)

(** A row of [events], as joined to an RSVP. *)
Record EventRow := mkEvent {
  ev_id : option Z;
  ev_title : option string;
  ev_sport_id : option Z;
  ev_start_time : option string
}.

(** A full row of [event_rsvps] with its joined event. *)
Record RsvpEvent := mkRsvpEvent {
  re_user_id : option Z;
  re_status : string;
  re_rsvp_at : option string;
  re_event : option EventRow
}.

(** A row of [user_photos]. *)
Record PhotoRow := mkPhoto {
  ph_user_id : option Z;
  ph_photo_url : option string;
  ph_display_order : option Z
}.

(** The store behind the handlers.  [bk_updated_at] is the column
    [buddies.updated_at], by relationship id; [bk_order_rsvps] and
    [bk_order_photos] are the orderings the database applies for
    [order("rsvp_at", desc=True)] and [order("display_order")]. *)
Record Backend := mkBackend {
  bk_buddies : list BuddyRow;
  bk_users : list UserProfile;
  bk_user_sports : list AffRow;
  bk_user_goals : list AffRow;
  bk_rsvps : list RsvpEvent;
  bk_sports : list SportRow;
  bk_photos : list PhotoRow;
  bk_updated_at : gmap Z string;
  bk_fails : Query -> bool;
  bk_raises : HandlerQuery -> bool;
  bk_order_rsvps : list RsvpEvent -> list RsvpEvent;
  bk_order_photos : list PhotoRow -> list PhotoRow
}.

Definition rsvp_row (r : RsvpEvent) : RsvpRow := mkRsvp (re_user_id r) (re_status r).

(** The client the scorer and the ranker are handed. *)
Definition client_of (b : Backend) : Client :=
  mkClient (bk_buddies b) (bk_users b) (bk_user_sports b) (bk_user_goals b)
           (rsvp_row <$> bk_rsvps b) (bk_fails b).

Definition with_buddies (rows : list BuddyRow) (stamps : gmap Z string) (b : Backend)
    : Backend :=
  mkBackend rows (bk_users b) (bk_user_sports b) (bk_user_goals b) (bk_rsvps b)
            (bk_sports b) (bk_photos b) stamps (bk_fails b) (bk_raises b)
            (bk_order_rsvps b) (bk_order_photos b).

(** [table("buddies").select("*").eq("id", buddy_id).single()]: raises
    unless exactly one row matches. *)
Definition buddy_by_id (b : Backend) (buddy_id : Z) : option BuddyRow :=
  if bk_raises b HBuddyById then None
  else match filter (fun r => b_id r = buddy_id) (bk_buddies b) with
       | [r] => Some r
       | _ => None
       end.

Definition set_status (status : string) (r : BuddyRow) : BuddyRow :=
  mkBuddy (b_id r) (b_user1_id r) (b_user2_id r) (b_match_score r) status (b_created_at r).

(** The table after [update({"status": ..., ...}).eq("id", buddy_id)]. *)
Definition updated_rows (buddy_id : Z) (status : string) (rows : list BuddyRow)
    : list BuddyRow :=
  (fun r => if Z.eqb (b_id r) buddy_id then set_status status r else r) <$> rows.

(** The answer of [update_buddy] and the store it leaves.  Building the
    response comes after the update: when it raises, the answer is 500 and
    the row is changed all the same. *)
Definition update_buddy (response : Response) (buddy_id : Z) (status : string)
    (current_user : UserProfile) (b : Backend) (now : string)
    : (HTTPException + BuddyRow) * Backend :=
  if bk_raises b HConnect then (inl (HTTPError 500 (Caught "Supabase connection error")), b)
  else
    match truthy_int (u_id current_user) with
    | None => (inl (HTTPError 400 "User ID not found"), b)
    | Some user_id =>
        match buddy_by_id b buddy_id with
        | None => (inl (HTTPError 404 "Buddy not found"), b)
        | Some buddy =>
            if negb (Z.eqb (b_user2_id buddy) user_id)
            then (inl (HTTPError 403 "Only the receiver can update buddy status"), b)
            else if bk_raises b HUpdateBuddy
            then (inl (HTTPError 500 (Caught "Failed to update buddy")), b)
            else
              let rows := updated_rows buddy_id status (bk_buddies b) in
              match filter (fun r => b_id r = buddy_id) rows with
              | [] => (inl (HTTPError 500 "Failed to update buddy"),
                       with_buddies rows (bk_updated_at b) b)
              | updated_buddy :: _ =>
                  (if response updated_buddy then inr updated_buddy
                   else inl (HTTPError 500 (Caught "Failed to update buddy")),
                   with_buddies rows (<[buddy_id := now]> (bk_updated_at b)) b)
              end
        end
    end.

Definition delete_buddy (buddy_id : Z) (current_user : UserProfile) (b : Backend)
    : (HTTPException + unit) * Backend :=
  if bk_raises b HConnect then (inl (HTTPError 500 (Caught "Supabase connection error")), b)
  else
    match truthy_int (u_id current_user) with
    | None => (inl (HTTPError 400 "User ID not found"), b)
    | Some user_id =>
        match buddy_by_id b buddy_id with
        | None => (inl (HTTPError 404 "Buddy not found"), b)
        | Some buddy =>
            if negb (Z.eqb (b_user1_id buddy) user_id) && negb (Z.eqb (b_user2_id buddy) user_id)
            then (inl (HTTPError 403 "Not authorized to delete this buddy"), b)
            else if bk_raises b HDeleteBuddy
            then (inl (HTTPError 500 (Caught "Failed to delete buddy")), b)
            else
              (inr tt,
               with_buddies (filter (fun r => b_id r <> buddy_id) (bk_buddies b))
                            (delete buddy_id (bk_updated_at b)) b)
        end
    end.

(** *** [list_buddies] *)

(** The profile shown for each side of a relationship. *)
Record UserDetail := mkDetail {
  d_id : option Z;
  d_full_name : string;
  d_age : option Z;
  d_location : option PyStr.str;
  d_sports : list Affiliation;
  d_goals : list Affiliation
}.

Record BuddyDetail := mkBuddyDetail {
  bd_buddy : BuddyRow;
  bd_user1 : UserDetail;
  bd_user2 : UserDetail
}.

(** Truth value of the optional [status] query parameter. *)
Definition truthy_filter (status_filter : option string) : option string :=
  match status_filter with
  | Some f => if PyStr.truthy f then Some f else None
  | None => None
  end.

Definition passes_filter (status_filter : option string) (buddy : BuddyRow) : bool :=
  match truthy_filter status_filter with
  | Some f => String.eqb (b_status buddy) f
  | None => true
  end.

(** The loop that keeps the first row of each id that passes the filter. *)
Definition keep_unique (status_filter : option string) (all_buddies : list BuddyRow)
    : gset Z * list BuddyRow :=
  fold_left
    (fun '(buddy_ids, buddies) buddy =>
       if negb (bool_decide (b_id buddy ∈ buddy_ids)) && passes_filter status_filter buddy
       then (buddy_ids ∪ {[b_id buddy]}, buddies ++ [buddy])
       else (buddy_ids, buddies))
    all_buddies (∅, []).

(** The first [try] block; [None] when a read raises. *)
Definition involved_buddies (b : Backend) (user_id : Z) (status_filter : option string)
    : option (list BuddyRow) :=
  if bk_raises b HListAsUser1 then None
  else if bk_raises b HListAsUser2 then None
  else
    let buddies1 := filter (fun r => b_user1_id r = user_id) (bk_buddies b) in
    let buddies2 := filter (fun r => b_user2_id r = user_id) (bk_buddies b) in
    Some (snd (keep_unique status_filter (buddies1 ++ buddies2))).

(** [{u["id"]: u for u in rows}] *)
Definition index_users (rows : list UserProfile) : gmap Z UserProfile :=
  fold_left
    (fun acc u => match u_id u with Some i => <[i := u]> acc | None => acc end)
    rows ∅.

Definition id_in_set (ids : gset Z) (o : option Z) : bool :=
  match o with
  | Some i => bool_decide (i ∈ ids)
  | None => false
  end.

(** [table("users").select(...).in_("id", user_ids)], indexed by id; empty
    when the read raises. *)
Definition users_by_ids (b : Backend) (user_ids : gset Z) : gmap Z UserProfile :=
  if bk_raises b HListUsers then ∅
  else index_users (filter (fun u => id_in_set user_ids (u_id u)) (bk_users b)).

Definition or_unknown (name : string) : string :=
  if PyStr.truthy name then name else "Unknown"%string.

Definition user_detail (users_by_id : gmap Z UserProfile)
    (sports_by_user goals_by_user : gmap Z (list Affiliation)) (uid : Z) : UserDetail :=
  let sports := default [] (sports_by_user !! uid) in
  let goals := default [] (goals_by_user !! uid) in
  match users_by_id !! uid with
  | Some u => mkDetail (u_id u) (or_unknown (u_full_name u)) (u_age u) (u_location u) sports goals
  | None => mkDetail (Some uid) "Unknown" None None sports goals
  end.

(** The answer for the kept relationships: both users of each, looked up
    in three batched reads. *)
Definition describe (b : Backend) (buddies : list BuddyRow) : list BuddyDetail :=
  let user_ids : gset Z :=
    list_to_set (b_user1_id <$> buddies) ∪ list_to_set (b_user2_id <$> buddies) in
  let users_by_id := users_by_ids b user_ids in
  let sports_by_user :=
    affiliations_by_user
      (affiliations_of QUserSports (bk_user_sports b) (client_of b) (elements user_ids)) in
  let goals_by_user :=
    affiliations_by_user
      (affiliations_of QUserGoals (bk_user_goals b) (client_of b) (elements user_ids)) in
  (fun buddy =>
     mkBuddyDetail buddy
       (user_detail users_by_id sports_by_user goals_by_user (b_user1_id buddy))
       (user_detail users_by_id sports_by_user goals_by_user (b_user2_id buddy)))
  <$> buddies.

(** Whether [BuddyDetail(...)] can be built for a relationship and its two
    users: as for [Response], the conversion of [created_at] and the
    validation by the schema can raise. *)
Definition DetailResponse : Type := BuddyDetail -> bool.

(** What a handler raises: an [HTTPException], or an exception that it
    does not catch and the framework answers with status 500. *)
Inductive Raised :=
  | Refused (e : HTTPException)
  | Uncaught.

(** [list_buddies] builds its answer outside any [try]. *)
Definition list_buddies (response : DetailResponse) (status_filter : option string)
    (current_user : UserProfile) (b : Backend) : Raised + list BuddyDetail :=
  if bk_raises b HConnect
  then inl (Refused (HTTPError 500 (Caught "Supabase connection error")))
  else
    match truthy_int (u_id current_user) with
    | None => inl (Refused (HTTPError 400 "User ID not found"))
    | Some user_id =>
        match involved_buddies b user_id status_filter with
        | None => inl (Refused (HTTPError 503 "Service temporarily unavailable"))
        | Some [] => inr []
        | Some buddies =>
            let result := describe b buddies in
            if forallb response result then inr result else inl Uncaught
        end
    end.

(** *** [get_suggested_buddies] *)

(** [l[a:b]] for any integers [a] and [b]. *)
Definition slice_index (len i : Z) : Z :=
  if (i <? 0)%Z then Z.max 0 (len + i) else Z.min i len.

Definition slice {A} (l : list A) (a b : Z) : list A :=
  let len := Z.of_nat (length l) in
  let a' := slice_index len a in
  let b' := slice_index len b in
  take (Z.to_nat (b' - a')) (drop (Z.to_nat a') l).

(** [list.sort(key=key, reverse=True)] on string keys: stable, larger keys
    first. *)
Fixpoint insert_by_key {A} (key : A -> string) (x : A) (l : list A) : list A :=
  match l with
  | [] => [x]
  | y :: l' =>
      if String.leb (key y) (key x) then x :: y :: l'
      else y :: insert_by_key key x l'
  end.

Definition sort_by_key {A} (key : A -> string) (l : list A) : list A :=
  foldr (insert_by_key key) [] l.

(** The sport shown with a recent event. *)
Record SportTag := mkSportTag {
  st_id : option Z;
  st_name : string;
  st_icon : string
}.

Record RecentEvent := mkRecent {
  rc_id : option Z;
  rc_title : option string;
  rc_sport : option SportTag;
  rc_start_time : option string
}.

Record Badge := mkBadge {
  badge_name : string;
  badge_icon : string
}.

Record SuggestedUser := mkSuggested {
  su_id : option Z;
  su_full_name : string;
  su_age : option Z;
  su_location : option PyStr.str;
  su_sports : Items;
  su_goals : Items;
  su_recent_events : list RecentEvent;
  su_badges : list Badge;
  su_event_count : Z;
  su_photos : list string
}.

Record Suggestion := mkSuggestion {
  sg_user : SuggestedUser;
  sg_score : Q
}.

(** The current user's own sports or goals; none when the read raises. *)
Definition own_items (raises : bool) (rows : list AffRow) (user_id : Z) : list Affiliation :=
  if raises then []
  else omap ar_item (filter (fun r => ar_user_id r = Some user_id) rows).

(** [table("event_rsvps").select("user_id, event_id, rsvp_at, events(*)")
      .in_("user_id", user_ids).eq("status", "approved")
      .order("rsvp_at", desc=True).limit(500)] *)
Definition recent_rsvps (b : Backend) (user_ids : list Z) : option (list RsvpEvent) :=
  if bk_raises b HRecentRsvps then None
  else Some (take 500
               (bk_order_rsvps b
                  (filter (fun r => String.eqb (re_status r) "approved" && user_in user_ids (re_user_id r))
                          (bk_rsvps b)))).

(** The events of one user among the fetched rows, newest first, three at
    most. *)
Definition recent_events_of (rows : list RsvpEvent) (uid : Z) : list EventRow :=
  let with_event :=
    omap (fun r => ev ← re_event r; Some (ev, re_rsvp_at r))
         (filter (fun r => re_user_id r = Some uid) rows) in
  fst <$> take 3 (sort_by_key (fun x => default EmptyString (snd x)) with_event).

(** The [sport_id]s of all fetched events. *)
Definition event_sport_ids (rows : list RsvpEvent) : gset Z :=
  list_to_set
    (omap (fun r => match re_user_id r with
                    | Some _ => ev ← re_event r; truthy_int (ev_sport_id ev)
                    | None => None
                    end) rows).

Definition sport_tag (s : SportRow) : SportTag :=
  mkSportTag (sp_id s)
    (match sp_name s with
     | Some n => if PyStr.truthy n then n else "Unknown Sport"
     | None => "Unknown Sport"
     end)%string
    (match sp_icon s with
     | Some i => if PyStr.truthy i then i else "🏃"
     | None => "🏃"
     end)%string.

(** [{s["id"]: {...} for s in rows}] for the sports with the given ids;
    empty when no id is asked for or the read raises. *)
Definition sports_by_id (b : Backend) (sport_ids : gset Z) : gmap Z SportTag :=
  if bool_decide (sport_ids = ∅) then ∅
  else if bk_raises b HEventSports then ∅
  else fold_left
         (fun acc s => match sp_id s with Some i => <[i := sport_tag s]> acc | None => acc end)
         (filter (fun s => id_in_set sport_ids (sp_id s)) (bk_sports b)) ∅.

(** The photo urls of one user, in the order the store returns them. *)
Definition photos_of (b : Backend) (user_ids : list Z) (uid : Z) : list string :=
  if bk_raises b HUserPhotos then []
  else omap (fun p => if decide (ph_user_id p = Some uid)
                      then url ← ph_photo_url p; if PyStr.truthy url then Some url else None
                      else None)
            (bk_order_photos b (filter (fun p => user_in user_ids (ph_user_id p)) (bk_photos b))).

Definition items_length (items : Items) : nat :=
  match items with
  | Dicts l => length l
  | Prims l => length l
  end.

Definition activity_badge (event_count : Z) : list Badge :=
  if (10 <=? event_count)%Z then [mkBadge "Event Veteran" "🏆"]
  else if (5 <=? event_count)%Z then [mkBadge "Active Member" "⭐"]
  else if (1 <=? event_count)%Z then [mkBadge "Getting Started" "🌱"]
  else [].

Definition badges_of (event_count : Z) (sports : Items) : list Badge :=
  activity_badge event_count ++
  (if Nat.leb 5 (items_length sports) then [mkBadge "Multi-Sport" "🎯"] else []).

Definition recent_event (sports : gmap Z SportTag) (event : EventRow) : RecentEvent :=
  mkRecent (ev_id event) (ev_title event)
    (match truthy_int (ev_sport_id event) with
     | Some sid => sports !! sid
     | None => None
     end)
    (ev_start_time event).

Definition suggestion (b : Backend) (user_ids : list Z) (fetched : option (list RsvpEvent))
    (sports : gmap Z SportTag) (m : ScoredCandidate) : Suggestion :=
  let user := sc_user m in
  let event_count := default 0%Z (u_event_count user) in
  let user_sports := default (Dicts []) (u_sports user) in
  let recent_raw :=
    match u_id user, fetched with
    | Some uid, Some rows => recent_events_of rows uid
    | _, _ => []
    end in
  mkSuggestion
    (mkSuggested (u_id user) (u_full_name user) (u_age user) (u_location user)
       user_sports (default (Dicts []) (u_goals user))
       (recent_event sports <$> recent_raw)
       (badges_of event_count user_sports)
       event_count
       (match u_id user with Some uid => photos_of b user_ids uid | None => [] end))
    (sc_score m).

Definition get_suggested_buddies (limit : Z) (min_score : Q) (offset : Z)
    (current_user : UserProfile) (b : Backend) : HTTPException + list Suggestion :=
  if bk_raises b HConnect then inl (HTTPError 500 (Caught "Supabase connection error"))
  else
    match truthy_int (u_id current_user) with
    | None => inl (HTTPError 400 "User ID not found")
    | Some user_id =>
        if negb (u_is_discoverable current_user)
        then inl (HTTPError 403 "You must enable discovery to find buddies")
        else
          let current_user :=
            set_goals (own_items (bk_raises b HOwnGoals) (bk_user_goals b) user_id)
              (set_sports (own_items (bk_raises b HOwnSports) (bk_user_sports b) user_id)
                 current_user) in
          let all_buddies := find_potential_buddies current_user (client_of b) None 0 in
          let paginated_buddies := slice all_buddies offset (offset + limit) in
          match paginated_buddies with
          | [] => inr []
          | _ :: _ =>
              let user_ids := omap (fun m => u_id (sc_user m)) paginated_buddies in
              let fetched := recent_rsvps b user_ids in
              let sports := sports_by_id b (event_sport_ids (default [] fetched)) in
              inr (suggestion b user_ids fetched sports <$> paginated_buddies)
          end
    end.

(** One iteration of the loop of [list_buddies] that drops repeated ids and
    applies the status filter. *)
Definition keep_step (status_filter : option string) (acc : gset Z * list BuddyRow)
    (buddy : BuddyRow) : gset Z * list BuddyRow :=
  let '(buddy_ids, buddies) := acc in
  if negb (bool_decide (b_id buddy ∈ buddy_ids)) && passes_filter status_filter buddy
  then (buddy_ids ∪ {[b_id buddy]}, buddies ++ [buddy])
  else (buddy_ids, buddies).

(** *** [get_suggested_buddies]: the ranking behind a page *)

(** The caller's profile once its own sports and goals are attached. *)
Definition caller_profile (b : Backend) (current_user : UserProfile) (user_id : Z)
    : UserProfile :=
  set_goals (own_items (bk_raises b HOwnGoals) (bk_user_goals b) user_id)
    (set_sports (own_items (bk_raises b HOwnSports) (bk_user_sports b) user_id) current_user).

(** The ranking [get_suggested_buddies] pages through. *)
Definition suggested_ranking (b : Backend) (current_user : UserProfile)
    : list ScoredCandidate :=
  match truthy_int (u_id current_user) with
  | Some user_id =>
      find_potential_buddies (caller_profile b current_user user_id) (client_of b) None 0
  | None => []
  end.

Definition ranked_entry (m : ScoredCandidate) : option Z * Q := (u_id (sc_user m), sc_score m).
Definition page_entry (s : Suggestion) : option Z * Q := (su_id (sg_user s), sg_score s).

(** The page of an answer; empty for a refusal. *)
Definition answer_page (answer : HTTPException + list Suggestion) : list Suggestion :=
  match answer with
  | inr page => page
  | inl _ => []
  end.

Definition page_entries (answer : HTTPException + list Suggestion) : list (option Z * Q) :=
  page_entry <$> answer_page answer.

(** The approved RSVPs of one user, with their events. *)
Definition approved_events (b : Backend) (uid : Z) : list RsvpEvent :=
  filter (fun r => re_user_id r = Some uid /\ re_status r = "approved"%string) (bk_rsvps b).

Definition badge_names (u : SuggestedUser) : list string := badge_name <$> su_badges u.

(** ** More sample data *)

Definition sample_sports : list SportRow :=
  [mkSportRow (Some 1%Z) (Some "Running"%string) None [];
   mkSportRow (Some 2%Z) (Some "Yoga"%string) (Some "Y"%string) [("created_at", "2024")%string]].

Module SampleStore.

Local Open Scope string_scope.
Local Open Scope Z_scope.

Definition no_raise : HandlerQuery -> bool := fun _ => false.

(** Details that can always be built, and details that cannot be built for
    a relationship whose [created_at] is the text "now". *)
Definition every_detail : DetailResponse := fun _ => true.
Definition dated_details : DetailResponse :=
  fun d => negb (String.eqb (b_created_at (bd_buddy d)) "now").
Definition list_read_raises : HandlerQuery -> bool :=
  fun q => match q with HListAsUser2 => true | _ => false end.

Definition morning_run : EventRow :=
  mkEvent (Some 100) (Some "Morning run") (Some 1) (Some "2024-05-01T07:00:00Z").
Definition evening_yoga : EventRow :=
  mkEvent (Some 101) (Some "Evening yoga") (Some 2) (Some "2024-05-02T19:00:00Z").

Definition attended (uid : Z) (rsvp_at : string) (event : EventRow) : RsvpEvent :=
  mkRsvpEvent (Some uid) "approved" (Some rsvp_at) (Some event).

(** The users, relationships, sports and goals of [Sample.club]; Carol
    has five approved RSVPs and Dave a pending one. *)
Definition store (raising : HandlerQuery -> bool) : Backend :=
  mkBackend
    (buddies (Sample.club Sample.no_failure))
    (users (Sample.club Sample.no_failure))
    (user_sports (Sample.club Sample.no_failure))
    (user_goals (Sample.club Sample.no_failure))
    [attended 3 "2024-04-05" morning_run; attended 3 "2024-04-04" evening_yoga;
     attended 3 "2024-04-03" morning_run; attended 3 "2024-04-02" evening_yoga;
     attended 3 "2024-04-01" morning_run;
     mkRsvpEvent (Some 4) "pending" (Some "2024-04-06") (Some morning_run)]
    [mkSportRow (Some 1) (Some "Running") None []; mkSportRow (Some 2) (Some "Yoga") None []]
    [mkPhoto (Some 3) (Some "https://example.org/carol.jpg") (Some 0)]
    ∅ Sample.no_failure raising id id.

End SampleStore.

(** * Properties *)

(** ** Rounding *)

Module FloatFacts.

Import Float.
Local Open Scope Q_scope.

Lemma rne_cases (x : Q) :
  let f := Qfloor x in
  (rne x = f /\ x - inject_Z f < 1 # 2) \/
  (rne x = (f + 1)%Z /\ 1 # 2 < x - inject_Z f) \/
  (x - inject_Z f == 1 # 2 /\ rne x = if Z.even f then f else (f + 1)%Z).
Proof.
  intros f. unfold rne. fold f.
  destruct (Qcompare_spec (x - inject_Z f) (1 # 2)) as [E | L | G]; auto.
Qed.

Lemma floor_bounds (x : Q) : inject_Z (Qfloor x) <= x /\ x < inject_Z (Qfloor x) + 1.
Proof.
  split; [apply Qfloor_le |].
  pose proof (Qlt_floor x) as H. rewrite inject_Z_plus in H. exact H.
Qed.

Lemma rne_mono (x y : Q) : x <= y -> (rne x <= rne y)%Z.
Proof.
  intros Hxy.
  pose proof (Qfloor_resp_le _ _ Hxy) as Hf.
  pose proof (floor_bounds x) as [Hx1 Hx2].
  pose proof (floor_bounds y) as [Hy1 Hy2].
  destruct (Z.eq_dec (Qfloor x) (Qfloor y)) as [E | NE].
  - destruct (rne_cases x) as [[-> Hx] | [[-> Hx] | [Hx ->]]];
    destruct (rne_cases y) as [[-> Hy] | [[-> Hy] | [Hy ->]]];
    rewrite <- ?E in *; try lia; try lra;
    repeat destruct (Z.even _); lia.
  - assert (Qfloor x + 1 <= Qfloor y)%Z as Hlt by lia.
    assert (rne x <= Qfloor x + 1)%Z.
    { destruct (rne_cases x) as [[-> _] | [[-> _] | [_ ->]]]; try lia.
      destruct (Z.even _); lia. }
    assert (Qfloor y <= rne y)%Z.
    { destruct (rne_cases y) as [[-> _] | [[-> _] | [_ ->]]]; try lia.
      destruct (Z.even _); lia. }
    lia.
Qed.

Lemma rne_Z (z : Z) : rne (inject_Z z) = z.
Proof.
  unfold rne. rewrite Qfloor_Z.
  destruct (Qcompare_spec (inject_Z z - inject_Z z) (1 # 2)) as [E | L | G];
    try reflexivity; lra.
Qed.

Lemma pow2_pos e : 0 < pow2 e.
Proof. apply Qpower_0_lt. reflexivity. Qed.

Lemma pow2_add a b : pow2 (a + b) == pow2 a * pow2 b.
Proof. apply Qpower_plus. discriminate. Qed.

Lemma pow2_mono a b : (a <= b)%Z -> pow2 a <= pow2 b.
Proof. intros H. apply Qpower_le_compat_l; [exact H | discriminate]. Qed.

Lemma pow2_lt a b : (a < b)%Z -> pow2 a < pow2 b.
Proof. intros H. apply Qpower_lt_compat_l; [exact H | reflexivity]. Qed.

Lemma pow2_Z n : (0 <= n)%Z -> pow2 n == inject_Z (2 ^ n).
Proof. intros H. unfold pow2. rewrite Zpower_Qpower by exact H. reflexivity. Qed.

Lemma pow2_succ a : pow2 (a + 1) == 2 * pow2 a.
Proof. rewrite pow2_add. change (pow2 1) with 2. ring. Qed.

Lemma ilog2_spec (x : Q) : 0 < x -> pow2 (ilog2 x) <= x /\ x < pow2 (ilog2 x + 1).
Proof.
  intros Hx. destruct x as [p q]. unfold ilog2. cbn [Qnum Qden].
  assert (0 < p)%Z as Hp by (unfold Qlt in Hx; cbn in Hx; lia).
  set (a := Z.log2 p). set (b := Z.log2 (Z.pos q)).
  destruct (Z.log2_spec p Hp) as [Ha1 Ha2]. fold a in Ha1, Ha2.
  destruct (Z.log2_spec (Z.pos q) eq_refl) as [Hb1 Hb2]. fold b in Hb1, Hb2.
  assert (0 <= a)%Z as Ha0 by apply Z.log2_nonneg.
  assert (0 <= b)%Z as Hb0 by apply Z.log2_nonneg.
  assert (pow2 a <= inject_Z p) as HA1
    by (rewrite pow2_Z by lia; rewrite <- Zle_Qle; exact Ha1).
  assert (inject_Z p < pow2 (a + 1)) as HA2
    by (rewrite pow2_Z by lia; rewrite <- Zlt_Qlt; exact Ha2).
  assert (pow2 b <= inject_Z (Z.pos q)) as HB1
    by (rewrite pow2_Z by lia; rewrite <- Zle_Qle; exact Hb1).
  assert (inject_Z (Z.pos q) < pow2 (b + 1)) as HB2
    by (rewrite pow2_Z by lia; rewrite <- Zlt_Qlt; exact Hb2).
  assert ((p # q) * inject_Z (Z.pos q) == inject_Z p) as Hpq.
  { rewrite (Qmake_Qdiv p q). field. discriminate. }
  pose proof (pow2_pos a) as Pa. pose proof (pow2_pos b) as Pb.
  pose proof (pow2_pos (a - b)) as Pc.
  assert (pow2 (a - b) * pow2 b == pow2 a) as Hc
    by (rewrite <- pow2_add; replace (a - b + b)%Z with a by lia; reflexivity).
  assert (pow2 (a + 1) == 2 * pow2 a) as Hsa
    by apply pow2_succ.
  assert (pow2 (b + 1) == 2 * pow2 b) as Hsb
    by apply pow2_succ.
  assert (pow2 (a - b + 1) == 2 * pow2 (a - b)) as Hsc
    by apply pow2_succ.
  assert (pow2 (a - b - 1 + 1) == pow2 (a - b)) as Hsd
    by (replace (a - b - 1 + 1)%Z with (a - b)%Z by lia; reflexivity).
  assert (2 * pow2 (a - b - 1) == pow2 (a - b)) as Hse
    by (rewrite <- Hsd, pow2_succ; reflexivity).
  set (X := p # q) in *. set (D := inject_Z (Z.pos q)) in *.
  set (P := inject_Z p) in *.
  assert (X < pow2 (a - b + 1)) as Hup.
  { rewrite Hsc. apply Qnot_le_lt. intros Hn.
    assert (2 * pow2 (a - b) * pow2 b <= X * D) by nra. nra. }
  assert (pow2 (a - b - 1) <= X) as Hlo.
  { apply Qnot_lt_le. intros Hn.
    assert (X * D <= pow2 (a - b - 1) * (2 * pow2 b)) by nra. nra. }
  destruct (Qle_bool (pow2 (a - b)) X) eqn:E.
  - apply Qle_bool_iff in E. split; assumption.
  - split; [exact Hlo |]. rewrite Hsd. apply Qnot_le_lt. intros Hn.
    apply Qle_bool_iff in Hn. congruence.
Qed.



Lemma scaled_bounds (x : Q) :
  0 < x ->
  let e := (ilog2 x - (prec - 1))%Z in
  inject_Z (2 ^ (prec - 1)) <= x / pow2 e /\ x / pow2 e <= inject_Z (2 ^ prec).
Proof.
  intros Hx e. destruct (ilog2_spec x Hx) as [H1 H2].
  pose proof (pow2_pos e) as Pe.
  assert (pow2 (ilog2 x) == pow2 e * inject_Z (2 ^ (prec - 1))) as E1.
  { rewrite <- pow2_Z by (unfold prec; lia). rewrite <- pow2_add.
    unfold e. replace (ilog2 x - (prec - 1) + (prec - 1))%Z with (ilog2 x) by lia.
    reflexivity. }
  assert (pow2 (ilog2 x + 1) == pow2 e * inject_Z (2 ^ prec)) as E2.
  { rewrite <- pow2_Z by (unfold prec; lia). rewrite <- pow2_add.
    unfold e. replace (ilog2 x - (prec - 1) + prec)%Z with (ilog2 x + 1)%Z by lia.
    reflexivity. }
  rewrite E1 in H1. rewrite E2 in H2.
  assert (x == (x / pow2 e) * pow2 e) as Ex by (field; lra).
  set (s := x / pow2 e) in *.
  split; apply Qnot_lt_le; intros Hn; nra.
Qed.

Lemma rnd_pos_eq (x : Q) :
  rnd_pos x == inject_Z (rne (x / pow2 (ilog2 x - (prec - 1)))) * pow2 (ilog2 x - (prec - 1)).
Proof. unfold rnd_pos. apply Qred_correct. Qed.

Lemma rnd_pos_bounds (x : Q) :
  0 < x -> pow2 (ilog2 x) <= rnd_pos x /\ rnd_pos x <= pow2 (ilog2 x + 1).
Proof.
  intros Hx. rewrite rnd_pos_eq.
  set (e := (ilog2 x - (prec - 1))%Z).
  destruct (scaled_bounds x Hx) as [H1 H2]. fold e in H1, H2.
  apply rne_mono in H1, H2. rewrite rne_Z in H1, H2.
  rewrite Zle_Qle in H1, H2.
  pose proof (pow2_pos e) as Pe.
  assert (pow2 (ilog2 x) == pow2 e * inject_Z (2 ^ (prec - 1))) as E1.
  { rewrite <- pow2_Z by (unfold prec; lia). rewrite <- pow2_add.
    unfold e. replace (ilog2 x - (prec - 1) + (prec - 1))%Z with (ilog2 x) by lia.
    reflexivity. }
  assert (pow2 (ilog2 x + 1) == pow2 e * inject_Z (2 ^ prec)) as E2.
  { rewrite <- pow2_Z by (unfold prec; lia). rewrite <- pow2_add.
    unfold e. replace (ilog2 x - (prec - 1) + prec)%Z with (ilog2 x + 1)%Z by lia.
    reflexivity. }
  rewrite E1, E2.
  set (m := inject_Z (rne (x / pow2 e))) in *.
  split; nra.
Qed.

Lemma rnd_pos_mono (x y : Q) : 0 < x -> x <= y -> rnd_pos x <= rnd_pos y.
Proof.
  intros Hx Hxy.
  assert (0 < y) as Hy by lra.
  destruct (ilog2_spec x Hx) as [X1 X2]. destruct (ilog2_spec y Hy) as [Y1 Y2].
  destruct (Z_le_gt_dec (ilog2 y) (ilog2 x)) as [L | G].
  - assert (ilog2 x = ilog2 y) as E.
    { apply Z.le_antisymm; [| exact L].
      destruct (Z_le_gt_dec (ilog2 x) (ilog2 y)) as [? | G]; [assumption |].
      pose proof (pow2_mono (ilog2 y + 1) (ilog2 x) ltac:(lia)). lra. }
    rewrite !rnd_pos_eq. rewrite <- E.
    set (e := (ilog2 x - (prec - 1))%Z).
    pose proof (pow2_pos e) as Pe.
    assert (x / pow2 e <= y / pow2 e) as Hs.
    { unfold Qdiv. apply Qmult_le_compat_r; [exact Hxy |].
      apply Qlt_le_weak, Qinv_lt_0_compat, Pe. }
    apply rne_mono in Hs. rewrite Zle_Qle in Hs.
    apply Qmult_le_compat_r; [exact Hs | lra].
  - destruct (rnd_pos_bounds x Hx) as [_ B1].
    destruct (rnd_pos_bounds y Hy) as [B2 _].
    pose proof (pow2_mono (ilog2 x + 1) (ilog2 y) ltac:(lia)). lra.
Qed.

Lemma rnd_0 (x : Q) : x == 0 -> rnd x = 0.
Proof.
  intros E. unfold rnd. destruct (Qcompare_spec x 0) as [_ | L | G]; [reflexivity | lra | lra].
Qed.

Lemma rnd_gt (x : Q) : 0 < x -> rnd x = rnd_pos x.
Proof.
  intros H. unfold rnd. destruct (Qcompare_spec x 0) as [E | L | G]; [lra | lra | reflexivity].
Qed.

Lemma rnd_nonneg (x : Q) : 0 <= x -> 0 <= rnd x.
Proof.
  intros H. destruct (Qlt_le_dec 0 x) as [P | N].
  - rewrite rnd_gt by exact P. destruct (rnd_pos_bounds x P) as [B _].
    pose proof (pow2_pos (ilog2 x)). lra.
  - rewrite rnd_0 by lra. apply Qle_refl.
Qed.

Lemma rnd_mono (x y : Q) : 0 <= x -> x <= y -> rnd x <= rnd y.
Proof.
  intros Hx Hxy. destruct (Qlt_le_dec 0 x) as [P | N].
  - rewrite !rnd_gt by lra. apply rnd_pos_mono; assumption.
  - rewrite (rnd_0 x) by lra. apply rnd_nonneg. lra.
Qed.



Lemma fadd_nonneg (x y : Q) : 0 <= x -> 0 <= y -> 0 <= fadd x y.
Proof. intros Hx Hy. apply rnd_nonneg. lra. Qed.

Lemma fadd_mono (x y x' y' : Q) :
  0 <= x -> 0 <= y -> x <= x' -> y <= y' -> fadd x y <= fadd x' y'.
Proof. intros Hx Hy Hxx Hyy. apply rnd_mono; lra. Qed.

Lemma fmul_nonneg (x y : Q) : 0 <= x -> 0 <= y -> 0 <= fmul x y.
Proof. intros Hx Hy. apply rnd_nonneg. nra. Qed.

Lemma fmul_mono (x y x' y' : Q) :
  0 <= x -> 0 <= y -> x <= x' -> y <= y' -> fmul x y <= fmul x' y'.
Proof. intros Hx Hy Hxx Hyy. apply rnd_mono; nra. Qed.

(** A sum whose operands are dominated stays below any bound on the sum of
    the dominating operands. *)
Lemma fadd_below (s c s' c' m : Q) :
  0 <= s -> 0 <= c -> s <= s' -> c <= c' -> fadd s' c' <= m -> fadd s c <= m.
Proof.
  intros Hs Hc Hss Hcc Hm. eapply Qle_trans; [| exact Hm]. apply fadd_mono; assumption.
Qed.

Lemma int_truediv_unit (k n : Z) :
  (0 <= k <= n)%Z -> (0 < n)%Z -> 0 <= int_truediv k n /\ int_truediv k n <= 1.
Proof.
  intros Hk Hn. unfold int_truediv.
  assert (0 < inject_Z n) as Pn by (rewrite (Zlt_Qlt 0 n) in Hn; exact Hn).
  assert (0 <= inject_Z k) as Pk by (rewrite (Zle_Qle 0 k) in Hk; tauto).
  assert (inject_Z k <= inject_Z n) as Pkn by (rewrite <- Zle_Qle; lia).
  assert (0 <= inject_Z k / inject_Z n) as P0.
  { apply Qle_shift_div_l; [exact Pn | lra]. }
  assert (inject_Z k / inject_Z n <= 1) as P1.
  { apply Qle_shift_div_r; [exact Pn | lra]. }
  split; [apply rnd_nonneg; exact P0 |].
  change 1 with (rnd 1). apply rnd_mono; assumption.
Qed.

Lemma rne_error (x : Q) :
  x - (1 # 2) <= inject_Z (rne x) /\ inject_Z (rne x) <= x + (1 # 2).
Proof.
  pose proof (floor_bounds x) as [H1 H2].
  destruct (rne_cases x) as [[-> Hx] | [[-> Hx] | [Hx ->]]];
    [| | destruct (Z.even (Qfloor x))]; rewrite ?inject_Z_plus;
    change (inject_Z 1) with 1; split; lra.
Qed.

Lemma rne_near (x : Q) (z : Z) :
  inject_Z z - (1 # 2) < x -> x < inject_Z z + (1 # 2) -> rne x = z.
Proof.
  intros H1 H2.
  assert (rne (inject_Z z - (1 # 2)) <= rne x)%Z as L by (apply rne_mono; lra).
  assert (rne x <= rne (inject_Z z + (1 # 2)))%Z as U by (apply rne_mono; lra).
  pose proof (rne_error x) as [E1 E2].
  destruct (Z.lt_trichotomy (rne x) z) as [Hlt | [Heq | Hgt]]; [| exact Heq |].
  - assert (inject_Z (rne x) <= inject_Z (z - 1)) as Hq by (rewrite <- Zle_Qle; lia).
    unfold Z.sub in Hq. rewrite inject_Z_plus in Hq. change (inject_Z (- (1))) with (- (1)) in Hq.
    lra.
  - assert (inject_Z (z + 1) <= inject_Z (rne x)) as Hq by (rewrite <- Zle_Qle; lia).
    rewrite inject_Z_plus in Hq. change (inject_Z 1) with 1 in Hq. lra.
Qed.

(** The relative error of rounding is at most 2^-53. *)
Lemma rnd_pos_error (x : Q) :
  0 < x ->
  x - x * pow2 (- prec) <= rnd_pos x /\ rnd_pos x <= x + x * pow2 (- prec).
Proof.
  intros Hx. rewrite rnd_pos_eq.
  set (e := (ilog2 x - (prec - 1))%Z).
  destruct (ilog2_spec x Hx) as [L _].
  pose proof (pow2_pos e) as Pe.
  pose proof (rne_error (x / pow2 e)) as [E1 E2].
  assert (x == (x / pow2 e) * pow2 e) as Ex by (field; lra).
  assert (pow2 e == 2 * (pow2 (ilog2 x) * pow2 (- prec))) as Ee.
  { rewrite <- pow2_add, <- pow2_succ. unfold e.
    replace (ilog2 x + - prec + 1)%Z with (ilog2 x - (prec - 1))%Z by lia. reflexivity. }
  pose proof (pow2_pos (- prec)) as Pp.
  set (s := x / pow2 e) in *. set (m := inject_Z (rne s)) in *.
  assert (pow2 e * (1 # 2) <= x * pow2 (- prec)) as Hh by nra.
  split; nra.
Qed.

(** Scaling the float nearest to [q / 100] back by 100 recovers [q]. *)
Lemma round2_recovers (q : Z) :
  (0 <= q <= 10000)%Z -> rne (rnd (inject_Z q / 100) * 100) = q.
Proof.
  intros Hq. destruct (Z.eq_dec q 0%Z) as [-> | Hne]; [reflexivity |].
  assert (0 < inject_Z q) as Q0
    by (change 0 with (inject_Z 0); rewrite <- Zlt_Qlt; lia).
  assert (inject_Z q <= 10000) as Q1
    by (change 10000 with (inject_Z 10000); rewrite <- Zle_Qle; lia).
  assert (0 < inject_Z q / 100) as P0 by (apply Qlt_shift_div_l; [reflexivity | lra]).
  rewrite rnd_gt by exact P0.
  destruct (rnd_pos_error _ P0) as [E1 E2].
  assert (inject_Z q / 100 * 100 == inject_Z q) as Eq by field.
  change (pow2 (- prec)) with (1 # 9007199254740992) in E1, E2.
  set (y := inject_Z q / 100) in *.
  apply rne_near; lra.
Qed.

(** On percentages, [round(_, 2)] stays within range and is idempotent. *)
Lemma round2_percent (p : Q) :
  0 <= p -> p <= 100 ->
  0 <= round2 p /\ round2 p <= 100 /\ round2 (round2 p) = round2 p.
Proof.
  intros H0 H1.
  assert (0 <= rne (p * 100) <= 10000)%Z as Hq.
  { split.
    - rewrite <- (rne_Z 0). apply rne_mono. change (inject_Z 0) with 0. lra.
    - rewrite <- (rne_Z 10000). apply rne_mono. change (inject_Z 10000) with 10000. lra. }
  assert (round2 p = rnd (inject_Z (rne (p * 100)) / 100)) as -> by reflexivity.
  set (q := rne (p * 100)) in *.
  assert (0 <= inject_Z q) as Q0 by (rewrite (Zle_Qle 0 q) in Hq; tauto).
  assert (inject_Z q <= 10000) as Q1
    by (change 10000 with (inject_Z 10000); rewrite <- Zle_Qle; lia).
  assert (0 <= inject_Z q / 100) as P0 by (apply Qle_shift_div_l; [reflexivity | lra]).
  assert (inject_Z q / 100 <= 100) as P1 by (apply Qle_shift_div_r; [reflexivity | lra]).
  split; [apply rnd_nonneg; exact P0 |].
  split.
  - change 100 with (rnd 100) at 2. apply rnd_mono; assumption.
  - unfold round2. rewrite (round2_recovers q Hq). reflexivity.
Qed.

End FloatFacts.

(** ** Agreement with the IEEE 754 specification *)

Lemma literals_match_binary64 : Binary64.literals_agree = true.
Proof. vm_cast_no_check (eq_refl true). Qed.

Lemma jaccard_terms_match_binary64 : Binary64.jaccard_terms_agree 24 = true.
Proof. vm_cast_no_check (eq_refl true). Qed.

Lemma scores_match_binary64 : Binary64.scores_agree 2 = true.
Proof. vm_cast_no_check (eq_refl true). Qed.

(** ** Scoring *)

Module ScoreFacts.

Import Float FloatFacts.
Local Open Scope Q_scope.

Lemma truthy_set_false `{Countable K} (s : gset K) : truthy_set s = false <-> s = ∅.
Proof.
  unfold truthy_set. rewrite negb_false_iff, bool_decide_eq_true. reflexivity.
Qed.

Lemma truthy_set_true `{Countable K} (s : gset K) : truthy_set s = true <-> s ≠ ∅.
Proof.
  unfold truthy_set. rewrite negb_true_iff, bool_decide_eq_false. reflexivity.
Qed.

Lemma truthy_set_size `{Countable K} (s : gset K) : truthy_set s = Nat.ltb 0 (size s).
Proof.
  destruct (truthy_set s) eqn:E; symmetry.
  - apply truthy_set_true in E. apply Nat.ltb_lt.
    destruct (size s) eqn:Hz; [| lia]. apply size_empty_inv in Hz.
    exfalso. apply E. apply leibniz_equiv. exact Hz.
  - apply truthy_set_false in E. subst s. reflexivity.
Qed.

Lemma jaccard_unit (s1 s2 : gset Z) : 0 <= jaccard s1 s2 /\ jaccard s1 s2 <= 1.
Proof.
  unfold jaccard. destruct (truthy_set (s1 ∪ s2)) eqn:E; [| split; apply Qle_bool_iff; reflexivity].
  rewrite truthy_set_size in E. apply Nat.ltb_lt in E.
  apply int_truediv_unit; [| lia].
  split; [lia |]. apply Nat2Z.inj_le, subseteq_size.
  intros x. rewrite elem_of_intersection, elem_of_union. tauto.
Qed.

Lemma jaccard_sym (s1 s2 : gset Z) : jaccard s1 s2 = jaccard s2 s1.
Proof.
  unfold jaccard.
  rewrite (comm_L (∪) s1 s2), (comm_L (∩) s1 s2). reflexivity.
Qed.

Lemma sports_branch_sym (s1 s2 : gset Z) : sports_branch s1 s2 = sports_branch s2 s1.
Proof.
  unfold sports_branch. rewrite (comm_L (∩) s1 s2).
  destruct (truthy_set s1), (truthy_set s2), (Nat.ltb 0 (size s1)), (Nat.ltb 0 (size s2));
    reflexivity.
Qed.

(** The third branch is shadowed by the first. *)
Lemma sports_branch_cases (s1 s2 : gset Z) :
  (s1 ≠ ∅ /\ s2 ≠ ∅ /\ sports_branch s1 s2 = SportsJaccard) \/
  (s1 = ∅ /\ s2 = ∅ /\ sports_branch s1 s2 = SportsNeutral) \/
  ((s1 = ∅ /\ s2 ≠ ∅ \/ s1 ≠ ∅ /\ s2 = ∅) /\ sports_branch s1 s2 = SportsNoCredit).
Proof.
  unfold sports_branch. rewrite <- !truthy_set_size.
  destruct (truthy_set s1) eqn:E1, (truthy_set s2) eqn:E2; cbn.
  - apply truthy_set_true in E1, E2. left. auto.
  - apply truthy_set_true in E1. apply truthy_set_false in E2. right. right. auto.
  - apply truthy_set_false in E1. apply truthy_set_true in E2. right. right. auto.
  - apply truthy_set_false in E1, E2. right. left. auto.
Qed.

Lemma add_sports_sym (score : Q) (s1 s2 : gset Z) : add_sports score s1 s2 = add_sports score s2 s1.
Proof. unfold add_sports. rewrite (sports_branch_sym s1 s2), (jaccard_sym s1 s2). reflexivity. Qed.

Lemma add_goals_sym (score : Q) (s1 s2 : gset Z) : add_goals score s1 s2 = add_goals score s2 s1.
Proof.
  unfold add_goals. rewrite (jaccard_sym s1 s2).
  destruct (truthy_set s1), (truthy_set s2); reflexivity.
Qed.

Lemma common_words_sym (loc1 loc2 : PyStr.str) :
  common_words loc1 loc2 = common_words loc2 loc1.
Proof. unfold common_words. f_equal. apply (comm_L (∩)). Qed.

Lemma str_eqb_sym (a b : PyStr.str) : PyStr.eqb a b = PyStr.eqb b a.
Proof. unfold PyStr.eqb. apply bool_decide_ext. split; congruence. Qed.


Lemma add_location_sym (score : Q) (loc1 loc2 : PyStr.str) :
  add_location score loc1 loc2 = add_location score loc2 loc1.
Proof.
  unfold add_location.
  rewrite (str_eqb_sym loc1 loc2), (str_eqb_sym (squeeze loc1) (squeeze loc2)).
  rewrite (orb_comm (PyStr.contains loc1 loc2)), (common_words_sym loc1 loc2).
  destruct (PyStr.nonempty loc1), (PyStr.nonempty loc2); reflexivity.
Qed.

Lemma add_age_sym (score : Q) (age1 age2 : option Z) :
  add_age score age1 age2 = add_age score age2 age1.
Proof.
  unfold add_age. destruct (truthy_int age1) as [a1 |], (truthy_int age2) as [a2 |];
    try reflexivity.
  replace (Z.abs (a2 - a1)) with (Z.abs (a1 - a2)) by lia. reflexivity.
Qed.

Lemma activity_increment_sym (e1 e2 : Z) : activity_increment e1 e2 = activity_increment e2 e1.
Proof.
  unfold activity_increment.
  replace (Z.abs (e2 - e1)) with (Z.abs (e1 - e2)) by lia.
  rewrite (andb_comm (5 <=? e1)%Z), (andb_comm (3 <=? e1)%Z), (andb_comm (e1 <=? 2)%Z).
  reflexivity.
Qed.

Lemma add_activity_sym (score : Q) (user1 user2 : UserProfile)
    (supabase : option Client) (event_counts : option (gmap Z Z)) :
  add_activity score user1 user2 supabase event_counts =
  add_activity score user2 user1 supabase event_counts.
Proof.
  unfold add_activity. destruct event_counts as [counts |].
  - rewrite activity_increment_sym. reflexivity.
  - destruct supabase as [client |]; [| reflexivity].
    unfold approved_rsvp_count. destruct (fails client QRsvpCount); [reflexivity |].
    rewrite activity_increment_sym. reflexivity.
Qed.

Ltac qconst := apply Qle_bool_iff; vm_compute; reflexivity.

Ltac below s' c' :=
  apply (fadd_below _ _ s' c'); [assumption | qconst | assumption | qconst | qconst].

Lemma add_sports_bounds (s1 s2 : gset Z) :
  0 <= add_sports 0 s1 s2 /\ add_sports 0 s1 s2 <= bound1.
Proof.
  unfold add_sports. destruct (jaccard_unit s1 s2) as [J0 J1].
  assert (0 <= fmul (jaccard s1 s2) c0_35) as F0 by (apply fmul_nonneg; [exact J0 | qconst]).
  assert (fmul (jaccard s1 s2) c0_35 <= c0_35) as F1.
  { change c0_35 with (fmul 1 c0_35) at 2. apply fmul_mono; try assumption; qconst. }
  assert (0 <= 0) as Z0 by apply Qle_refl.
  destruct (sports_branch s1 s2).
  - split; [apply fadd_nonneg; assumption |].
    apply (fadd_below _ _ 0 c0_35); try assumption; qconst.
  - split; [apply fadd_nonneg; [assumption | qconst] |]. below 0 c0_175.
  - split; [apply fadd_nonneg; [assumption | qconst] |]. below 0 c0_15.
  - split; qconst.
  - split; qconst.
Qed.

Lemma add_goals_bounds (score : Q) (s1 s2 : gset Z) :
  0 <= score -> score <= bound1 ->
  0 <= add_goals score s1 s2 /\ add_goals score s1 s2 <= bound2.
Proof.
  intros H0 H1. unfold add_goals. destruct (jaccard_unit s1 s2) as [J0 J1].
  assert (0 <= fmul (jaccard s1 s2) c0_25) as F0 by (apply fmul_nonneg; [exact J0 | qconst]).
  assert (fmul (jaccard s1 s2) c0_25 <= c0_25) as F1.
  { change c0_25 with (fmul 1 c0_25) at 2. apply fmul_mono; try assumption; qconst. }
  destruct (truthy_set s1 && truthy_set s2);
    [| destruct (negb (truthy_set s1) && negb (truthy_set s2))].
  - split; [apply fadd_nonneg; assumption |].
    apply (fadd_below _ _ bound1 c0_25); try assumption; qconst.
  - split; [apply fadd_nonneg; [assumption | qconst] |]. below bound1 c0_125.
  - split; [assumption |]. eapply Qle_trans; [exact H1 | qconst].
Qed.

Lemma add_location_bounds (score : Q) (loc1 loc2 : PyStr.str) :
  0 <= score -> score <= bound2 ->
  0 <= add_location score loc1 loc2 /\ add_location score loc1 loc2 <= bound3.
Proof.
  intros H0 H1. unfold add_location.
  repeat match goal with
  | |- context [if ?b then _ else _] => destruct b
  end;
  (split; [first [assumption | apply fadd_nonneg; [assumption | qconst]] |]);
  first [ eapply Qle_trans; [exact H1 | qconst]
        | below bound2 c0_20 | below bound2 c0_18 | below bound2 c0_12
        | below bound2 c0_08 | below bound2 c0_05 ].
Qed.

Lemma add_age_bounds (score : Q) (age1 age2 : option Z) :
  0 <= score -> score <= bound3 ->
  0 <= add_age score age1 age2 /\ add_age score age1 age2 <= bound4.
Proof.
  intros H0 H1. unfold add_age.
  destruct (truthy_int age1), (truthy_int age2); cbv zeta;
  repeat match goal with
  | |- context [if ?b then _ else _] => destruct b
  end;
  (split; [first [assumption | apply fadd_nonneg; [assumption | qconst]] |]);
  first [ eapply Qle_trans; [exact H1 | qconst]
        | below bound3 c0_10 | below bound3 c0_075 | below bound3 c0_05
        | below bound3 c0_025 ].
Qed.

Lemma activity_increment_bounds (e1 e2 : Z) :
  0 <= activity_increment e1 e2 /\ activity_increment e1 e2 <= c0_10.
Proof.
  unfold activity_increment.
  repeat match goal with
  | |- context [if ?b then _ else _] => destruct b
  end; split; qconst.
Qed.

Lemma add_activity_bounds (score : Q) (user1 user2 : UserProfile)
    (supabase : option Client) (event_counts : option (gmap Z Z)) :
  0 <= score -> score <= bound4 ->
  0 <= add_activity score user1 user2 supabase event_counts /\
  add_activity score user1 user2 supabase event_counts <= bound5.
Proof.
  intros H0 H1. unfold add_activity.
  assert (forall e1 e2, 0 <= fadd score (activity_increment e1 e2) /\
                        fadd score (activity_increment e1 e2) <= bound5) as Hinc.
  { intros e1 e2. destruct (activity_increment_bounds e1 e2) as [A0 A1].
    split; [apply fadd_nonneg; assumption |].
    apply (fadd_below _ _ bound4 c0_10); try assumption. qconst. }
  assert (0 <= fadd score c0_05 /\ fadd score c0_05 <= bound5) as Hneutral.
  { split; [apply fadd_nonneg; [assumption | qconst] |]. below bound4 c0_05. }
  destruct event_counts as [counts |]; [apply Hinc |].
  destruct supabase as [client |].
  - destruct (approved_rsvp_count client (u_id user1)); [| exact Hneutral].
    destruct (approved_rsvp_count client (u_id user2)); [apply Hinc | exact Hneutral].
  - split; [assumption |]. eapply Qle_trans; [exact H1 | qconst].
Qed.

Lemma raw_score_bounds (user1 user2 : UserProfile)
    (supabase : option Client) (event_counts : option (gmap Z Z)) :
  0 <= raw_score user1 user2 supabase event_counts /\
  raw_score user1 user2 supabase event_counts <= 1.
Proof.
  unfold raw_score, profile_score.
  destruct (add_sports_bounds (ids_of (u_sports user1)) (ids_of (u_sports user2))) as [A0 A1].
  destruct (add_goals_bounds _ (ids_of (u_goals user1)) (ids_of (u_goals user2)) A0 A1)
    as [B0 B1].
  destruct (add_location_bounds _ (location_of user1) (location_of user2) B0 B1) as [C0 C1].
  destruct (add_age_bounds _ (u_age user1) (u_age user2) C0 C1) as [D0 D1].
  exact (add_activity_bounds _ user1 user2 supabase event_counts D0 D1).
Qed.

End ScoreFacts.

(** ** Ranking *)

Module RankFacts.

Lemma insert_by_score_perm (x : ScoredCandidate) (l : list ScoredCandidate) :
  insert_by_score x l ≡ₚ x :: l.
Proof.
  induction l as [| y l IH]; cbn; [reflexivity |].
  destruct (Qle_bool (sc_score y) (sc_score x)); [reflexivity |].
  rewrite IH. apply Permutation_swap.
Qed.

Lemma sort_by_score_perm (l : list ScoredCandidate) : sort_by_score l ≡ₚ l.
Proof.
  induction l as [| x l IH]; cbn; [reflexivity |].
  rewrite insert_by_score_perm. rewrite IH. reflexivity.
Qed.

Lemma insert_by_score_sorted (x : ScoredCandidate) (l : list ScoredCandidate) :
  StronglySorted by_score_desc l -> StronglySorted by_score_desc (insert_by_score x l).
Proof.
  induction l as [| y l IH]; intros Hs; cbn.
  - repeat constructor.
  - inversion Hs as [| ? ? Hl Hy]; subst.
    destruct (Qle_bool (sc_score y) (sc_score x)) eqn:E.
    + apply Qle_bool_iff in E. constructor; [exact Hs |].
      constructor; [exact E |].
      eapply Forall_impl; [exact Hy |]. intros z Hz. unfold by_score_desc in *.
      eapply Qle_trans; eassumption.
    + assert (sc_score x <= sc_score y)%Q as Hxy.
      { apply Qnot_lt_le. intros Hn. apply Qlt_le_weak in Hn.
        apply Qle_bool_iff in Hn. congruence. }
      constructor; [apply IH; exact Hl |].
      rewrite (insert_by_score_perm x l). constructor; assumption.
Qed.

Lemma sort_by_score_sorted (l : list ScoredCandidate) :
  StronglySorted by_score_desc (sort_by_score l).
Proof.
  induction l as [| x l IH]; cbn; [constructor |].
  apply insert_by_score_sorted, IH.
Qed.

Lemma take_sorted (n : nat) (l : list ScoredCandidate) :
  StronglySorted by_score_desc l -> StronglySorted by_score_desc (take n l).
Proof.
  intros Hs. rewrite <- (take_drop n l) in Hs.
  apply StronglySorted_app_1_l in Hs. exact Hs.
Qed.

Lemma take_elem {A} (n : nat) (l : list A) (x : A) : x ∈ take n l -> x ∈ l.
Proof. intros H. rewrite <- (take_drop n l). apply elem_of_app. left. exact H. Qed.

Lemma slice_to_take {A} (l : list A) (k : Z) : exists n, slice_to l k = take n l.
Proof. unfold slice_to. destruct (k <? 0)%Z; eauto. Qed.

Lemma slice_to_pos {A} (l : list A) (k : Z) : (0 <= k)%Z -> slice_to l k = take (Z.to_nat k) l.
Proof. intros Hk. unfold slice_to. destruct (Z.ltb_spec k 0); [lia | reflexivity]. Qed.

(** Every candidate the ranker keeps was selected by the candidate query
    and passed the relationship filter. *)
Lemma potential_users_spec (supabase : Client) (user_id : Z) (limit : option Z) (u : UserProfile) :
  u ∈ potential_users_of supabase user_id limit ->
  u ∈ matching_users supabase user_id /\
  not_in_set (existing_buddy_user_ids supabase user_id) (u_id u) = true.
Proof.
  unfold potential_users_of, discoverable_users, matching_users.
  destruct (fails supabase QUsers); [intros H; inversion H |].
  set (rows := take _ _).
  assert (forall v, v ∈ rows -> v ∈ filter
     (fun u => u_is_active u && u_is_discoverable u && id_differs user_id u) (users supabase))
    as Hrows.
  { intros v Hv. unfold rows in Hv. eapply take_elem. exact Hv. }
  destruct (truthy_set (existing_buddy_user_ids supabase user_id)) eqn:E.
  - intros Hu. apply list_elem_of_filter in Hu as [Hn Hu].
    split; [apply Hrows, Hu |]. apply Is_true_true. exact Hn.
  - intros Hu. split; [apply Hrows, Hu |].
    apply ScoreFacts.truthy_set_false in E. rewrite E.
    unfold not_in_set. destruct (u_id u); [| reflexivity].
    rewrite bool_decide_eq_false_2; [reflexivity | set_solver].
Qed.

Lemma matching_users_id (supabase : Client) (user_id : Z) (u : UserProfile) :
  u ∈ matching_users supabase user_id ->
  exists i, u_id u = Some i /\ i <> user_id.
Proof.
  unfold matching_users. intros Hu. apply list_elem_of_filter in Hu as [Hp _].
  apply Is_true_true in Hp. rewrite !andb_true_iff in Hp. destruct Hp as [_ Hd].
  unfold id_differs in Hd. destruct (u_id u) as [i |]; [| discriminate].
  exists i. split; [reflexivity |]. apply negb_true_iff, Z.eqb_neq in Hd. exact Hd.
Qed.




End RankFacts.

Module PoolFacts.

Lemma pool_has_ids (supabase : Client) (user_id : Z) (limit : option Z) :
  omap u_id (potential_users_of supabase user_id limit) = [] ->
  potential_users_of supabase user_id limit = [].
Proof.
  intros Hnil. destruct (potential_users_of supabase user_id limit) as [| u l] eqn:E;
    [reflexivity |].
  assert (u ∈ potential_users_of supabase user_id limit) as Hu
    by (rewrite E; apply list_elem_of_here).
  apply RankFacts.potential_users_spec in Hu as [Hm _].
  apply RankFacts.matching_users_id in Hm as (i & Hi & _).
  cbn in Hnil. rewrite Hi in Hnil. discriminate.
Qed.

Lemma slice_to_nil {A} (k : Z) : slice_to (@nil A) k = [].
Proof. unfold slice_to. destruct (k <? 0)%Z; apply take_nil. Qed.

(** The result is a slice of the sorted scoring of the kept candidates. *)
Lemma find_potential_buddies_unfold (user : UserProfile) (supabase : Client)
    (limit : option Z) (min_score : Q) (user_id : Z) :
  truthy_int (u_id user) = Some user_id ->
  let pool := potential_users_of supabase user_id limit in
  let ranked :=
    sort_by_score
      (score_candidates user supabase
         (count_events (approved_rsvps supabase (omap u_id pool)))
         (enrich supabase pool)) in
  find_potential_buddies user supabase limit min_score =
  match truthy_int limit with
  | Some l => slice_to ranked l
  | None => ranked
  end.
Proof.
  intros Hid. cbv zeta. unfold find_potential_buddies. rewrite Hid.
  destruct (omap u_id (potential_users_of supabase user_id limit)) as [| i ids] eqn:E;
    [| reflexivity].
  apply pool_has_ids in E. rewrite E. cbn.
  destruct (truthy_int limit); [rewrite slice_to_nil |]; reflexivity.
Qed.

Lemma same_pool_when_rows_fit (supabase : Client) (user_id k : Z) :
  (1 <= k)%Z ->
  (Z.of_nat (length (matching_users supabase user_id)) <= Z.min (k + 20) 300)%Z ->
  potential_users_of supabase user_id (Some k) = potential_users_of supabase user_id None.
Proof.
  intros Hk Hfit. unfold potential_users_of, discoverable_users.
  destruct (fails supabase QUsers); [reflexivity |].
  fold (matching_users supabase user_id).
  assert (fetch_limit_of (Some k) = (k + 20)%Z) as ->.
  { unfold fetch_limit_of, truthy_int. destruct (Z.eqb_spec k 0); [lia | reflexivity]. }
  change (fetch_limit_of None) with 300%Z.
  rewrite !take_ge by lia. reflexivity.
Qed.





End PoolFacts.

(** * The claims *)

(** C1: for every pair of profiles, whatever data is present or absent,
    [calculate_buddy_score] lies between 0.00 and 100.00 and is left
    unchanged by rounding to two decimals. *)
Theorem score_in_range_two_decimals (user1 user2 : UserProfile)
    (supabase : option Client) (event_counts : option (gmap Z Z)) :
  let score := calculate_buddy_score user1 user2 supabase event_counts in
  (0 <= score)%Q /\ (score <= 100)%Q /\ Float.round2 score = score.
Proof.
  cbv zeta. unfold calculate_buddy_score.
  destruct (ScoreFacts.raw_score_bounds user1 user2 supabase event_counts) as [R0 R1].
  apply FloatFacts.round2_percent.
  - apply FloatFacts.fmul_nonneg; [exact R0 | apply Qle_bool_iff; reflexivity].
  - change 100%Q with (Float.fmul 1 100) at 2.
    apply FloatFacts.fmul_mono; try assumption; apply Qle_bool_iff; reflexivity.
Qed.

(** C2: the score is symmetric in its two profile arguments. *)
Theorem score_symmetric (A B : UserProfile)
    (supabase : option Client) (event_counts : option (gmap Z Z)) :
  calculate_buddy_score A B supabase event_counts =
  calculate_buddy_score B A supabase event_counts.
Proof.
  unfold calculate_buddy_score, raw_score, profile_score.
  rewrite (ScoreFacts.add_sports_sym _ (ids_of (u_sports A))).
  rewrite (ScoreFacts.add_goals_sym _ (ids_of (u_goals A))).
  rewrite (ScoreFacts.add_location_sym _ (location_of A)).
  rewrite (ScoreFacts.add_age_sym _ (u_age A)).
  rewrite (ScoreFacts.add_activity_sym _ A).
  reflexivity.
Qed.




(** C4, as the code has it: the ranking is sorted by non-increasing score
    for every subject, store and limit; for [k >= 1], when the candidate
    query selects at most [min (k + 20) 300] rows, [limit = k] returns the
    first [min k n] of the [n] entries returned without a limit. *)
Theorem ranking_sorted_and_limit_prefix (user : UserProfile) (supabase : Client)
    (min_score : Q) :
  (forall limit, Sorted by_score_desc (find_potential_buddies user supabase limit min_score)) /\
  (forall k : Z,
     (1 <= k)%Z ->
     (Z.of_nat (length (candidate_rows supabase user)) <= Z.min (k + 20) 300)%Z ->
     let unlimited := find_potential_buddies user supabase None min_score in
     let limited := find_potential_buddies user supabase (Some k) min_score in
     length limited = Nat.min (Z.to_nat k) (length unlimited) /\
     limited `prefix_of` unlimited).
Proof.
  split.
  - intros limit. apply StronglySorted_Sorted.
    destruct (truthy_int (u_id user)) as [user_id |] eqn:Hid.
    + rewrite (PoolFacts.find_potential_buddies_unfold user supabase limit min_score user_id Hid).
      cbv zeta. set (ranked := sort_by_score _).
      assert (StronglySorted by_score_desc ranked) as Hs by apply RankFacts.sort_by_score_sorted.
      destruct (truthy_int limit) as [l |]; [| exact Hs].
      destruct (RankFacts.slice_to_take ranked l) as [n ->].
      apply RankFacts.take_sorted, Hs.
    + unfold find_potential_buddies. rewrite Hid. constructor.
  - intros k Hk Hfit unlimited limited. subst unlimited limited.
    destruct (truthy_int (u_id user)) as [user_id |] eqn:Hid.
    + unfold candidate_rows in Hfit. rewrite Hid in Hfit.
      rewrite !(PoolFacts.find_potential_buddies_unfold user supabase _ min_score user_id Hid).
      cbv zeta. rewrite (PoolFacts.same_pool_when_rows_fit supabase user_id k Hk Hfit).
      set (ranked := sort_by_score _).
      assert (truthy_int (Some k) = Some k) as ->.
      { unfold truthy_int. destruct (Z.eqb_spec k 0); [lia | reflexivity]. }
      change (truthy_int None) with (@None Z). cbv iota.
      rewrite RankFacts.slice_to_pos by lia.
      split; [apply length_take | apply prefix_take].
    + unfold find_potential_buddies. rewrite Hid. split; [cbn; lia | apply prefix_nil].
Qed.

Lemma ranking_sorted_and_limit_prefix_witness :
  (1 <= 1)%Z /\
  (Z.of_nat (length (candidate_rows (Sample.club Sample.no_failure) Sample.alice))
     <= Z.min (1 + 20) 300)%Z /\
  (forall limit,
     Sorted by_score_desc
       (find_potential_buddies Sample.alice (Sample.club Sample.no_failure) limit 0)) /\
  length (find_potential_buddies Sample.alice (Sample.club Sample.no_failure) (Some 1%Z) 0) =
    Nat.min (Z.to_nat 1)
      (length (find_potential_buddies Sample.alice (Sample.club Sample.no_failure) None 0)) /\
  find_potential_buddies Sample.alice (Sample.club Sample.no_failure) (Some 1%Z) 0
    `prefix_of` find_potential_buddies Sample.alice (Sample.club Sample.no_failure) None 0.
Proof.
  split; [lia |]. split; [vm_compute; discriminate |]. split.
  - apply (ranking_sorted_and_limit_prefix Sample.alice (Sample.club Sample.no_failure) 0).
  - apply (ranking_sorted_and_limit_prefix Sample.alice (Sample.club Sample.no_failure) 0);
      [lia | vm_compute; discriminate].
Defined.

(** C4 fails as stated.  With 22 candidate rows, [limit = 1] fetches only
    the first 21 and returns the best of those, while the ranking without
    a limit starts with the 22nd; and [limit = 0] is treated as no limit. *)
Lemma limited_ranking_not_a_prefix :
  ~ (find_potential_buddies Sample.alice Sample.crowd (Some 1%Z) 0
       `prefix_of` find_potential_buddies Sample.alice Sample.crowd None 0) /\
  length (find_potential_buddies Sample.alice (Sample.club Sample.no_failure) (Some 0%Z) 0)
    <> Nat.min (Z.to_nat 0)
         (length (find_potential_buddies Sample.alice (Sample.club Sample.no_failure) None 0)).
Proof.
  split.
  - intros [rest Hrest].
    apply (f_equal (fun l => head ((fun e => u_id (sc_user e)) <$> l))) in Hrest.
    rewrite fmap_app in Hrest. vm_compute in Hrest. discriminate.
  - vm_compute. discriminate.
Qed.

(** C5, as the code has it: with no sports and no goals on either side
    (both sets empty), no location, no age, no event counts and no client,
    the score is exactly 35.0. *)
Theorem neutral_defaults_score_35 (user1 user2 : UserProfile) :
  ids_of (u_sports user1) = ∅ -> ids_of (u_sports user2) = ∅ ->
  ids_of (u_goals user1) = ∅ -> ids_of (u_goals user2) = ∅ ->
  u_location user1 = None -> u_location user2 = None ->
  u_age user1 = None -> u_age user2 = None ->
  calculate_buddy_score user1 user2 None None = 35%Q.
Proof.
  intros S1 S2 G1 G2 L1 L2 A1 A2.
  unfold calculate_buddy_score, raw_score, profile_score, location_of.
  rewrite S1, S2, G1, G2, L1, L2, A1, A2. vm_compute. reflexivity.
Qed.

Lemma neutral_defaults_score_35_witness :
  ids_of (u_sports Sample.blank1) = ∅ /\ ids_of (u_sports Sample.blank2) = ∅ /\
  ids_of (u_goals Sample.blank1) = ∅ /\ ids_of (u_goals Sample.blank2) = ∅ /\
  u_location Sample.blank1 = None /\ u_location Sample.blank2 = None /\
  u_age Sample.blank1 = None /\ u_age Sample.blank2 = None /\
  calculate_buddy_score Sample.blank1 Sample.blank2 None None = 35%Q.
Proof.
  repeat (split; [reflexivity |]).
  apply (neutral_defaults_score_35 Sample.blank1 Sample.blank2); reflexivity.
Defined.

(** C5 fails as stated: with non-empty disjoint sport sets and non-empty
    disjoint goal sets both Jaccard terms are zero and only the location
    default remains, so the score is 5.0. *)
Lemma disjoint_nonempty_scores_5 :
  ids_of (u_sports Sample.runner) ∩ ids_of (u_sports Sample.yogi) = ∅ /\
  ids_of (u_goals Sample.runner) ∩ ids_of (u_goals Sample.yogi) = ∅ /\
  u_location Sample.runner = None /\ u_location Sample.yogi = None /\
  u_age Sample.runner = None /\ u_age Sample.yogi = None /\
  calculate_buddy_score Sample.runner Sample.yogi None None = 5%Q /\
  ~ (calculate_buddy_score Sample.runner Sample.yogi None None == 35)%Q.
Proof.
  repeat split; try reflexivity. vm_compute. discriminate.
Qed.

(** C6: [min_score] has no influence on the result. *)
Theorem min_score_is_ignored (user : UserProfile) (supabase : Client)
    (limit : option Z) (min_score1 min_score2 : Q) :
  find_potential_buddies user supabase limit min_score1 =
  find_potential_buddies user supabase limit min_score2.
Proof. reflexivity. Qed.

(** C7: when the read of the candidate pool raises, the ranker returns
    the empty list. *)
Theorem candidate_read_failure_yields_empty (user : UserProfile) (supabase : Client)
    (limit : option Z) (min_score : Q) :
  fails supabase QUsers = true ->
  find_potential_buddies user supabase limit min_score = [].
Proof.
  intros F. unfold find_potential_buddies, potential_users_of, discoverable_users.
  rewrite F. destruct (truthy_int (u_id user)); reflexivity.
Qed.

Lemma candidate_read_failure_yields_empty_witness :
  fails (Sample.club Sample.candidate_read_fails) QUsers = true /\
  find_potential_buddies Sample.alice (Sample.club Sample.candidate_read_fails) None 0 = [].
Proof.
  split; [reflexivity |].
  apply (candidate_read_failure_yields_empty Sample.alice
           (Sample.club Sample.candidate_read_fails) None 0).
  reflexivity.
Defined.



(** C9, as the code has it: the ranker returns the empty list for a
    subject without a usable id, and the request handler [create_buddy]
    answers 400 both for such a subject and for a request naming the
    subject itself; the scorer is not involved in either refusal. *)
Theorem invalid_input_refused (user : UserProfile) (supabase : Client)
    (limit : option Z) (min_score : Q) (user2_id : Z) (now : string) (response : Response) :
  match truthy_int (u_id user) with
  | None =>
      find_potential_buddies user supabase limit min_score = [] /\
      create_buddy response user2_id user (Some supabase) now =
      inl (HTTPError 400 "User ID not found")
  | Some user_id =>
      create_buddy response user_id user (Some supabase) now =
      inl (HTTPError 400 "Cannot buddy with yourself")
  end.
Proof.
  unfold find_potential_buddies, create_buddy.
  destruct (truthy_int (u_id user)) as [user_id |]; [| split; reflexivity].
  rewrite Z.eqb_refl. reflexivity.
Qed.

(** C9 fails as stated: the scorer has no self-comparison check; scoring
    a profile against itself yields a score. *)
Lemma self_comparison_is_scored :
  u_id Sample.alice = u_id Sample.alice /\
  calculate_buddy_score Sample.alice Sample.alice None None = 90%Q.
Proof. split; reflexivity. Qed.

(** C10, as the code has it: the partial-credit branch of the sports
    factor is never taken.  The running score is increased by the Jaccard
    term when both sport sets are non-empty and by 0.175 when both are
    empty, and is left unchanged when exactly one is empty. *)
Theorem partial_credit_branch_unreachable (user1 user2 : UserProfile) (score : Q) :
  let s1 := ids_of (u_sports user1) in
  let s2 := ids_of (u_sports user2) in
  sports_branch s1 s2 <> SportsPartial /\
  sports_branch s1 s2 <> SportsPartialMiss /\
  ((s1 ≠ ∅ /\ s2 ≠ ∅ /\
    add_sports score s1 s2 =
    Float.fadd score
      (Float.fmul (Float.int_truediv (Z.of_nat (size (s1 ∩ s2))) (Z.of_nat (size (s1 ∪ s2))))
                  Float.c0_35)) \/
   (s1 = ∅ /\ s2 = ∅ /\ add_sports score s1 s2 = Float.fadd score Float.c0_175) \/
   ((s1 = ∅ /\ s2 ≠ ∅ \/ s1 ≠ ∅ /\ s2 = ∅) /\ add_sports score s1 s2 = score)).
Proof.
  intros s1 s2. unfold add_sports.
  destruct (ScoreFacts.sports_branch_cases s1 s2)
    as [(N1 & N2 & ->) | [(E1 & E2 & ->) | (Hone & ->)]].
  - split; [discriminate |]. split; [discriminate |]. left.
    split; [exact N1 |]. split; [exact N2 |].
    unfold jaccard.
    assert (truthy_set (s1 ∪ s2) = true) as ->; [| reflexivity].
    apply ScoreFacts.truthy_set_true. intros Hu. apply N1.
    apply leibniz_equiv. apply (empty_union_L s1 s2) in Hu as [-> _]. reflexivity.
  - split; [discriminate |]. split; [discriminate |]. right. left. auto.
  - split; [discriminate |]. split; [discriminate |]. right. right. auto.
Qed.

(** C10 fails as stated in its last clause: the contribution can be 0.15.
    With three of seven sports in common the Jaccard branch is taken and
    adds 3/7 * 0.35, which is the float 0.15; the pair scores 32.5, the
    15.0 from sports included. *)
Lemma jaccard_branch_adds_0_15 :
  let s1 := ids_of (u_sports Sample.pentathlete) in
  let s2 := ids_of (u_sports Sample.allrounder) in
  size (s1 ∩ s2) = 3 /\ size (s1 ∪ s2) = 7 /\
  sports_branch s1 s2 = SportsJaccard /\
  add_sports 0 s1 s2 = Float.c0_15 /\
  calculate_buddy_score Sample.pentathlete Sample.allrounder None None = (65 # 2)%Q.
Proof. cbv zeta. repeat split; vm_compute; reflexivity. Qed.

(** The Jaccard term itself can coincide with the constant of the dead
    branch: three common sports out of seven give 3/7 * 0.35 = 0.15. *)
Example jaccard_term_three_sevenths :
  Float.fmul (Float.int_truediv 3 7) Float.c0_35 = Float.c0_15.
Proof. reflexivity. Qed.

(** * Worked examples *)

Module Examples.

Import Sample.
Local Open Scope string_scope.

Example location_is_normalised :
  location_of (row 7 "Zed" None (Some "  Washington, DC ")) = PyStr.text "washington, dc".
Proof. reflexivity. Qed.

(** Letters outside ASCII are lowered, a final sigma becomes U+03C2, and
    the no-break space U+00A0 and the ideographic space U+3000 are
    stripped. *)
Example location_beyond_ascii :
  location_of (row 7 "Zed" None (Some " MONTRÉAL　")) = PyStr.text "montréal" /\
  location_of (row 7 "Zed" None (Some "ΟΔΟΣ")) = PyStr.text "οδος" /\
  location_of (set_location (Some [0xA0%N]) (row 7 "Zed" None None)) = [].
Proof. repeat split; vm_compute; reflexivity. Qed.

Example location_words :
  PyStr.split (PyStr.text "new  york city") =
  [PyStr.text "new"; PyStr.text "york"; PyStr.text "city"].
Proof. reflexivity. Qed.

(** Exact match, match up to commas and blanks, containment, a shared word
    of more than two letters, nothing in common, and a missing location. *)
Example location_tiers :
  add_location 0 (PyStr.text "boston") (PyStr.text "boston") = Float.c0_20 /\
  add_location 0 (PyStr.text "washington, dc") (PyStr.text "washington dc") = Float.c0_18 /\
  add_location 0 (PyStr.text "boston") (PyStr.text "south boston") = Float.c0_12 /\
  add_location 0 (PyStr.text "new york city") (PyStr.text "york county") = Float.c0_08 /\
  add_location 0 (PyStr.text "boston") (PyStr.text "salem") = 0%Q /\
  add_location 0 [] (PyStr.text "salem") = Float.c0_05.
Proof. repeat split; reflexivity. Qed.

(** A shared word counts by its number of characters, not of bytes: "éé"
    has two. *)
Example location_word_length :
  add_location 0 (PyStr.text "éé nord") (PyStr.text "sud éé") = 0%Q /\
  add_location 0 (PyStr.text "ééé nord") (PyStr.text "sud ééé") = Float.c0_08.
Proof. split; vm_compute; reflexivity. Qed.

(** No common sport (0), the same single goal (0.25), one location unset
    (0.05), ages a year apart (0.10), no approved events (0.05). *)
Example alice_and_dave :
  calculate_buddy_score alice
    (with_affiliations [yoga] [get_fit] dave) None (Some ∅) = 45%Q.
Proof. reflexivity. Qed.

(** Alice's ranking: Bob is her buddy already, Dave outranks Carol. *)
Example ranking_for_alice :
  (fun e => (u_id (sc_user e), sc_score e)) <$>
    find_potential_buddies alice (club no_failure) None 0 =
  [(Some 4%Z, 45%Q); (Some 3%Z, (85 # 2)%Q)].
Proof. reflexivity. Qed.

Example ranking_for_nobody :
  find_potential_buddies nobody (club no_failure) None 0 = [].
Proof. reflexivity. Qed.

Example carol_is_new_to_alice :
  create_buddy dated_rows 3 alice (Some (club no_failure)) "2024-06-01T12:00:00Z" =
  inr (mkBuddy 2 1 3 (15 # 2) "pending" "2024-06-01T12:00:00Z").
Proof. reflexivity. Qed.

(** When the response cannot be built from the inserted row, the answer is
    500. *)
Example carol_without_a_date :
  create_buddy dated_rows 3 alice (Some (club no_failure)) "now" =
  inl (HTTPError 500 (Caught "Failed to create buddy request")).
Proof. reflexivity. Qed.

Example bob_is_a_buddy_already :
  create_buddy every_row 2 alice (Some (club no_failure)) "2024-06-01T12:00:00Z" =
  inl (HTTPError 400 "Buddy already exists").
Proof. reflexivity. Qed.

End Examples.

(** * Further properties of the code *)

Module RankingAnatomy.

Lemma entry_anatomy (user : UserProfile) (supabase : Client) (limit : option Z)
    (min_score : Q) (e : ScoredCandidate) :
  e ∈ find_potential_buddies user supabase limit min_score ->
  exists user_id u,
    truthy_int (u_id user) = Some user_id /\
    u ∈ potential_users_of supabase user_id limit /\
    let ids := pass_ids supabase user_id limit in
    let counts := count_events (approved_rsvps supabase ids) in
    let c := enrich_one supabase ids u in
    sc_user e = set_event_count (count_of counts (u_id u)) c /\
    sc_score e = calculate_buddy_score user c (Some supabase) (Some counts).
Proof.
  intros He.
  destruct (truthy_int (u_id user)) as [user_id |] eqn:Hid.
  2: { unfold find_potential_buddies in He. rewrite Hid in He. inversion He. }
  rewrite (PoolFacts.find_potential_buddies_unfold user supabase limit min_score user_id Hid)
    in He.
  cbv zeta in He.
  assert (e ∈ sort_by_score
            (score_candidates user supabase
               (count_events (approved_rsvps supabase
                  (omap u_id (potential_users_of supabase user_id limit))))
               (enrich supabase (potential_users_of supabase user_id limit)))) as Hr.
  { destruct (truthy_int limit) as [l |]; [| exact He].
    destruct (RankFacts.slice_to_take
                (sort_by_score
                   (score_candidates user supabase
                      (count_events (approved_rsvps supabase
                         (omap u_id (potential_users_of supabase user_id limit))))
                      (enrich supabase (potential_users_of supabase user_id limit)))) l)
      as [n Hn].
    rewrite Hn in He. eapply RankFacts.take_elem. exact He. }
  rewrite RankFacts.sort_by_score_perm in Hr.
  unfold score_candidates in Hr. apply list_elem_of_fmap in Hr as (c & -> & Hc).
  unfold enrich in Hc. apply list_elem_of_fmap in Hc as (u & -> & Hu).
  exists user_id, u. split; [reflexivity |]. split; [exact Hu |].
  cbv zeta. split; reflexivity.
Qed.

End RankingAnatomy.

Module FoldFacts.

Lemma items_for_cons (uid : Z) (r : AffRow) (rows : list AffRow) :
  items_for uid (r :: rows) =
  match ar_user_id r, ar_item r with
  | Some i, Some x => if decide (i = uid) then x :: items_for uid rows else items_for uid rows
  | _, _ => items_for uid rows
  end.
Proof.
  unfold items_for. rewrite filter_cons.
  destruct (ar_user_id r) as [i |] eqn:Ei.
  - destruct (decide (i = uid)) as [-> | Hne].
    + rewrite decide_True by reflexivity. cbn. destruct (ar_item r); reflexivity.
    + rewrite decide_False by congruence. destruct (ar_item r); reflexivity.
  - rewrite decide_False by congruence. reflexivity.
Qed.

Lemma group_fold_lookup (uid : Z) (rows : list AffRow) (acc : gmap Z (list Affiliation)) :
  default [] (fold_left
     (fun acc item =>
        match ar_user_id item, ar_item item with
        | Some uid, Some x => <[uid := default [] (acc !! uid) ++ [x]]> acc
        | _, _ => acc
        end) rows acc !! uid) =
  default [] (acc !! uid) ++ items_for uid rows.
Proof.
  revert acc. induction rows as [| r rows IH]; intros acc; cbn [fold_left].
  - unfold items_for. cbn. rewrite app_nil_r. reflexivity.
  - rewrite IH, items_for_cons.
    destruct (ar_user_id r) as [i |]; [| reflexivity].
    destruct (ar_item r) as [x |]; [| reflexivity].
    destruct (decide (i = uid)) as [-> | Hne].
    + rewrite lookup_insert_eq. cbn. rewrite <- app_assoc. reflexivity.
    + rewrite lookup_insert_ne by exact Hne. reflexivity.
Qed.

Lemma group_by_user_lookup (uid : Z) (rows : list AffRow) :
  default [] (group_by_user rows !! uid) = items_for uid rows.
Proof. unfold group_by_user. rewrite group_fold_lookup, lookup_empty. reflexivity. Qed.

Lemma items_for_selected (uid : Z) (ids : list Z) (rows : list AffRow) :
  uid ∈ ids ->
  items_for uid (filter (fun r => user_in ids (ar_user_id r)) rows) = items_for uid rows.
Proof.
  intros Hin. unfold items_for. f_equal.
  induction rows as [| r rows IH]; [reflexivity |].
  rewrite !filter_cons.
  destruct (decide (ar_user_id r = Some uid)) as [E | N].
  - rewrite decide_True.
    + rewrite filter_cons, decide_True by exact E. rewrite IH. reflexivity.
    + rewrite E. cbn. apply Is_true_true, bool_decide_eq_true. exact Hin.
  - destruct (decide (user_in ids (ar_user_id r))); [| exact IH].
    rewrite filter_cons, decide_False by exact N. exact IH.
Qed.

Lemma count_fold_lookup (uid : Z) (rows : list RsvpRow) (acc : gmap Z Z) :
  default 0%Z (fold_left
     (fun acc row =>
        match rv_user_id row with
        | Some uid => <[uid := (default 0 (acc !! uid) + 1)%Z]> acc
        | None => acc
        end) rows acc !! uid) =
  (default 0 (acc !! uid) + Z.of_nat (length (rsvps_for uid rows)))%Z.
Proof.
  revert acc. induction rows as [| r rows IH]; intros acc; cbn [fold_left].
  - cbn. lia.
  - rewrite IH. unfold rsvps_for. rewrite filter_cons.
    destruct (rv_user_id r) as [i |] eqn:Ei.
    + destruct (decide (i = uid)) as [-> | Hne].
      * rewrite decide_True by reflexivity. rewrite lookup_insert_eq. cbn [default].
        rewrite length_cons. unfold id. lia.
      * rewrite decide_False by congruence. rewrite lookup_insert_ne by exact Hne. reflexivity.
    + rewrite decide_False by congruence. reflexivity.
Qed.

Lemma count_events_lookup (uid : Z) (rows : list RsvpRow) :
  default 0%Z (count_events (Some rows) !! uid) = Z.of_nat (length (rsvps_for uid rows)).
Proof. unfold count_events. rewrite count_fold_lookup, lookup_empty. reflexivity. Qed.

Lemma rsvps_for_selected (uid : Z) (ids : list Z) (rows : list RsvpRow) :
  length (rsvps_for uid
            (filter (fun r => String.eqb (rv_status r) "approved" && user_in ids (rv_user_id r))
                    rows)) =
  if bool_decide (uid ∈ ids)
  then length (filter (fun r => rv_user_id r = Some uid /\ rv_status r = "approved"%string) rows)
  else 0%nat.
Proof.
  unfold rsvps_for. induction rows as [| r rows IH].
  - cbn. destruct (bool_decide (uid ∈ ids)); reflexivity.
  - rewrite !filter_cons.
    destruct (String.eqb_spec (rv_status r) "approved") as [Es | Ns].
    + destruct (rv_user_id r) as [i |] eqn:Ei; cbn [andb user_in].
      * destruct (bool_decide (i ∈ ids)) eqn:Eb.
        -- rewrite decide_True by exact I. rewrite filter_cons.
           destruct (decide (i = uid)) as [-> | Hne].
           ++ rewrite Ei. rewrite decide_True by reflexivity. rewrite Eb in *.
              rewrite decide_True by (split; [reflexivity | exact Es]).
              cbn [length]. rewrite IH. reflexivity.
           ++ rewrite Ei. rewrite decide_False by congruence.
              rewrite decide_False by (intros [H _]; congruence). exact IH.
        -- rewrite decide_False by (intros H; exact H).
           destruct (decide (i = uid)) as [-> | Hne].
           ++ rewrite Eb in *. rewrite IH. reflexivity.
           ++ rewrite decide_False by (intros [H _]; congruence). exact IH.
      * rewrite decide_False by (intros H; exact H).
        rewrite decide_False by (intros [H _]; congruence). exact IH.
    + cbn [andb]. rewrite decide_False by (intros H; exact H).
      rewrite decide_False by (intros [_ H]; congruence). exact IH.
Qed.

End FoldFacts.

Module PassFacts.

Import RankingAnatomy FoldFacts.

Lemma pool_member_id (supabase : Client) (user_id : Z) (limit : option Z) (u : UserProfile) :
  u ∈ potential_users_of supabase user_id limit ->
  exists i, u_id u = Some i /\ i <> user_id /\ i ∈ pass_ids supabase user_id limit.
Proof.
  intros Hu. pose proof Hu as Hu'.
  apply RankFacts.potential_users_spec in Hu as [Hm _].
  apply RankFacts.matching_users_id in Hm as (i & Hi & Hne).
  exists i. split; [exact Hi |]. split; [exact Hne |].
  unfold pass_ids. apply list_elem_of_omap. exists u. split; assumption.
Qed.

Lemma subject_not_in_pass (supabase : Client) (user_id : Z) (limit : option Z) :
  user_id ∉ pass_ids supabase user_id limit.
Proof.
  unfold pass_ids. intros Hin. apply list_elem_of_omap in Hin as (u & Hu & Hi).
  apply pool_member_id in Hu as (i & Hi' & Hne & _). congruence.
Qed.

Lemma truthy_int_id (o : option Z) (n : Z) : truthy_int o = Some n -> o = Some n.
Proof.
  unfold truthy_int. destruct o as [m |]; [| discriminate].
  destruct (Z.eqb m 0); [discriminate | congruence].
Qed.

(** The count the pass holds for an id. *)
Lemma pass_count (supabase : Client) (ids : list Z) (i : Z) :
  count_of (count_events (approved_rsvps supabase ids)) (Some i) =
  if fails supabase QEventRsvps then 0%Z
  else if bool_decide (i ∈ ids) then Z.of_nat (length (approved_for supabase i))
  else 0%Z.
Proof.
  unfold count_of, approved_rsvps. destruct (fails supabase QEventRsvps).
  - cbn. rewrite lookup_empty. reflexivity.
  - rewrite count_events_lookup, rsvps_for_selected.
    destruct (bool_decide (i ∈ ids)); reflexivity.
Qed.

Lemma pass_count_nonneg (supabase : Client) (ids : list Z) (o : option Z) :
  (0 <= count_of (count_events (approved_rsvps supabase ids)) o)%Z.
Proof.
  destruct o as [i |]; [| cbn; lia]. rewrite pass_count.
  destruct (fails supabase QEventRsvps); [lia |].
  destruct (bool_decide (i ∈ ids)); lia.
Qed.

Lemma increment_against_zero (n : Z) :
  (0 <= n)%Z ->
  activity_increment 0 n = if (10 <? n)%Z then Float.c0_02 else Float.c0_05.
Proof.
  intros Hn. unfold activity_increment. cbn [Z.leb andb].
  replace (Z.abs (0 - n)) with n by lia.
  change (0 <=? 2)%Z with true. cbn [andb].
  destruct (Z.leb_spec n 2); [| reflexivity].
  destruct (Z.ltb_spec 10 n); [lia | reflexivity].
Qed.

End PassFacts.

(** X1: in a ranking pass the subject's own event count is always taken
    as 0, because counts are fetched for the candidates only.  The
    activity increment of a candidate is therefore 0.02 when the candidate
    has more than 10 counted events and 0.05 otherwise; 0.075 and 0.10 are
    never granted. *)
Theorem ranking_activity_ignores_subject_events (user : UserProfile) (supabase : Client)
    (limit : option Z) (min_score : Q) :
  Forall (fun e => exists c n,
            c ∈ eligible_candidates supabase user limit /\
            sc_user e = set_event_count n c /\
            sc_score e =
            Float.round2
              (Float.fmul
                 (Float.fadd (profile_score user c)
                    (if (10 <? n)%Z then Float.c0_02 else Float.c0_05))
                 100))
         (find_potential_buddies user supabase limit min_score).
Proof.
  apply Forall_forall. intros e He.
  apply RankingAnatomy.entry_anatomy in He as (user_id & u & Hid & Hu & Huser & Hscore).
  cbv zeta in Huser, Hscore.
  set (ids := pass_ids supabase user_id limit) in *.
  set (counts := count_events (approved_rsvps supabase ids)) in *.
  exists (enrich_one supabase ids u), (count_of counts (u_id u)).
  split; [| split; [exact Huser |]].
  - unfold eligible_candidates. rewrite Hid. unfold enrich.
    apply (list_elem_of_fmap_2 _ _ u). exact Hu.
  - rewrite Hscore. unfold calculate_buddy_score, raw_score, add_activity.
    assert (count_of counts (u_id user) = 0%Z) as ->.
    { rewrite (PassFacts.truthy_int_id _ _ Hid). unfold counts.
      rewrite PassFacts.pass_count. destruct (fails supabase QEventRsvps); [reflexivity |].
      rewrite bool_decide_eq_false_2; [reflexivity |].
      apply PassFacts.subject_not_in_pass. }
    change (u_id (enrich_one supabase ids u)) with (u_id u).
    rewrite PassFacts.increment_against_zero by apply PassFacts.pass_count_nonneg.
    reflexivity.
Qed.

(** X2: when the RSVP read succeeds, the [_event_count] attached to each
    returned user is the number of approved rows of [event_rsvps] with
    that user's id. *)
Theorem event_count_counts_approved_rsvps (user : UserProfile) (supabase : Client)
    (limit : option Z) (min_score : Q) :
  fails supabase QEventRsvps = false ->
  Forall (fun e => exists i,
            u_id (sc_user e) = Some i /\
            u_event_count (sc_user e) =
            Some (Z.of_nat (length (approved_for supabase i))))
         (find_potential_buddies user supabase limit min_score).
Proof.
  intros F. apply Forall_forall. intros e He.
  apply RankingAnatomy.entry_anatomy in He as (user_id & u & Hid & Hu & Huser & _).
  cbv zeta in Huser.
  apply PassFacts.pool_member_id in Hu as (i & Hi & _ & Hin).
  exists i. rewrite Huser. cbn. split; [exact Hi |].
  rewrite Hi, PassFacts.pass_count, F.
  rewrite bool_decide_eq_true_2 by exact Hin. reflexivity.
Qed.

Lemma event_count_counts_approved_rsvps_witness :
  fails (Sample.club Sample.no_failure) QEventRsvps = false /\
  Forall (fun e => exists i,
            u_id (sc_user e) = Some i /\
            u_event_count (sc_user e) =
            Some (Z.of_nat (length (approved_for (Sample.club Sample.no_failure) i))))
         (find_potential_buddies Sample.alice (Sample.club Sample.no_failure) None 0).
Proof.
  split; [reflexivity |].
  apply (event_count_counts_approved_rsvps Sample.alice (Sample.club Sample.no_failure) None 0).
  reflexivity.
Defined.

(** X3: when the batched sports and goals reads succeed, each returned
    user carries exactly the sports and the goals joined to the rows of
    [user_sports] and [user_goals] with that user's id, in table order;
    rows without a joined item are skipped. *)
Theorem attached_affiliations_are_the_joined_rows (user : UserProfile) (supabase : Client)
    (limit : option Z) (min_score : Q) :
  fails supabase QUserSports = false ->
  fails supabase QUserGoals = false ->
  Forall (fun e => exists i,
            u_id (sc_user e) = Some i /\
            u_sports (sc_user e) =
              Some (Dicts (items_for i (user_sports supabase))) /\
            u_goals (sc_user e) =
              Some (Dicts (items_for i (user_goals supabase))))
         (find_potential_buddies user supabase limit min_score).
Proof.
  intros Fs Fg. apply Forall_forall. intros e He.
  apply RankingAnatomy.entry_anatomy in He as (user_id & u & Hid & Hu & Huser & _).
  cbv zeta in Huser.
  apply PassFacts.pool_member_id in Hu as (i & Hi & _ & Hin).
  exists i. rewrite Huser. cbn. split; [exact Hi |].
  unfold affiliations_of. rewrite Fs, Fg, Hi. cbn.
  rewrite !FoldFacts.group_by_user_lookup, !FoldFacts.items_for_selected by exact Hin.
  split; reflexivity.
Qed.

Lemma attached_affiliations_are_the_joined_rows_witness :
  fails (Sample.club Sample.no_failure) QUserSports = false /\
  fails (Sample.club Sample.no_failure) QUserGoals = false /\
  Forall (fun e => exists i,
            u_id (sc_user e) = Some i /\
            u_sports (sc_user e) =
              Some (Dicts (items_for i (user_sports (Sample.club Sample.no_failure)))) /\
            u_goals (sc_user e) =
              Some (Dicts (items_for i (user_goals (Sample.club Sample.no_failure)))))
         (find_potential_buddies Sample.alice (Sample.club Sample.no_failure) None 0).
Proof.
  split; [reflexivity |]. split; [reflexivity |].
  apply (attached_affiliations_are_the_joined_rows Sample.alice
           (Sample.club Sample.no_failure) None 0); reflexivity.
Defined.

Module CapFacts.

Lemma potential_users_length (supabase : Client) (user_id : Z) (limit : option Z) :
  length (potential_users_of supabase user_id limit) <= Z.to_nat (fetch_limit_of limit).
Proof.
  unfold potential_users_of, discoverable_users.
  destruct (fails supabase QUsers); [cbn; lia |].
  set (rows := take _ _).
  assert (length rows <= Z.to_nat (fetch_limit_of limit)) as Hrows
    by (unfold rows; rewrite length_take; lia).
  destruct (truthy_set (existing_buddy_user_ids supabase user_id)); [| exact Hrows].
  etransitivity; [apply length_filter | exact Hrows].
Qed.

Lemma ranked_length (user : UserProfile) (supabase : Client) (counts : gmap Z Z)
    (pool : list UserProfile) :
  length (sort_by_score (score_candidates user supabase counts (enrich supabase pool))) =
  length pool.
Proof.
  rewrite RankFacts.sort_by_score_perm. unfold score_candidates, enrich.
  rewrite !length_fmap. reflexivity.
Qed.

End CapFacts.

(** X4: a ranking without a limit has at most 300 entries, and a ranking
    with a limit [k >= 1] has at most [k]. *)
Theorem ranking_length_is_capped (user : UserProfile) (supabase : Client)
    (k : Z) (min_score : Q) :
  (1 <= k)%Z ->
  length (find_potential_buddies user supabase None min_score) <= 300 /\
  length (find_potential_buddies user supabase (Some k) min_score) <= Z.to_nat k.
Proof.
  intros Hk.
  destruct (truthy_int (u_id user)) as [user_id |] eqn:Hid.
  2: { unfold find_potential_buddies. rewrite Hid. cbn. lia. }
  rewrite !(PoolFacts.find_potential_buddies_unfold user supabase _ min_score user_id Hid).
  cbv zeta. split.
  - change (truthy_int None) with (@None Z). cbv iota.
    rewrite CapFacts.ranked_length.
    etransitivity; [apply CapFacts.potential_users_length |]. cbn. lia.
  - assert (truthy_int (Some k) = Some k) as ->.
    { unfold truthy_int. destruct (Z.eqb_spec k 0); [lia | reflexivity]. }
    rewrite RankFacts.slice_to_pos by lia. rewrite length_take. lia.
Qed.

Lemma ranking_length_is_capped_witness :
  (1 <= 1)%Z /\
  length (find_potential_buddies Sample.alice Sample.crowd None 0) <= 300 /\
  length (find_potential_buddies Sample.alice Sample.crowd (Some 1%Z) 0) <= Z.to_nat 1.
Proof.
  split; [lia |].
  apply (ranking_length_is_capped Sample.alice Sample.crowd 1 0). lia.
Defined.

(** X5: every returned user is a row of [users] that is active and
    discoverable, returned with its own id, name, age and location. *)
Theorem ranked_users_are_active_discoverable_rows (user : UserProfile) (supabase : Client)
    (limit : option Z) (min_score : Q) :
  Forall (fun e => exists row,
            row ∈ users supabase /\
            u_is_active row = true /\ u_is_discoverable row = true /\
            u_id (sc_user e) = u_id row /\
            u_full_name (sc_user e) = u_full_name row /\
            u_age (sc_user e) = u_age row /\
            u_location (sc_user e) = u_location row /\
            u_is_active (sc_user e) = true /\ u_is_discoverable (sc_user e) = true)
         (find_potential_buddies user supabase limit min_score).
Proof.
  apply Forall_forall. intros e He.
  apply RankingAnatomy.entry_anatomy in He as (user_id & u & Hid & Hu & Huser & _).
  cbv zeta in Huser.
  apply RankFacts.potential_users_spec in Hu as [Hm _].
  unfold matching_users in Hm. apply list_elem_of_filter in Hm as [Hp Hrow].
  apply Is_true_true in Hp. rewrite !andb_true_iff in Hp. destruct Hp as [[Ha Hd] _].
  exists u. rewrite Huser. cbn. auto 10.
Qed.

Module ScoreMore.

Import Float FloatFacts.

Lemma extract_ids_dicts (l : list Affiliation) :
  _extract_ids (Dicts l) = list_to_set (omap aff_id l).
Proof. destruct l; reflexivity. Qed.

Lemma same_ids_same_set (l l' : list Affiliation) :
  list_to_set (omap aff_id l) =@{gset Z} list_to_set (omap aff_id l') ->
  ids_of (Some (Dicts l)) = ids_of (Some (Dicts l')).
Proof.
  intros H. change (ids_of (Some (Dicts l))) with (_extract_ids (Dicts l)).
  change (ids_of (Some (Dicts l'))) with (_extract_ids (Dicts l')).
  rewrite !extract_ids_dicts. exact H.
Qed.


Lemma space_lower (c : N) :
  PyStr.is_space c = true -> N.eqb c 0x3A3 = false /\ PyStr.lower_full c = [c].
Proof.
  unfold PyStr.is_space. intros H. apply existsb_exists in H as (d & Hin & Heq).
  apply N.eqb_eq in Heq. subst d. unfold PyStr.whitespace in Hin. cbn [In] in Hin.
  repeat (destruct Hin as [<- | Hin]; [split; vm_compute; reflexivity |]).
  contradiction.
Qed.

Lemma blank_lower_from (s before : PyStr.str) :
  blank s = true -> PyStr.lower_from before s = s.
Proof.
  revert before. induction s as [| c s IH]; [reflexivity |]. intros before H.
  apply andb_true_iff in H as [Hc Hs]. cbn [PyStr.lower_from].
  destruct (space_lower c Hc) as [-> ->]. rewrite (IH _ Hs). reflexivity.
Qed.

Lemma blank_lstrip (s : PyStr.str) : blank s = true -> PyStr.lstrip s = [].
Proof.
  induction s as [| c s IH]; [reflexivity |]. cbn. intros H.
  apply andb_true_iff in H as [Hc Hs]. rewrite Hc. exact (IH Hs).
Qed.

Lemma blank_location (s : PyStr.str) (u : UserProfile) :
  blank s = true -> location_of (set_location (Some s) u) = [].
Proof.
  intros H. unfold location_of. cbn. destruct (PyStr.nonempty s); [| reflexivity].
  unfold PyStr.lower. rewrite (blank_lower_from s [] H).
  unfold PyStr.strip. rewrite (blank_lstrip s H). reflexivity.
Qed.

Lemma insert_filter (P : ScoredCandidate -> bool) (x : ScoredCandidate)
    (l : list ScoredCandidate) :
  (forall y, P x = true -> P y = true -> Qle_bool (sc_score y) (sc_score x) = true) ->
  filter P (insert_by_score x l) = filter P (x :: l).
Proof.
  intros Hties. induction l as [| y l IH]; [reflexivity |]. cbn [insert_by_score].
  destruct (Qle_bool (sc_score y) (sc_score x)) eqn:E; [reflexivity |].
  rewrite filter_cons, IH, !filter_cons.
  destruct (decide (P x)) as [Px | Px]; [| reflexivity].
  destruct (decide (P y)) as [Py | Py]; [| reflexivity].
  apply Is_true_true in Px, Py. rewrite (Hties y Px Py) in E. discriminate.
Qed.

Lemma sort_filter_has_score (s : Q) (l : list ScoredCandidate) :
  filter (has_score s) (sort_by_score l) = filter (has_score s) l.
Proof.
  induction l as [| x l IH]; [reflexivity |]. cbn [sort_by_score foldr].
  fold (sort_by_score l). rewrite insert_filter.
  - rewrite !filter_cons, IH. reflexivity.
  - unfold has_score. intros y Hx Hy. apply Qeq_bool_iff in Hx, Hy.
    apply Qle_bool_iff. rewrite Hx, Hy. apply Qle_refl.
Qed.

Lemma score_range (user1 user2 : UserProfile)
    (supabase : option Client) (event_counts : option (gmap Z Z)) :
  (0 <= calculate_buddy_score user1 user2 supabase event_counts)%Q /\
  (calculate_buddy_score user1 user2 supabase event_counts <= 100)%Q.
Proof.
  unfold calculate_buddy_score.
  destruct (ScoreFacts.raw_score_bounds user1 user2 supabase event_counts) as [R0 R1].
  assert (0 <= fmul (raw_score user1 user2 supabase event_counts) 100)%Q as P0
    by (apply fmul_nonneg; [exact R0 | apply Qle_bool_iff; reflexivity]).
  assert (fmul (raw_score user1 user2 supabase event_counts) 100 <= 100)%Q as P1.
  { change 100%Q with (fmul 1 100) at 2.
    apply fmul_mono; try assumption; apply Qle_bool_iff; reflexivity. }
  destruct (round2_percent _ P0 P1) as (H0 & H1 & _). split; assumption.
Qed.

Lemma buddy_exists_iff (supabase : Client) (a b : Z) :
  fails supabase QBuddyPair = false ->
  buddy_exists supabase a b = true <-> in_relationship supabase a b.
Proof.
  intros F. unfold buddy_exists, buddy_pair. rewrite F.
  rewrite orb_true_iff, !negb_true_iff, !bool_decide_eq_false. unfold in_relationship. split.
  - intros [H | H].
    + destruct (filter _ _) as [| r l] eqn:E; [contradiction |].
      assert (r ∈ filter (fun r => b_user1_id r = a /\ b_user2_id r = b) (buddies supabase))
        as Hr by (rewrite E; apply list_elem_of_here).
      apply list_elem_of_filter in Hr as [Hp Hr]. exists r. auto.
    + destruct (filter _ _) as [| r l] eqn:E; [contradiction |].
      assert (r ∈ filter (fun r => b_user1_id r = b /\ b_user2_id r = a) (buddies supabase))
        as Hr by (rewrite E; apply list_elem_of_here).
      apply list_elem_of_filter in Hr as [[H1 H2] Hr]. exists r. auto.
  - intros (r & Hr & [[H1 H2] | [H1 H2]]).
    + left. intros E.
      assert (r ∈ filter (fun r => b_user1_id r = a /\ b_user2_id r = b) (buddies supabase))
        as Hin by (apply list_elem_of_filter; auto).
      rewrite E in Hin. inversion Hin.
    + right. intros E.
      assert (r ∈ filter (fun r => b_user1_id r = b /\ b_user2_id r = a) (buddies supabase))
        as Hin by (apply list_elem_of_filter; auto).
      rewrite E in Hin. inversion Hin.
Qed.

Lemma buddy_exists_sym (supabase : Client) (a b : Z) :
  buddy_exists supabase a b = buddy_exists supabase b a.
Proof.
  unfold buddy_exists. destruct (buddy_pair supabase a b), (buddy_pair supabase b a);
    try reflexivity. apply orb_comm.
Qed.

End ScoreMore.

(** X6: the score depends on the sports and goals lists only through the
    sets of ids they contain: reordering entries, repeating them, renaming
    them or adding entries without an id does not change it. *)
Theorem score_depends_on_id_sets_only (u v : UserProfile)
    (sports sports' goals goals' : list Affiliation)
    (supabase : option Client) (event_counts : option (gmap Z Z)) :
  list_to_set (omap aff_id sports) =@{gset Z} list_to_set (omap aff_id sports') ->
  list_to_set (omap aff_id goals) =@{gset Z} list_to_set (omap aff_id goals') ->
  calculate_buddy_score (set_goals goals (set_sports sports u)) v supabase event_counts =
  calculate_buddy_score (set_goals goals' (set_sports sports' u)) v supabase event_counts.
Proof.
  intros Hs Hg. unfold calculate_buddy_score, raw_score, profile_score.
  cbn [u_sports u_goals set_goals set_sports].
  rewrite (ScoreMore.same_ids_same_set sports sports' Hs).
  rewrite (ScoreMore.same_ids_same_set goals goals' Hg).
  reflexivity.
Qed.

Lemma score_depends_on_id_sets_only_witness :
  list_to_set (omap aff_id [Sample.running; Sample.yoga]) =@{gset Z}
    list_to_set (omap aff_id [Sample.yoga; mkAff None "Unnamed"; Sample.running; Sample.yoga]) /\
  list_to_set (omap aff_id [Sample.get_fit]) =@{gset Z}
    list_to_set (omap aff_id [mkAff (Some 10%Z) "Fitness"]) /\
  calculate_buddy_score
    (set_goals [Sample.get_fit] (set_sports [Sample.running; Sample.yoga] Sample.bob))
    Sample.alice None None =
  calculate_buddy_score
    (set_goals [mkAff (Some 10%Z) "Fitness"]
       (set_sports [Sample.yoga; mkAff None "Unnamed"; Sample.running; Sample.yoga] Sample.bob))
    Sample.alice None None.
Proof.
  split; [reflexivity |]. split; [reflexivity |].
  apply (score_depends_on_id_sets_only Sample.bob Sample.alice
           [Sample.running; Sample.yoga]
           [Sample.yoga; mkAff None "Unnamed"; Sample.running; Sample.yoga]
           [Sample.get_fit] [mkAff (Some 10%Z) "Fitness"] None None); reflexivity.
Defined.



(** X8: the ranking without a limit is a rearrangement of the candidates
    scored in fetch order in which candidates of equal score keep the
    order in which they were fetched. *)
Theorem equal_scores_keep_fetch_order (user : UserProfile) (supabase : Client)
    (min_score s : Q) :
  find_potential_buddies user supabase None min_score ≡ₚ
    scored_in_fetch_order user supabase None /\
  filter (has_score s) (find_potential_buddies user supabase None min_score) =
  filter (has_score s) (scored_in_fetch_order user supabase None).
Proof.
  unfold scored_in_fetch_order.
  destruct (truthy_int (u_id user)) as [user_id |] eqn:Hid.
  - rewrite (PoolFacts.find_potential_buddies_unfold user supabase None min_score user_id Hid).
    cbv zeta. change (truthy_int None) with (@None Z). cbv iota.
    split; [apply RankFacts.sort_by_score_perm | apply ScoreMore.sort_filter_has_score].
  - unfold find_potential_buddies. rewrite Hid. split; reflexivity.
Qed.

(** X9: when its reads succeed, the duplicate check of [create_buddy]
    fires exactly when a relationship between the two users is stored, in
    either direction, and it gives the same answer for (a, b) and (b, a). *)
Theorem duplicate_check_is_direction_blind (supabase : Client) (a b : Z) :
  fails supabase QBuddyPair = false ->
  (buddy_exists supabase a b = true <-> in_relationship supabase a b) /\
  buddy_exists supabase a b = buddy_exists supabase b a.
Proof.
  intros F. split; [apply ScoreMore.buddy_exists_iff, F | apply ScoreMore.buddy_exists_sym].
Qed.

Lemma duplicate_check_is_direction_blind_witness :
  fails (Sample.club Sample.no_failure) QBuddyPair = false /\
  (buddy_exists (Sample.club Sample.no_failure) 2 1 = true <->
   in_relationship (Sample.club Sample.no_failure) 2 1) /\
  buddy_exists (Sample.club Sample.no_failure) 2 1 =
  buddy_exists (Sample.club Sample.no_failure) 1 2.
Proof.
  split; [reflexivity |].
  apply (duplicate_check_is_direction_blind (Sample.club Sample.no_failure) 2 1). reflexivity.
Defined.

(** X10: whenever [create_buddy] answers with the request it stored, the
    response could be built from that row, the caller has a usable id and
    is the row's user1, the named user is its user2 and is exactly one row
    of [users] different from the caller, the status is pending, the match
    score lies in [0, 100], and, if the duplicate reads succeeded, no
    relationship between the two was stored before. *)
Theorem create_buddy_success (response : Response) (user2_id : Z)
    (current_user : UserProfile) (supabase : Client) (now : string) (row : BuddyRow) :
  create_buddy response user2_id current_user (Some supabase) now = inr row ->
  exists user_id user2,
    response row = true /\
    truthy_int (u_id current_user) = Some user_id /\
    user2_id <> user_id /\
    filter (fun u => u_id u = Some user2_id) (users supabase) = [user2] /\
    b_user1_id row = user_id /\ b_user2_id row = user2_id /\
    b_status row = "pending"%string /\ b_created_at row = now /\
    (0 <= b_match_score row)%Q /\ (b_match_score row <= 100)%Q /\
    (fails supabase QBuddyPair = false -> ~ in_relationship supabase user_id user2_id).
Proof.
  unfold create_buddy.
  destruct (truthy_int (u_id current_user)) as [user_id |]; [| discriminate].
  destruct (Z.eqb_spec user2_id user_id) as [| Hne]; [discriminate |].
  destruct (user_single supabase user2_id) as [user2 |] eqn:Hu; [| discriminate].
  destruct (buddy_exists supabase user_id user2_id) eqn:Hdup; [discriminate |].
  unfold insert_buddy. destruct (fails supabase QInsertBuddy); [discriminate |].
  destruct (response _) eqn:Hr; [| discriminate].
  intros H. injection H as <-.
  exists user_id, user2. split; [exact Hr |].
  split; [reflexivity |]. split; [exact Hne |]. split.
  - unfold user_single in Hu. destruct (fails supabase QUserSingle); [discriminate |].
    destruct (filter _ _) as [| x [| y l]]; try discriminate. congruence.
  - cbn. repeat (split; [reflexivity |]).
    pose proof (ScoreMore.score_range current_user user2 (Some supabase) None) as [H0 H1].
    split; [exact H0 |]. split; [exact H1 |].
    intros F Hrel.
    apply (ScoreMore.buddy_exists_iff supabase user_id user2_id F) in Hrel.
    congruence.
Qed.

Lemma create_buddy_success_witness :
  create_buddy Sample.dated_rows 3 Sample.alice (Some (Sample.club Sample.no_failure))
    "2024-06-01T12:00:00Z" =
    inr (mkBuddy 2 1 3 (15 # 2) "pending" "2024-06-01T12:00:00Z") /\
  exists user_id user2,
    Sample.dated_rows (mkBuddy 2 1 3 (15 # 2) "pending" "2024-06-01T12:00:00Z") = true /\
    truthy_int (u_id Sample.alice) = Some user_id /\
    3%Z <> user_id /\
    filter (fun u => u_id u = Some 3%Z) (users (Sample.club Sample.no_failure)) = [user2] /\
    b_user1_id (mkBuddy 2 1 3 (15 # 2) "pending" "2024-06-01T12:00:00Z") = user_id /\
    b_user2_id (mkBuddy 2 1 3 (15 # 2) "pending" "2024-06-01T12:00:00Z") = 3%Z /\
    b_status (mkBuddy 2 1 3 (15 # 2) "pending" "2024-06-01T12:00:00Z") = "pending"%string /\
    b_created_at (mkBuddy 2 1 3 (15 # 2) "pending" "2024-06-01T12:00:00Z") =
      "2024-06-01T12:00:00Z"%string /\
    (0 <= b_match_score (mkBuddy 2 1 3 (15 # 2) "pending" "2024-06-01T12:00:00Z"))%Q /\
    (b_match_score (mkBuddy 2 1 3 (15 # 2) "pending" "2024-06-01T12:00:00Z") <= 100)%Q /\
    (fails (Sample.club Sample.no_failure) QBuddyPair = false ->
     ~ in_relationship (Sample.club Sample.no_failure) user_id 3).
Proof.
  split; [reflexivity |].
  apply (create_buddy_success Sample.dated_rows 3 Sample.alice
           (Sample.club Sample.no_failure) "2024-06-01T12:00:00Z").
  reflexivity.
Defined.

(** X11: a request naming an id that no row of [users] carries is answered
    404, for any caller with a usable id other than that id. *)
Theorem create_buddy_unknown_user (response : Response) (user2_id user_id : Z)
    (current_user : UserProfile) (supabase : Client) (now : string) :
  truthy_int (u_id current_user) = Some user_id ->
  user2_id <> user_id ->
  filter (fun u => u_id u = Some user2_id) (users supabase) = [] ->
  create_buddy response user2_id current_user (Some supabase) now =
  inl (HTTPError 404 "User not found").
Proof.
  intros Hid Hne Hnone. unfold create_buddy. rewrite Hid.
  destruct (Z.eqb_spec user2_id user_id); [contradiction |].
  unfold user_single. rewrite Hnone. destruct (fails supabase QUserSingle); reflexivity.
Qed.

Lemma create_buddy_unknown_user_witness :
  truthy_int (u_id Sample.alice) = Some 1%Z /\ 99%Z <> 1%Z /\
  filter (fun u => u_id u = Some 99%Z) (users (Sample.club Sample.no_failure)) = [] /\
  create_buddy Sample.every_row 99 Sample.alice (Some (Sample.club Sample.no_failure)) "now" =
  inl (HTTPError 404 "User not found").
Proof.
  split; [reflexivity |]. split; [lia |]. split; [reflexivity |].
  apply (create_buddy_unknown_user Sample.every_row 99 1 Sample.alice
           (Sample.club Sample.no_failure) "now");
    [reflexivity | lia | reflexivity].
Defined.

(** X12: a location made of blanks only counts as no location: the score
    is the one obtained with the location unset. *)
Theorem blank_location_is_no_location (u v : UserProfile) (s : PyStr.str)
    (supabase : option Client) (event_counts : option (gmap Z Z)) :
  blank s = true ->
  calculate_buddy_score (set_location (Some s) u) v supabase event_counts =
  calculate_buddy_score (set_location None u) v supabase event_counts.
Proof.
  intros H. unfold calculate_buddy_score, raw_score, profile_score.
  rewrite (ScoreMore.blank_location s u H). reflexivity.
Qed.

Lemma blank_location_is_no_location_witness :
  blank [0x20; 0xA0; 0x3000]%N = true /\
  calculate_buddy_score (set_location (Some [0x20; 0xA0; 0x3000]%N) Sample.bob)
    Sample.alice None None =
  calculate_buddy_score (set_location None Sample.bob) Sample.alice None None.
Proof.
  split; [reflexivity |].
  apply (blank_location_is_no_location Sample.bob Sample.alice [0x20; 0xA0; 0x3000]%N
           None None).
  reflexivity.
Defined.

Module CacheFacts.

Lemma list_sports_keeps_filled (st : SportsCache) (now : Q) (fetched : option (list SportRow))
    (c : list SportItem) :
  _sports_cache st = Some c ->
  exists c', _sports_cache (snd (list_sports st now fetched)) = Some c'.
Proof.
  intros Hc. unfold list_sports. rewrite Hc.
  destruct (within_ttl st now); [cbn; eauto |].
  destruct fetched as [[| first rest] |]; cbn; eauto.
Qed.

Lemma list_sports_answers_when_filled (st : SportsCache) (now : Q)
    (fetched : option (list SportRow)) (c : list SportItem) :
  _sports_cache st = Some c ->
  exists l, fst (list_sports st now fetched) = inr l.
Proof.
  intros Hc. unfold list_sports. rewrite Hc.
  destruct (within_ttl st now); [cbn; eauto |].
  destruct fetched as [[| first rest] |]; cbn; eauto.
Qed.

Lemma serve_keeps_filled (calls : list (Q * option (list SportRow))) (st : SportsCache)
    (c : list SportItem) :
  _sports_cache st = Some c -> exists c', _sports_cache (serve st calls) = Some c'.
Proof.
  revert st c. induction calls as [| call calls IH]; intros st c Hc; [cbn; eauto |].
  cbn. destruct (list_sports_keeps_filled st (fst call) (snd call) c Hc) as [c' Hc'].
  exact (IH _ c' Hc').
Qed.

Lemma list_sports_keeps_proper (st : SportsCache) (now : Q) (fetched : option (list SportRow)) :
  cache_filled_properly st = true ->
  cache_filled_properly (snd (list_sports st now fetched)) = true.
Proof.
  intros H. unfold list_sports.
  destruct (_sports_cache st) as [cached |] eqn:Hc.
  - destruct (within_ttl st now); [exact H |].
    destruct fetched as [[| first rest] |]; cbn; try exact H; reflexivity.
  - destruct fetched as [[| first rest] |]; cbn; try exact H; reflexivity.
Qed.

Lemma serve_keeps_proper (calls : list (Q * option (list SportRow))) (st : SportsCache) :
  cache_filled_properly st = true -> cache_filled_properly (serve st calls) = true.
Proof.
  revert st. induction calls as [| call calls IH]; intros st H; [exact H |].
  cbn. apply IH, list_sports_keeps_proper, H.
Qed.

End CacheFacts.

(** X13: whatever calls were served since start-up, the cache is either
    unset or holds a non-empty list, and a call answers with an error only
    if the cache is unset and the fetch raises. *)
Theorem sports_cache_invariant (calls : list (Q * option (list SportRow)))
    (now : Q) (fetched : option (list SportRow)) :
  let st := serve initial_cache calls in
  cache_filled_properly st = true /\
  forall e, fst (list_sports st now fetched) = inl e ->
            _sports_cache st = None /\ fetched = None.
Proof.
  cbv zeta. split; [apply CacheFacts.serve_keeps_proper; reflexivity |].
  intros e He. destruct (_sports_cache (serve initial_cache calls)) as [c |] eqn:Hc.
  - destruct (CacheFacts.list_sports_answers_when_filled _ now fetched c Hc) as [l Hl].
    congruence.
  - split; [reflexivity |]. unfold list_sports in He. rewrite Hc in He.
    destruct fetched as [[| first rest] |]; [discriminate | discriminate | reflexivity].
Qed.

(** X14: once a call has filled the cache, every later call answers with a
    list, whatever the clock shows and whether or not the fetch raises. *)
Theorem sports_served_once_cached (st : SportsCache) (c : list SportItem)
    (calls : list (Q * option (list SportRow))) (now : Q) (fetched : option (list SportRow)) :
  _sports_cache st = Some c ->
  exists l, fst (list_sports (serve st calls) now fetched) = inr l.
Proof.
  intros Hc. destruct (CacheFacts.serve_keeps_filled calls st c Hc) as [c' Hc'].
  exact (CacheFacts.list_sports_answers_when_filled _ now fetched c' Hc').
Qed.

Lemma sports_served_once_cached_witness :
  _sports_cache (snd (list_sports initial_cache 1000 (Some sample_sports))) =
    Some (sport_item <$> sample_sports) /\
  exists l, fst (list_sports
                   (serve (snd (list_sports initial_cache 1000 (Some sample_sports)))
                          [(2000%Q, None)])
                   5000 None) = inr l.
Proof.
  split; [reflexivity |].
  apply (sports_served_once_cached _ (sport_item <$> sample_sports)). reflexivity.
Defined.

(** X15: a call that refreshes the cache with the rows it fetched is
    followed, for as long as the computed age stays below 300 seconds, by
    calls that return those same entries and leave the cache alone,
    whatever the table holds by then. *)
Theorem sports_refresh_then_hit (st : SportsCache) (t t' : Q)
    (first : SportRow) (rest : list SportRow) (fetched' : option (list SportRow)) :
  (_sports_cache st = None \/ within_ttl st t = false) ->
  within_ttl (mkSportsCache (Some (sport_item <$> first :: rest)) t) t' = true ->
  let refreshed := list_sports st t (Some (first :: rest)) in
  fst refreshed = inr (sport_item <$> first :: rest) /\
  list_sports (snd refreshed) t' fetched' =
  (inr (sport_item <$> first :: rest), snd refreshed).
Proof.
  intros Hexp Hfresh refreshed.
  assert (refreshed =
          (inr (sport_item <$> first :: rest),
           mkSportsCache (Some (sport_item <$> first :: rest)) t)) as ->.
  { unfold refreshed, list_sports. destruct Hexp as [-> | Hexp]; [reflexivity |].
    rewrite Hexp. destruct (_sports_cache st); reflexivity. }
  split; [reflexivity |]. unfold list_sports. cbn [_sports_cache snd]. rewrite Hfresh.
  reflexivity.
Qed.

Lemma sports_refresh_then_hit_witness :
  (_sports_cache initial_cache = None \/ within_ttl initial_cache 1000 = false) /\
  within_ttl (mkSportsCache (Some (sport_item <$> sample_sports)) 1000) (2599 # 2) = true /\
  fst (list_sports initial_cache 1000 (Some sample_sports)) =
    inr (sport_item <$> sample_sports) /\
  list_sports (snd (list_sports initial_cache 1000 (Some sample_sports))) (2599 # 2) (Some []) =
    (inr (sport_item <$> sample_sports),
     snd (list_sports initial_cache 1000 (Some sample_sports))).
Proof.
  split; [left; reflexivity |]. split; [reflexivity |].
  exact (sports_refresh_then_hit initial_cache 1000 (2599 # 2)
           (mkSportRow (Some 1%Z) (Some "Running"%string) None [])
           [mkSportRow (Some 2%Z) (Some "Yoga"%string) (Some "Y"%string)
              [("created_at", "2024")%string]]
           (Some []) (or_introl eq_refl) eq_refl).
Defined.

(** X16: when the cache has expired and the table comes back empty, the
    call answers with the empty list, not with the stale entries, and the
    cache is left as it was. *)
Theorem sports_empty_fetch_not_cached (st : SportsCache) (now : Q) :
  within_ttl st now = false ->
  list_sports st now (Some []) = (inr [], st).
Proof.
  intros H. unfold list_sports. rewrite H. destruct (_sports_cache st); reflexivity.
Qed.

Lemma sports_empty_fetch_not_cached_witness :
  within_ttl (mkSportsCache (Some (sport_item <$> sample_sports)) 1000) 1300 = false /\
  list_sports (mkSportsCache (Some (sport_item <$> sample_sports)) 1000) 1300 (Some []) =
  (inr [], mkSportsCache (Some (sport_item <$> sample_sports)) 1000).
Proof.
  split; [reflexivity |].
  apply (sports_empty_fetch_not_cached
           (mkSportsCache (Some (sport_item <$> sample_sports)) 1000) 1300).
  reflexivity.
Defined.

Module ServiceFacts.

Lemma insert_buddy_row (supabase : Client) (a b : Z) (score : Q) (now : string) :
  fails supabase QInsertBuddy = false ->
  insert_buddy supabase a b score now =
  Some [mkBuddy (fresh_buddy_id (buddies supabase)) a b score "pending" now].
Proof. intros F. unfold insert_buddy. rewrite F. reflexivity. Qed.

Lemma assembled_score_range (supabase : Client) (a b : Z) :
  (0 <= default (50 # 1) (assembled_score supabase a b))%Q /\
  (default (50 # 1) (assembled_score supabase a b) <= 100)%Q.
Proof.
  unfold assembled_score.
  destruct (user_single supabase a); [| split; apply Qle_bool_iff; reflexivity].
  destruct (user_single supabase b); [| split; apply Qle_bool_iff; reflexivity].
  cbn. destruct (own_affiliations QUserSports _ supabase a);
    [| split; apply Qle_bool_iff; reflexivity].
  cbn. destruct (own_affiliations QUserSports _ supabase b);
    [| split; apply Qle_bool_iff; reflexivity].
  cbn. destruct (own_affiliations QUserGoals _ supabase a);
    [| split; apply Qle_bool_iff; reflexivity].
  cbn. destruct (own_affiliations QUserGoals _ supabase b);
    [| split; apply Qle_bool_iff; reflexivity].
  cbn. apply ScoreMore.score_range.
Qed.

End ServiceFacts.

(** X17: [create_buddy_request] does not require either user to exist:
    when a user row cannot be read, no relationship between the two ids is
    stored and the insert succeeds, the request is stored all the same,
    with the default match score 50.0. *)
Theorem service_scores_50_without_user_row (user1_id user2_id : Z) (supabase : Client)
    (now : string) :
  user_single supabase user1_id = None \/ user_single supabase user2_id = None ->
  buddy_exists supabase user1_id user2_id = false ->
  fails supabase QInsertBuddy = false ->
  create_buddy_request user1_id user2_id supabase now =
  inr (mkBuddy (fresh_buddy_id (buddies supabase)) user1_id user2_id (50 # 1) "pending" now).
Proof.
  intros Hmiss Hdup F. unfold create_buddy_request.
  rewrite Hdup, ServiceFacts.insert_buddy_row by exact F.
  assert (assembled_score supabase user1_id user2_id = None) as ->; [| reflexivity].
  unfold assembled_score. destruct Hmiss as [-> | H2]; [reflexivity |].
  rewrite H2. destruct (user_single supabase user1_id); reflexivity.
Qed.

Lemma service_scores_50_without_user_row_witness :
  (user_single (Sample.club Sample.no_failure) 1 = None \/
   user_single (Sample.club Sample.no_failure) 99 = None) /\
  buddy_exists (Sample.club Sample.no_failure) 1 99 = false /\
  fails (Sample.club Sample.no_failure) QInsertBuddy = false /\
  create_buddy_request 1 99 (Sample.club Sample.no_failure) "now" =
  inr (mkBuddy 2 1 99 (50 # 1) "pending" "now").
Proof.
  split; [right; reflexivity |]. split; [reflexivity |]. split; [reflexivity |].
  exact (service_scores_50_without_user_row 1 99 (Sample.club Sample.no_failure) "now"
           (or_intror eq_refl) eq_refl eq_refl).
Defined.

(** X18: whenever the handler [create_buddy] answers with the request it
    stored, the service function [create_buddy_request], called for the
    same two ids on the same store, stores one too, with the same id,
    users, status and creation time; only the match score can differ. *)
Theorem handler_success_implies_service_success (response : Response) (user2_id : Z)
    (current_user : UserProfile) (supabase : Client) (now : string) (row : BuddyRow) :
  create_buddy response user2_id current_user (Some supabase) now = inr row ->
  exists row',
    create_buddy_request (b_user1_id row) user2_id supabase now = inr row' /\
    b_id row' = b_id row /\ b_user1_id row' = b_user1_id row /\
    b_user2_id row' = b_user2_id row /\ b_status row' = b_status row /\
    b_created_at row' = b_created_at row.
Proof.
  unfold create_buddy.
  destruct (truthy_int (u_id current_user)) as [user_id |]; [| discriminate].
  destruct (Z.eqb_spec user2_id user_id) as [| Hne]; [discriminate |].
  destruct (user_single supabase user2_id) as [user2 |] eqn:Hu; [| discriminate].
  destruct (buddy_exists supabase user_id user2_id) eqn:Hdup; [discriminate |].
  destruct (fails supabase QInsertBuddy) eqn:F;
    [unfold insert_buddy; rewrite F; discriminate |].
  rewrite ServiceFacts.insert_buddy_row by exact F.
  destruct (response _); [| discriminate].
  intros H. injection H as <-. cbn.
  unfold create_buddy_request. rewrite Hdup, ServiceFacts.insert_buddy_row by exact F.
  eexists. split; [reflexivity |]. cbn. auto.
Qed.

Lemma handler_success_implies_service_success_witness :
  create_buddy Sample.every_row 3 Sample.alice (Some (Sample.club Sample.no_failure)) "now" =
    inr (mkBuddy 2 1 3 (15 # 2) "pending" "now") /\
  exists row',
    create_buddy_request 1 3 (Sample.club Sample.no_failure) "now" = inr row' /\
    b_id row' = 2%Z /\ b_user1_id row' = 1%Z /\ b_user2_id row' = 3%Z /\
    b_status row' = "pending"%string /\ b_created_at row' = "now"%string.
Proof.
  split; [reflexivity |].
  exact (handler_success_implies_service_success Sample.every_row 3 Sample.alice
           (Sample.club Sample.no_failure) "now" _ eq_refl).
Defined.

(** X19: whenever [create_buddy_request] stores a request, the stored
    score lies in [0, 100] and, if the duplicate reads succeeded, no
    relationship between the two ids was stored before, in either
    direction. *)
Theorem service_success (user1_id user2_id : Z) (supabase : Client) (now : string)
    (row : BuddyRow) :
  create_buddy_request user1_id user2_id supabase now = inr row ->
  b_user1_id row = user1_id /\ b_user2_id row = user2_id /\
  b_status row = "pending"%string /\
  (0 <= b_match_score row)%Q /\ (b_match_score row <= 100)%Q /\
  (fails supabase QBuddyPair = false -> ~ in_relationship supabase user1_id user2_id).
Proof.
  unfold create_buddy_request.
  destruct (buddy_exists supabase user1_id user2_id) eqn:Hdup; [discriminate |].
  unfold insert_buddy. destruct (fails supabase QInsertBuddy); [discriminate |].
  intros H. injection H as <-. cbn.
  destruct (ServiceFacts.assembled_score_range supabase user1_id user2_id) as [H0 H1].
  repeat (split; [first [reflexivity | assumption] |]).
  intros F Hrel. apply (ScoreMore.buddy_exists_iff supabase _ _ F) in Hrel. congruence.
Qed.

Lemma service_success_witness :
  create_buddy_request 1 3 (Sample.club Sample.no_failure) "now" =
    inr (mkBuddy 2 1 3 (85 # 2) "pending" "now") /\
  (0 <= 85 # 2)%Q /\ (85 # 2 <= 100)%Q.
Proof.
  split; [reflexivity |].
  destruct (service_success 1 3 (Sample.club Sample.no_failure) "now"
              (mkBuddy 2 1 3 (85 # 2) "pending" "now") eq_refl)
    as (_ & _ & _ & H0 & H1 & _).
  split; assumption.
Defined.

Module HandlerFacts.

Lemma with_buddies_same (b : Backend) : with_buddies (bk_buddies b) (bk_updated_at b) b = b.
Proof. destruct b; reflexivity. Qed.

Lemma buddy_by_id_spec (b : Backend) (buddy_id : Z) (r : BuddyRow) :
  buddy_by_id b buddy_id = Some r ->
  filter (fun r => b_id r = buddy_id) (bk_buddies b) = [r] /\ b_id r = buddy_id /\
  r ∈ bk_buddies b.
Proof.
  unfold buddy_by_id. destruct (bk_raises b HBuddyById); [discriminate |].
  destruct (filter _ _) as [| x [| y l]] eqn:E; try discriminate.
  intros H. injection H as ->.
  assert (r ∈ filter (fun r => b_id r = buddy_id) (bk_buddies b)) as Hin
    by (rewrite E; apply list_elem_of_here).
  apply list_elem_of_filter in Hin as [Hid Hin]. auto.
Qed.



Lemma filter_out_then_in (buddy_id : Z) (rows : list BuddyRow) :
  filter (fun r => b_id r = buddy_id) (filter (fun r => b_id r <> buddy_id) rows) = [].
Proof.
  induction rows as [| r rows IH]; [reflexivity |].
  rewrite filter_cons. destruct (decide (b_id r <> buddy_id)) as [N | E]; [| exact IH].
  rewrite filter_cons, decide_False by exact N. exact IH.
Qed.

Lemma delete_effect_helper (buddy_id : Z) (current_user : UserProfile) (b : Backend) :
  let result := delete_buddy buddy_id current_user b in
  match fst result with
  | inl _ => True
  | inr _ =>
      bk_raises (snd result) HConnect = false /\
      filter (fun r => b_id r = buddy_id) (bk_buddies (snd result)) = []
  end.
Proof.
  cbv zeta. unfold delete_buddy.
  destruct (bk_raises b HConnect) eqn:Hc; [exact I |].
  destruct (truthy_int (u_id current_user)) as [user_id |]; [| exact I].
  destruct (buddy_by_id b buddy_id) as [buddy |]; [| exact I].
  destruct (negb _ && negb _); [exact I |].
  destruct (bk_raises b HDeleteBuddy); [exact I |].
  cbn [fst snd bk_buddies bk_raises with_buddies].
  split; [exact Hc | apply filter_out_then_in].
Qed.

End HandlerFacts.


(** X21: [delete_buddy] changes the store only when it succeeds, and it
    succeeds only for one of the two users of the relationship.  After a
    success no row with the given id is left, and the other rows are kept
    in their order. *)
Theorem delete_buddy_effect (buddy_id : Z) (current_user : UserProfile) (b : Backend) :
  let result := delete_buddy buddy_id current_user b in
  match fst result with
  | inl _ => snd result = b
  | inr _ =>
      exists old user_id,
        filter (fun r => b_id r = buddy_id) (bk_buddies b) = [old] /\
        truthy_int (u_id current_user) = Some user_id /\
        (b_user1_id old = user_id \/ b_user2_id old = user_id) /\
        bk_buddies (snd result) = filter (fun r => b_id r <> buddy_id) (bk_buddies b) /\
        filter (fun r => b_id r = buddy_id) (bk_buddies (snd result)) = []
  end.
Proof.
  cbv zeta. unfold delete_buddy.
  destruct (bk_raises b HConnect); [reflexivity |].
  destruct (truthy_int (u_id current_user)) as [user_id |]; [| reflexivity].
  destruct (buddy_by_id b buddy_id) as [buddy |] eqn:Hb; [| reflexivity].
  apply HandlerFacts.buddy_by_id_spec in Hb as (Hone & Hid & Hin).
  destruct (negb (b_user1_id buddy =? user_id)%Z && negb (b_user2_id buddy =? user_id)%Z)
    eqn:Hauth; [reflexivity |].
  destruct (bk_raises b HDeleteBuddy); [reflexivity |].
  cbn [fst snd bk_buddies with_buddies].
  exists buddy, user_id. split; [exact Hone |]. split; [reflexivity |]. split.
  - apply andb_false_iff in Hauth as [H | H]; apply negb_false_iff, Z.eqb_eq in H; auto.
  - split; [reflexivity |]. apply HandlerFacts.filter_out_then_in.
Qed.

(** X22: once a relationship has been deleted, a further [update_buddy]
    or [delete_buddy] of the same id is answered 404 and changes nothing,
    whoever calls. *)
Theorem deleted_buddy_is_gone (response : Response) (buddy_id : Z)
    (current_user other : UserProfile) (b : Backend) (status now : string) (user_id : Z) :
  fst (delete_buddy buddy_id current_user b) = inr tt ->
  truthy_int (u_id other) = Some user_id ->
  let b' := snd (delete_buddy buddy_id current_user b) in
  update_buddy response buddy_id status other b' now =
    (inl (HTTPError 404 "Buddy not found"), b') /\
  delete_buddy buddy_id other b' = (inl (HTTPError 404 "Buddy not found"), b').
Proof.
  intros Hdel Hid b'.
  pose proof (HandlerFacts.delete_effect_helper buddy_id current_user b) as H.
  cbv zeta in H. rewrite Hdel in H. destruct H as (Hconn & Hgone).
  fold b' in Hconn, Hgone.
  assert (buddy_by_id b' buddy_id = None) as Hnone.
  { unfold buddy_by_id. rewrite Hgone. destruct (bk_raises b' HBuddyById); reflexivity. }
  unfold update_buddy, delete_buddy. rewrite Hconn, Hid, Hnone. split; reflexivity.
Qed.

Lemma deleted_buddy_is_gone_witness :
  fst (delete_buddy 1 Sample.alice (SampleStore.store SampleStore.no_raise)) = inr tt /\
  truthy_int (u_id Sample.bob) = Some 2%Z /\
  update_buddy Sample.every_row 1 "accepted" Sample.bob
    (snd (delete_buddy 1 Sample.alice (SampleStore.store SampleStore.no_raise)))
    "2024-06-01T00:00:00" =
  (inl (HTTPError 404 "Buddy not found"),
   snd (delete_buddy 1 Sample.alice (SampleStore.store SampleStore.no_raise))) /\
  delete_buddy 1 Sample.bob
    (snd (delete_buddy 1 Sample.alice (SampleStore.store SampleStore.no_raise))) =
  (inl (HTTPError 404 "Buddy not found"),
   snd (delete_buddy 1 Sample.alice (SampleStore.store SampleStore.no_raise))).
Proof.
  split; [reflexivity |]. split; [reflexivity |].
  apply (deleted_buddy_is_gone Sample.every_row 1 Sample.alice Sample.bob
           (SampleStore.store SampleStore.no_raise) "accepted" "2024-06-01T00:00:00" 2);
    reflexivity.
Defined.

Module ListFacts.

Lemma keep_fold_spec (status_filter : option string) (l : list BuddyRow)
    (ids : gset Z) (out : list BuddyRow) :
  (forall i, i ∈ ids <-> i ∈ b_id <$> out) ->
  NoDup (b_id <$> out) ->
  let res := fold_left (keep_step status_filter) l (ids, out) in
  (forall i, i ∈ fst res <-> i ∈ b_id <$> snd res) /\
  NoDup (b_id <$> snd res) /\
  (forall x, x ∈ snd res -> x ∈ out \/ (x ∈ l /\ passes_filter status_filter x = true)) /\
  (forall x, x ∈ l -> passes_filter status_filter x = true -> b_id x ∈ fst res) /\
  (forall i, i ∈ ids -> i ∈ fst res).
Proof.
  revert ids out. induction l as [| y l IH]; intros ids out Hids Hnd; cbn [fold_left].
  - cbn. split; [exact Hids |]. split; [exact Hnd |]. split; [auto |].
    split; [intros x Hx; inversion Hx | auto].
  - change (keep_step status_filter (ids, out) y) with
      (if negb (bool_decide (b_id y ∈ ids)) && passes_filter status_filter y
       then (ids ∪ {[b_id y]}, out ++ [y]) else (ids, out)).
    destruct (negb (bool_decide (b_id y ∈ ids)) && passes_filter status_filter y) eqn:E.
    + apply andb_true_iff in E as [Hnew Hpass].
      apply negb_true_iff, bool_decide_eq_false in Hnew.
      specialize (IH (ids ∪ {[b_id y]}) (out ++ [y])).
      destruct IH as (I1 & I2 & I3 & I4 & I5).
      * intros i. rewrite fmap_app, elem_of_union, elem_of_app, Hids. cbn.
        rewrite elem_of_singleton, list_elem_of_singleton. reflexivity.
      * rewrite fmap_app. apply NoDup_app. split; [exact Hnd |]. split.
        -- intros i Hi Hy. cbn in Hy. apply list_elem_of_singleton in Hy. subst i.
           apply Hnew, Hids, Hi.
        -- cbn. apply NoDup_singleton.
      * split; [exact I1 |]. split; [exact I2 |]. split; [| split].
        -- intros x Hx. destruct (I3 x Hx) as [Ho | [Hl Hp]].
           ++ apply elem_of_app in Ho as [Ho | Ho]; [left; exact Ho |].
              apply list_elem_of_singleton in Ho. subst x. right. split; [left | exact Hpass].
           ++ right. split; [right; exact Hl | exact Hp].
        -- intros x Hx Hp. apply elem_of_cons in Hx as [-> | Hx].
           ++ apply I5. apply elem_of_union_r, elem_of_singleton. reflexivity.
           ++ apply I4; assumption.
        -- intros i Hi. apply I5, elem_of_union_l, Hi.
    + specialize (IH ids out Hids Hnd). destruct IH as (I1 & I2 & I3 & I4 & I5).
      split; [exact I1 |]. split; [exact I2 |]. split; [| split].
      * intros x Hx. destruct (I3 x Hx) as [Ho | [Hl Hp]]; [left; exact Ho |].
        right. split; [right; exact Hl | exact Hp].
      * intros x Hx Hp. apply elem_of_cons in Hx as [-> | Hx]; [| apply I4; assumption].
        rewrite Hp, andb_true_r in E. apply negb_false_iff, bool_decide_eq_true in E.
        apply I5, E.
      * exact I5.
Qed.

Lemma keep_unique_spec (status_filter : option string) (l : list BuddyRow) :
  let kept := snd (keep_unique status_filter l) in
  NoDup (b_id <$> kept) /\
  (forall x, x ∈ kept -> x ∈ l /\ passes_filter status_filter x = true) /\
  (forall x, x ∈ l -> passes_filter status_filter x = true -> b_id x ∈ b_id <$> kept).
Proof.
  cbv zeta.
  assert (keep_unique status_filter l = fold_left (keep_step status_filter) l (∅, [])) as ->.
  { unfold keep_unique. generalize (∅ : gset Z, @nil BuddyRow).
    induction l as [| y l IH]; intros acc; [reflexivity |].
    cbn [fold_left]. rewrite IH. destruct acc; reflexivity. }
  destruct (keep_fold_spec status_filter l ∅ []) as (I1 & I2 & I3 & I4 & _).
  - intros i. cbn. split; intros H; [apply not_elem_of_empty in H | inversion H]; contradiction.
  - cbn. apply NoDup_nil_2.
  - split; [exact I2 |]. split.
    + intros x Hx. destruct (I3 x Hx) as [Ho | H]; [inversion Ho | exact H].
    + intros x Hx Hp. apply I1, I4; assumption.
Qed.

End ListFacts.

Module DetailFacts.





Lemma describe_buddies (b : Backend) (buddies : list BuddyRow) :
  bd_buddy <$> describe b buddies = buddies.
Proof.
  unfold describe. rewrite <- list_fmap_compose.
  transitivity (id <$> buddies); [| apply list_fmap_id].
  apply list_fmap_ext. intros _ x _. reflexivity.
Qed.

End DetailFacts.

(** X23: with a connection and a caller id, [list_buddies] answers 503
    when one of its two reads of [buddies] raises, as the repository's
    error-contract tests require. *)
Theorem list_buddies_read_failure (response : DetailResponse)
    (status_filter : option string) (current_user : UserProfile) (b : Backend)
    (user_id : Z) :
  bk_raises b HConnect = false ->
  truthy_int (u_id current_user) = Some user_id ->
  bk_raises b HListAsUser1 = true \/ bk_raises b HListAsUser2 = true ->
  list_buddies response status_filter current_user b =
  inl (Refused (HTTPError 503 "Service temporarily unavailable")).
Proof.
  intros Hc Hid Hfail. unfold list_buddies, involved_buddies. rewrite Hc, Hid.
  destruct Hfail as [-> | ->]; [reflexivity |].
  destruct (bk_raises b HListAsUser1); reflexivity.
Qed.

Lemma list_buddies_read_failure_witness :
  bk_raises (SampleStore.store SampleStore.list_read_raises) HConnect = false /\
  truthy_int (u_id Sample.alice) = Some 1%Z /\
  (bk_raises (SampleStore.store SampleStore.list_read_raises) HListAsUser1 = true \/
   bk_raises (SampleStore.store SampleStore.list_read_raises) HListAsUser2 = true) /\
  list_buddies SampleStore.every_detail None Sample.alice
    (SampleStore.store SampleStore.list_read_raises) =
  inl (Refused (HTTPError 503 "Service temporarily unavailable")).
Proof.
  split; [reflexivity |]. split; [reflexivity |]. split; [right; reflexivity |].
  apply (list_buddies_read_failure SampleStore.every_detail None Sample.alice
           (SampleStore.store SampleStore.list_read_raises) 1);
    [reflexivity | reflexivity | right; reflexivity].
Defined.

(** X24: when its two reads of [buddies] succeed, [list_buddies] refuses
    nothing, whether or not the reads of users, sports and goals raise: it
    answers with the list of the selected relationships, or fails with an
    exception it does not catch when the response cannot be built for one
    of them.  The selected relationships are rows of the table that
    involve the caller and pass the status filter, no id is selected
    twice, and every such row of the table has its id among them; in
    particular the answer is the empty list when there is no such row. *)
Theorem list_buddies_selection (response : DetailResponse)
    (status_filter : option string) (current_user : UserProfile) (b : Backend)
    (user_id : Z) :
  bk_raises b HConnect = false ->
  truthy_int (u_id current_user) = Some user_id ->
  bk_raises b HListAsUser1 = false -> bk_raises b HListAsUser2 = false ->
  exists details,
    list_buddies response status_filter current_user b =
      (if forallb response details then inr details else inl Uncaught) /\
    NoDup (b_id <$> (bd_buddy <$> details)) /\
    Forall (fun r => r ∈ bk_buddies b /\
                     (b_user1_id r = user_id \/ b_user2_id r = user_id) /\
                     passes_filter status_filter r = true)
           (bd_buddy <$> details) /\
    (forall r, r ∈ bk_buddies b ->
               b_user1_id r = user_id \/ b_user2_id r = user_id ->
               passes_filter status_filter r = true ->
               b_id r ∈ b_id <$> (bd_buddy <$> details)).
Proof.
  intros Hc Hid H1 H2. unfold list_buddies, involved_buddies. rewrite Hc, Hid, H1, H2.
  cbv zeta.
  set (all := filter (fun r => b_user1_id r = user_id) (bk_buddies b) ++
              filter (fun r => b_user2_id r = user_id) (bk_buddies b)).
  destruct (ListFacts.keep_unique_spec status_filter all) as (Hnd & Hsub & Hall).
  cbv zeta in Hnd, Hsub, Hall.
  assert (forall x, x ∈ all <->
            x ∈ bk_buddies b /\ (b_user1_id x = user_id \/ b_user2_id x = user_id)) as Hallspec.
  { intros x. unfold all. rewrite elem_of_app, !list_elem_of_filter. tauto. }
  set (kept := snd (keep_unique status_filter all)) in *.
  assert (exists details,
            (match kept with
             | [] => inr []
             | _ :: _ => if forallb response (describe b kept) then inr (describe b kept)
                         else inl Uncaught
             end : Raised + list BuddyDetail) =
            (if forallb response details then inr details else inl Uncaught) /\
            bd_buddy <$> details = kept) as (details & -> & Hd).
  { destruct kept as [| k ks] eqn:Ek; [exists []; split; reflexivity |].
    eexists. split; [reflexivity |]. apply DetailFacts.describe_buddies. }
  exists details. split; [reflexivity |]. rewrite Hd.
  split; [exact Hnd |]. split.
  - apply Forall_forall. intros r Hr. destruct (Hsub r Hr) as [Hin Hp].
    apply Hallspec in Hin as [Hin Hinv]. auto.
  - intros r Hr Hinv Hp. apply Hall; [apply Hallspec; auto | exact Hp].
Qed.

Lemma list_buddies_selection_witness :
  bk_raises (SampleStore.store SampleStore.no_raise) HConnect = false /\
  truthy_int (u_id Sample.alice) = Some 1%Z /\
  bk_raises (SampleStore.store SampleStore.no_raise) HListAsUser1 = false /\
  bk_raises (SampleStore.store SampleStore.no_raise) HListAsUser2 = false /\
  exists details,
    list_buddies SampleStore.dated_details (Some "accepted"%string) Sample.alice
      (SampleStore.store SampleStore.no_raise) =
      (if forallb SampleStore.dated_details details then inr details else inl Uncaught) /\
    NoDup (b_id <$> (bd_buddy <$> details)) /\
    Forall (fun r => r ∈ bk_buddies (SampleStore.store SampleStore.no_raise) /\
                     (b_user1_id r = 1%Z \/ b_user2_id r = 1%Z) /\
                     passes_filter (Some "accepted"%string) r = true)
           (bd_buddy <$> details) /\
    (forall r, r ∈ bk_buddies (SampleStore.store SampleStore.no_raise) ->
               b_user1_id r = 1%Z \/ b_user2_id r = 1%Z ->
               passes_filter (Some "accepted"%string) r = true ->
               b_id r ∈ b_id <$> (bd_buddy <$> details)).
Proof.
  split; [reflexivity |]. split; [reflexivity |]. split; [reflexivity |].
  split; [reflexivity |].
  apply (list_buddies_selection SampleStore.dated_details (Some "accepted"%string)
           Sample.alice (SampleStore.store SampleStore.no_raise) 1); reflexivity.
Defined.



Module PageFacts.

Lemma slice_nonneg {A} (l : list A) (a n : Z) :
  (0 <= a)%Z -> (0 <= n)%Z ->
  slice l a (a + n) = take (Z.to_nat n) (drop (Z.to_nat a) l).
Proof.
  intros Ha Hn. unfold slice, slice_index.
  destruct (Z.ltb_spec a 0); [lia |]. destruct (Z.ltb_spec (a + n) 0); [lia |].
  set (len := Z.of_nat (length l)).
  destruct (Z_le_gt_dec a len) as [Hle | Hgt].
  - rewrite (Z.min_l a len) by lia.
    destruct (Z_le_gt_dec (a + n) len) as [Hle2 | Hgt2].
    + rewrite Z.min_l by lia. f_equal. lia.
    + rewrite Z.min_r by lia.
      rewrite (take_ge (drop (Z.to_nat a) l) (Z.to_nat n)) by (rewrite length_drop; lia).
      apply take_ge. rewrite length_drop. lia.
  - rewrite (Z.min_r a len) by lia. rewrite Z.min_r by lia.
    rewrite !drop_ge by lia. rewrite !take_nil. reflexivity.
Qed.

Lemma take_join {A} (l : list A) (a n m : Z) :
  (0 <= a)%Z -> (0 <= n)%Z -> (0 <= m)%Z ->
  take (Z.to_nat n) (drop (Z.to_nat a) l) ++ take (Z.to_nat m) (drop (Z.to_nat (a + n)) l) =
  take (Z.to_nat (n + m)) (drop (Z.to_nat a) l).
Proof.
  intros Ha Hn Hm.
  rewrite (Z2Nat.inj_add a n), (Z2Nat.inj_add n m) by assumption.
  rewrite <- drop_drop. apply take_take_drop.
Qed.

Lemma suggestion_entry (b : Backend) (ids : list Z) (fetched : option (list RsvpEvent))
    (sports : gmap Z SportTag) (m : ScoredCandidate) :
  page_entry (suggestion b ids fetched sports m) = ranked_entry m.
Proof. reflexivity. Qed.

Lemma suggested_answer (limit : Z) (min_score : Q) (offset : Z)
    (current_user : UserProfile) (b : Backend) :
  bk_raises b HConnect = false ->
  (exists user_id, truthy_int (u_id current_user) = Some user_id) ->
  u_is_discoverable current_user = true ->
  exists page,
    get_suggested_buddies limit min_score offset current_user b = inr page /\
    page_entry <$> page =
    ranked_entry <$> slice (suggested_ranking b current_user) offset (offset + limit) /\
    exists ids fetched sports,
      page = suggestion b ids fetched sports <$>
             slice (suggested_ranking b current_user) offset (offset + limit).
Proof.
  intros Hc [user_id Hid] Hd. unfold get_suggested_buddies, suggested_ranking.
  rewrite Hc, Hid, Hd. cbn [negb]. cbv zeta. fold (caller_profile b current_user user_id).
  destruct (slice _ offset (offset + limit)) as [| m ms] eqn:E.
  - exists []. split; [reflexivity |]. split; [reflexivity |].
    exists [], None, ∅. reflexivity.
  - eexists. split; [reflexivity |]. split.
    + rewrite <- list_fmap_compose. apply list_fmap_ext. intros _ x _. reflexivity.
    + eexists _, _, _. reflexivity.
Qed.

End PageFacts.

(** X26: [get_suggested_buddies] refuses in three cases only: no
    connection (500), a caller without a usable id (400), a caller who has
    not enabled discovery (403).  In every other case it answers with a
    page, whichever of its reads of sports, goals, RSVPs and photos
    raise. *)
Theorem suggested_refusals (limit : Z) (min_score : Q) (offset : Z)
    (current_user : UserProfile) (b : Backend) :
  match get_suggested_buddies limit min_score offset current_user b with
  | inl e =>
      (bk_raises b HConnect = true /\ e = HTTPError 500 (Caught "Supabase connection error")) \/
      (bk_raises b HConnect = false /\ truthy_int (u_id current_user) = None /\
       e = HTTPError 400 "User ID not found") \/
      (bk_raises b HConnect = false /\ u_is_discoverable current_user = false /\
       e = HTTPError 403 "You must enable discovery to find buddies")
  | inr _ =>
      bk_raises b HConnect = false /\ u_is_discoverable current_user = true /\
      exists user_id, truthy_int (u_id current_user) = Some user_id
  end.
Proof.
  destruct (bk_raises b HConnect) eqn:Hc.
  - unfold get_suggested_buddies. rewrite Hc. left. auto.
  - destruct (truthy_int (u_id current_user)) as [user_id |] eqn:Hid.
    + destruct (u_is_discoverable current_user) eqn:Hd.
      * destruct (PageFacts.suggested_answer limit min_score offset current_user b Hc
                    (ex_intro _ user_id Hid) Hd) as (page & -> & _).
        eauto.
      * unfold get_suggested_buddies. rewrite Hc, Hid, Hd. right. right. auto.
    + unfold get_suggested_buddies. rewrite Hc, Hid. right. left. auto.
Qed.

(** X27: for a non-negative offset and limit, the page lists, with their
    scores unchanged, the entries of the ranking from position [offset]
    on, [limit] of them at most, in ranking order, whatever [min_score]
    is. *)
Theorem suggested_page_is_a_slice (limit : Z) (min_score : Q) (offset : Z)
    (current_user : UserProfile) (b : Backend) :
  (0 <= offset)%Z -> (0 <= limit)%Z ->
  bk_raises b HConnect = false ->
  (exists user_id, truthy_int (u_id current_user) = Some user_id) ->
  u_is_discoverable current_user = true ->
  let answer := get_suggested_buddies limit min_score offset current_user b in
  page_entries answer =
    take (Z.to_nat limit)
         (drop (Z.to_nat offset) (ranked_entry <$> suggested_ranking b current_user)) /\
  length (page_entries answer) <= Z.to_nat limit.
Proof.
  intros Ho Hl Hc Hid Hd answer.
  destruct (PageFacts.suggested_answer limit min_score offset current_user b Hc Hid Hd)
    as (page & Hpage & Hentries & _).
  subst answer. rewrite Hpage. unfold page_entries; cbn [answer_page]. rewrite Hentries.
  rewrite PageFacts.slice_nonneg by assumption.
  rewrite fmap_take, fmap_drop. split; [reflexivity |].
  rewrite length_take. lia.
Qed.

Lemma suggested_page_is_a_slice_witness :
  (0 <= 1)%Z /\ (0 <= 1)%Z /\
  bk_raises (SampleStore.store SampleStore.no_raise) HConnect = false /\
  (exists user_id, truthy_int (u_id Sample.alice) = Some user_id) /\
  u_is_discoverable Sample.alice = true /\
  page_entries (get_suggested_buddies 1 20 1 Sample.alice
                  (SampleStore.store SampleStore.no_raise)) =
    take (Z.to_nat 1)
         (drop (Z.to_nat 1)
            (ranked_entry <$>
             suggested_ranking (SampleStore.store SampleStore.no_raise) Sample.alice)) /\
  length (page_entries (get_suggested_buddies 1 20 1 Sample.alice
                          (SampleStore.store SampleStore.no_raise))) <= Z.to_nat 1.
Proof.
  split; [lia |]. split; [lia |]. split; [reflexivity |].
  split; [exists 1%Z; reflexivity |]. split; [reflexivity |].
  apply (suggested_page_is_a_slice 1 20 1 Sample.alice
           (SampleStore.store SampleStore.no_raise));
    [lia | lia | reflexivity | exists 1%Z; reflexivity | reflexivity].
Defined.

(** X28: consecutive pages join up: the entries of the page at [offset]
    of size [n], followed by those of the page at [offset + n] of size
    [m], are the entries of the page at [offset] of size [n + m]. *)
Theorem suggested_pages_join (n m offset : Z) (min_score : Q)
    (current_user : UserProfile) (b : Backend) :
  (0 <= offset)%Z -> (0 <= n)%Z -> (0 <= m)%Z ->
  page_entries (get_suggested_buddies n min_score offset current_user b) ++
  page_entries (get_suggested_buddies m min_score (offset + n) current_user b) =
  page_entries (get_suggested_buddies (n + m) min_score offset current_user b).
Proof.
  intros Ho Hn Hm.
  destruct (bk_raises b HConnect) eqn:Hc;
    [unfold get_suggested_buddies; rewrite Hc; reflexivity |].
  destruct (truthy_int (u_id current_user)) as [user_id |] eqn:Hid;
    [| unfold get_suggested_buddies; rewrite Hc, Hid; reflexivity].
  destruct (u_is_discoverable current_user) eqn:Hd;
    [| unfold get_suggested_buddies; rewrite Hc, Hid, Hd; reflexivity].
  pose proof (ex_intro (fun i => Some user_id = Some i) user_id eq_refl) as Hex.
  rewrite <- Hid in Hex.
  destruct (PageFacts.suggested_answer n min_score offset current_user b Hc Hex Hd)
    as (p1 & -> & E1 & _).
  destruct (PageFacts.suggested_answer m min_score (offset + n) current_user b Hc Hex Hd)
    as (p2 & -> & E2 & _).
  destruct (PageFacts.suggested_answer (n + m) min_score offset current_user b Hc Hex Hd)
    as (p3 & -> & E3 & _).
  unfold page_entries; cbn [answer_page]. rewrite E1, E2, E3, <- fmap_app. f_equal.
  rewrite (PageFacts.slice_nonneg _ offset n), (PageFacts.slice_nonneg _ (offset + n) m),
    (PageFacts.slice_nonneg _ offset (n + m)) by lia.
  apply PageFacts.take_join; lia.
Qed.

Lemma suggested_pages_join_witness :
  (0 <= 0)%Z /\ (0 <= 1)%Z /\ (0 <= 1)%Z /\
  page_entries (get_suggested_buddies 1 20 0 Sample.alice
                  (SampleStore.store SampleStore.no_raise)) ++
  page_entries (get_suggested_buddies 1 20 (0 + 1) Sample.alice
                  (SampleStore.store SampleStore.no_raise)) =
  page_entries (get_suggested_buddies (1 + 1) 20 0 Sample.alice
                  (SampleStore.store SampleStore.no_raise)).
Proof.
  split; [lia |]. split; [lia |]. split; [lia |].
  apply (suggested_pages_join 1 1 0 20 Sample.alice
           (SampleStore.store SampleStore.no_raise)); lia.
Defined.

Module BadgeFacts.

Lemma slice_elem {A} (l : list A) (a b : Z) (x : A) : x ∈ slice l a b -> x ∈ l.
Proof.
  unfold slice. cbv zeta. intros H. apply RankFacts.take_elem in H.
  rewrite <- (take_drop (Z.to_nat (slice_index (Z.of_nat (length l)) a)) l).
  apply elem_of_app. right. exact H.
Qed.

(** An entry of a page is built from an entry of the ranking. *)
Lemma page_member (limit : Z) (min_score : Q) (offset : Z)
    (current_user : UserProfile) (b : Backend) (s : Suggestion) :
  s ∈ answer_page (get_suggested_buddies limit min_score offset current_user b) ->
  exists ids fetched sports m,
    m ∈ suggested_ranking b current_user /\ s = suggestion b ids fetched sports m /\
    fetched = recent_rsvps b ids.
Proof.
  unfold get_suggested_buddies, suggested_ranking.
  destruct (bk_raises b HConnect); [intros H; inversion H |].
  destruct (truthy_int (u_id current_user)) as [user_id |]; [| intros H; inversion H].
  destruct (negb (u_is_discoverable current_user)); [intros H; inversion H |].
  cbv zeta. fold (caller_profile b current_user user_id).
  destruct (slice _ offset (offset + limit)) as [| m0 ms] eqn:E; [intros H; inversion H |].
  cbn [answer_page]. intros H. apply list_elem_of_fmap in H as (m & -> & Hm).
  rewrite <- E in Hm. apply slice_elem in Hm.
  eexists _, _, _, m. split; [exact Hm |]. split; reflexivity.
Qed.

Lemma approved_for_client (b : Backend) (i : Z) :
  length (approved_for (client_of b) i) = length (approved_events b i).
Proof.
  unfold approved_for, approved_events, client_of. cbn [event_rsvps].
  induction (bk_rsvps b) as [| r rows IH]; [reflexivity |].
  rewrite fmap_cons, !filter_cons. cbn [rsvp_row rv_user_id rv_status].
  destruct (decide (re_user_id r = Some i /\ re_status r = "approved"%string)).
  - cbn [length]. rewrite IH. reflexivity.
  - exact IH.
Qed.

Lemma activity_badge_names (c : Z) :
  badge_name <$> activity_badge c =
  if (10 <=? c)%Z then ["Event Veteran"%string]
  else if (5 <=? c)%Z then ["Active Member"%string]
  else if (1 <=? c)%Z then ["Getting Started"%string]
  else [].
Proof.
  unfold activity_badge.
  destruct (10 <=? c)%Z; [reflexivity |]. destruct (5 <=? c)%Z; [reflexivity |].
  destruct (1 <=? c)%Z; reflexivity.
Qed.

Ltac names :=
  rewrite ?elem_of_app, ?elem_of_cons, ?elem_of_nil;
  intuition (try lia; try discriminate).

Lemma badges_of_names (c : Z) (sports : Items) :
  let names := badge_name <$> badges_of c sports in
  ("Event Veteran"%string ∈ names <-> (10 <= c)%Z) /\
  ("Active Member"%string ∈ names <-> (5 <= c < 10)%Z) /\
  ("Getting Started"%string ∈ names <-> (1 <= c < 5)%Z) /\
  ("Multi-Sport"%string ∈ names <-> 5 <= items_length sports).
Proof.
  cbv zeta. unfold badges_of. rewrite fmap_app, activity_badge_names.
  destruct (Z.leb_spec 10 c); [| destruct (Z.leb_spec 5 c); [| destruct (Z.leb_spec 1 c)]];
    destruct (Nat.leb_spec 5 (items_length sports)); cbn [fmap list_fmap badge_name];
    (split; [| split; [| split]]); names.
Qed.

End BadgeFacts.

Module EventFacts.

Lemma entry_event_count (user : UserProfile) (supabase : Client) (limit : option Z)
    (min_score : Q) (e : ScoredCandidate) :
  fails supabase QEventRsvps = false ->
  e ∈ find_potential_buddies user supabase limit min_score ->
  exists i, u_id (sc_user e) = Some i /\
            u_event_count (sc_user e) =
            Some (Z.of_nat (length (approved_for supabase i))).
Proof.
  intros F He.
  apply RankingAnatomy.entry_anatomy in He as (user_id & u & Hid & Hu & Huser & _).
  cbv zeta in Huser.
  apply PassFacts.pool_member_id in Hu as (i & Hi & _ & Hin).
  exists i. rewrite Huser. cbn. split; [exact Hi |].
  rewrite Hi, PassFacts.pass_count, F.
  rewrite bool_decide_eq_true_2 by exact Hin. reflexivity.
Qed.

Lemma insert_by_key_elem {A} (key : A -> string) (x y : A) (l : list A) :
  y ∈ insert_by_key key x l <-> y = x \/ y ∈ l.
Proof.
  induction l as [| z l IH]; cbn [insert_by_key].
  - rewrite list_elem_of_singleton, elem_of_nil. tauto.
  - destruct (String.leb (key z) (key x)).
    + rewrite elem_of_cons. tauto.
    + rewrite !elem_of_cons, IH. tauto.
Qed.

Lemma sort_by_key_elem {A} (key : A -> string) (y : A) (l : list A) :
  y ∈ sort_by_key key l <-> y ∈ l.
Proof.
  unfold sort_by_key. induction l as [| x l IH]; cbn [foldr]; [tauto |].
  rewrite insert_by_key_elem, IH, elem_of_cons. tauto.
Qed.

Lemma recent_events_of_length (rows : list RsvpEvent) (uid : Z) :
  length (recent_events_of rows uid) <= 3.
Proof. unfold recent_events_of. cbv zeta. rewrite length_fmap, length_take. lia. Qed.

Lemma recent_events_of_elem (rows : list RsvpEvent) (uid : Z) (e : EventRow) :
  e ∈ recent_events_of rows uid ->
  exists r, r ∈ rows /\ re_user_id r = Some uid /\ re_event r = Some e.
Proof.
  unfold recent_events_of. cbv zeta. intros H.
  apply list_elem_of_fmap in H as ([e' at_] & -> & H).
  apply RankFacts.take_elem, sort_by_key_elem, list_elem_of_omap in H as (r & Hr & Hev).
  apply list_elem_of_filter in Hr as [Hu Hr].
  exists r. split; [exact Hr |]. split; [exact Hu |].
  destruct (re_event r) as [ev |]; [| discriminate]. cbn in Hev. injection Hev as -> _. reflexivity.
Qed.

End EventFacts.

(** X29: the badges of a suggested user follow the table of RSVPs: when
    the ranker's RSVP read succeeds, the user's event count is the number
    of approved RSVPs stored for that user, and the user is shown as
    "Event Veteran" from 10 of them, "Active Member" from 5 to 9,
    "Getting Started" from 1 to 4, and as "Multi-Sport" exactly with five
    sports or more. *)
Theorem suggested_badges_follow_rsvps (limit : Z) (min_score : Q) (offset : Z)
    (current_user : UserProfile) (b : Backend) :
  bk_fails b QEventRsvps = false ->
  Forall (fun s =>
            let u := sg_user s in
            exists i, su_id u = Some i /\
              let n := Z.of_nat (length (approved_events b i)) in
              su_event_count u = n /\
              ("Event Veteran"%string ∈ badge_names u <-> (10 <= n)%Z) /\
              ("Active Member"%string ∈ badge_names u <-> (5 <= n < 10)%Z) /\
              ("Getting Started"%string ∈ badge_names u <-> (1 <= n < 5)%Z) /\
              ("Multi-Sport"%string ∈ badge_names u <-> 5 <= items_length (su_sports u)))
         (answer_page (get_suggested_buddies limit min_score offset current_user b)).
Proof.
  intros F. apply Forall_forall. intros s Hs.
  apply BadgeFacts.page_member in Hs as (ids & fetched & sports & m & Hm & -> & _).
  unfold suggested_ranking in Hm.
  destruct (truthy_int (u_id current_user)) as [user_id |]; [| inversion Hm].
  apply EventFacts.entry_event_count in Hm as (i & Hi & Hc); [| exact F].
  cbv zeta. exists i. unfold suggestion. cbv zeta.
  cbn [sg_user su_id su_event_count su_sports badge_names su_badges].
  split; [exact Hi |]. rewrite Hc, BadgeFacts.approved_for_client. cbn [default].
  split; [reflexivity |]. apply BadgeFacts.badges_of_names.
Qed.

Lemma suggested_badges_follow_rsvps_witness :
  bk_fails (SampleStore.store SampleStore.no_raise) QEventRsvps = false /\
  Forall (fun s =>
            exists i, su_id (sg_user s) = Some i /\
              su_event_count (sg_user s) =
              Z.of_nat (length (approved_events (SampleStore.store SampleStore.no_raise) i)) /\
              ("Event Veteran"%string ∈ badge_names (sg_user s) <->
               (10 <= Z.of_nat (length (approved_events
                                          (SampleStore.store SampleStore.no_raise) i)))%Z) /\
              ("Active Member"%string ∈ badge_names (sg_user s) <->
               (5 <= Z.of_nat (length (approved_events
                                         (SampleStore.store SampleStore.no_raise) i)) < 10)%Z) /\
              ("Getting Started"%string ∈ badge_names (sg_user s) <->
               (1 <= Z.of_nat (length (approved_events
                                         (SampleStore.store SampleStore.no_raise) i)) < 5)%Z) /\
              ("Multi-Sport"%string ∈ badge_names (sg_user s) <->
               5 <= items_length (su_sports (sg_user s))))
         (answer_page (get_suggested_buddies 10 20 0 Sample.alice
                         (SampleStore.store SampleStore.no_raise))).
Proof.
  split; [reflexivity |].
  apply (suggested_badges_follow_rsvps 10 20 0 Sample.alice
           (SampleStore.store SampleStore.no_raise)).
  reflexivity.
Defined.

(** X30: a suggested user is shown with three recent events at most, and
    each of them is the event joined to an approved RSVP that the table
    holds for this user (the store's ordering only rearranging rows). *)
Theorem suggested_recent_events (limit : Z) (min_score : Q) (offset : Z)
    (current_user : UserProfile) (b : Backend) :
  (forall rows r, r ∈ bk_order_rsvps b rows -> r ∈ rows) ->
  Forall (fun s =>
            let u := sg_user s in
            length (su_recent_events u) <= 3 /\
            Forall (fun shown =>
                      exists r event,
                        r ∈ bk_rsvps b /\ re_user_id r = su_id u /\
                        re_status r = "approved"%string /\ re_event r = Some event /\
                        rc_id shown = ev_id event /\ rc_title shown = ev_title event /\
                        rc_start_time shown = ev_start_time event)
                   (su_recent_events u))
         (answer_page (get_suggested_buddies limit min_score offset current_user b)).
Proof.
  intros Horder. apply Forall_forall. intros s Hs.
  apply BadgeFacts.page_member in Hs as (ids & fetched & sports & m & _ & -> & Hf).
  cbv zeta. unfold suggestion. cbv zeta. cbn [sg_user su_id su_recent_events].
  destruct (u_id (sc_user m)) as [uid |]; [| split; [cbn; lia | constructor]].
  destruct fetched as [rows |]; [| split; [cbn; lia | constructor]].
  split.
  - rewrite length_fmap. apply EventFacts.recent_events_of_length.
  - apply Forall_forall. intros shown Hshown.
    apply list_elem_of_fmap in Hshown as (event & -> & He).
    apply EventFacts.recent_events_of_elem in He as (r & Hr & Hu & Hev).
    exists r, event. unfold recent_rsvps in Hf.
    destruct (bk_raises b HRecentRsvps); [discriminate |]. injection Hf as ->.
    apply RankFacts.take_elem, Horder, list_elem_of_filter in Hr as [Hp Hr].
    apply Is_true_true, andb_true_iff in Hp as [Hs _]. apply String.eqb_eq in Hs.
    repeat split; assumption.
Qed.

Lemma suggested_recent_events_witness :
  (forall rows r, r ∈ bk_order_rsvps (SampleStore.store SampleStore.no_raise) rows ->
                  r ∈ rows) /\
  Forall (fun s =>
            length (su_recent_events (sg_user s)) <= 3 /\
            Forall (fun shown =>
                      exists r event,
                        r ∈ bk_rsvps (SampleStore.store SampleStore.no_raise) /\
                        re_user_id r = su_id (sg_user s) /\
                        re_status r = "approved"%string /\ re_event r = Some event /\
                        rc_id shown = ev_id event /\ rc_title shown = ev_title event /\
                        rc_start_time shown = ev_start_time event)
                   (su_recent_events (sg_user s)))
         (answer_page (get_suggested_buddies 10 20 0 Sample.alice
                         (SampleStore.store SampleStore.no_raise))).
Proof.
  split; [intros rows r H; exact H |].
  apply (suggested_recent_events 10 20 0 Sample.alice
           (SampleStore.store SampleStore.no_raise)).
  intros rows r H. exact H.
Defined.

(** The sample page: Dave, then Carol as an active member with her three
    latest events. *)
Example sample_page :
  (fun s => (su_full_name (sg_user s), badge_names (sg_user s),
             rc_title <$> su_recent_events (sg_user s),
             su_photos (sg_user s))) <$>
  answer_page (get_suggested_buddies 10 20 0 Sample.alice
                 (SampleStore.store SampleStore.no_raise)) =
  [("Dave"%string, [], [], []);
   ("Carol"%string, ["Active Member"%string],
    [Some "Morning run"%string; Some "Evening yoga"%string; Some "Morning run"%string],
    ["https://example.org/carol.jpg"%string])].
Proof. vm_compute. reflexivity. Qed.

(** When the response cannot be built from the updated row, [update_buddy]
    answers 500 and the relationship is accepted all the same. *)
Example update_without_a_date :
  let b := with_buddies [mkBuddy 1 1 2 (80 # 1) "pending" "now"] ∅
             (SampleStore.store SampleStore.no_raise) in
  let result := update_buddy Sample.dated_rows 1 "accepted" Sample.bob b "2024-06-01" in
  fst result = inl (HTTPError 500 (Caught "Failed to update buddy")) /\
  b_status <$> bk_buddies (snd result) = ["accepted"%string].
Proof. split; reflexivity. Qed.

(** When the detail of a listed relationship cannot be built,
    [list_buddies] fails with an exception it does not catch. *)
Example list_without_a_date :
  let b := with_buddies [mkBuddy 1 1 2 (80 # 1) "pending" "now"] ∅
             (SampleStore.store SampleStore.no_raise) in
  list_buddies SampleStore.dated_details None Sample.alice b = inl Uncaught /\
  list_buddies SampleStore.dated_details (Some "accepted"%string) Sample.alice b = inr [].
Proof. split; reflexivity. Qed.
